(** * LinkedIn Profile Analyzer: the batch pipeline of [main.py]

    A shallow embedding of [process_csv_batch] and [save_batch_results]
    and the properties of the batch orchestration that the design
    document states about them.

    Python values are modelled as follows.
    - [str] is a sequence of Unicode code points ([list N]); [lit] turns
      a literal into one.
    - A Python [int] is a [Z].
    - A [float] is an IEEE 754 binary64 number, [spec_float] with
      precision 53 and maximal exponent 1024.
    - A call that can raise returns an [outcome]; mutable locals, the
      outside world and the files live in an explicit state that
      survives a raise, as Python's do.
    - The scraper, the summarizer, the clock and [open] are
      collaborators whose calls are transitions of an arbitrary world;
      the calls of a batch run are recorded in a trace.
    - Calls to the logger only write to the process log and are left
      out.  Opening a file can raise; writing to a file that has been
      opened is taken to succeed. *)

From Stdlib Require Import List ZArith NArith Bool Ascii String Lia Permutation.
From Stdlib Require Import Floats.SpecFloat.
Import ListNotations.

Local Open Scope Z_scope.

(* ================================================================== *)
(** * Strings *)
(* ================================================================== *)

Definition str := list N.

Definition lit (s : string) : str :=
  map N_of_ascii (list_ascii_of_string s).

Arguments lit : simpl never.

(** [bool(s)] for a string: the empty string is falsy. *)
Definition str_truthy (s : str) : bool :=
  match s with [] => false | _ :: _ => true end.

Fixpoint str_eqb (a b : str) : bool :=
  match a, b with
  | [], [] => true
  | c :: a', d :: b' => N.eqb c d && str_eqb a' b'
  | _, _ => false
  end.

Fixpoint startswith (p s : str) : bool :=
  match p, s with
  | [], _ => true
  | _ :: _, [] => false
  | c :: p', d :: s' => N.eqb c d && startswith p' s'
  end.

(** [p in s] for two strings: [p] occurs in [s] as a substring. *)
Fixpoint contains (p s : str) : bool :=
  startswith p s ||
  match s with
  | [] => false
  | _ :: s' => contains p s'
  end.

(** The code points for which [str.isspace] holds; [str.strip()] removes
    exactly these from both ends. *)
Definition isspace (c : N) : bool :=
  (((9 <=? c) && (c <=? 13)) || ((28 <=? c) && (c <=? 32))
   || (c =? 133) || (c =? 160) || (c =? 5760)
   || ((8192 <=? c) && (c <=? 8202))
   || (c =? 8232) || (c =? 8233) || (c =? 8239) || (c =? 8287)
   || (c =? 12288))%N.

Fixpoint lstrip (s : str) : str :=
  match s with
  | [] => []
  | c :: s' => if isspace c then lstrip s' else s
  end.

Definition rstrip (s : str) : str := rev (lstrip (rev s)).

Definition strip (s : str) : str := rstrip (lstrip s).

(** [sep.join(l)] *)
Fixpoint join (sep : str) (l : list str) : str :=
  match l with
  | [] => []
  | [a] => a
  | a :: rest => a ++ sep ++ join sep rest
  end.

(** Decimal rendering of a non-negative [int], as [str(n)] and an
    f-string do. *)
Definition digit_char (d : Z) : N := (48 + Z.to_N d)%N.

Fixpoint decimal_fuel (fuel : nat) (n : Z) (acc : str) : str :=
  match fuel with
  | O => acc
  | S fuel' =>
      let acc' := digit_char (n mod 10) :: acc in
      if n / 10 =? 0 then acc' else decimal_fuel fuel' (n / 10) acc'
  end.

Definition str_of_int (n : Z) : str :=
  if n <? 0
  then lit "-" ++ decimal_fuel (S (Z.to_nat (Z.log2 (- n)))) (- n) []
  else decimal_fuel (S (Z.to_nat (Z.log2 n))) n [].

(* ================================================================== *)
(** * Exceptions and the state monad *)
(* ================================================================== *)

(** A raised exception: its class name, [str(e)], and whether it is an
    instance of [Exception].  [KeyboardInterrupt] and [SystemExit] are
    not, so [except Exception] lets them through. *)
Record pyexn := mkExn {
  exn_type : string;
  exn_str : str;
  exn_is_Exception : bool
}.

Inductive outcome (A : Type) : Type :=
| Ret (a : A)
| Raise (e : pyexn).
Arguments Ret {A} a.
Arguments Raise {A} e.

Definition ValueError (msg : str) : pyexn := mkExn "ValueError" msg true.
Definition TypeError (msg : str) : pyexn := mkExn "TypeError" msg true.
Definition AttributeError (msg : str) : pyexn := mkExn "AttributeError" msg true.
(** What [open] raises for a path into a directory that does not exist. *)
Definition FileNotFoundError (name : str) : pyexn :=
  mkExn "FileNotFoundError"
    (lit "[Errno 2] No such file or directory: '" ++ name ++ lit "'") true.

Definition ZeroDivisionError (msg : str) : pyexn :=
  mkExn "ZeroDivisionError" msg true.

(** Computations over a state [S] that may raise; the state reached at
    the raise is kept. *)
Definition M (S A : Type) : Type := S -> outcome A * S.

Definition ret {S A} (a : A) : M S A := fun s => (Ret a, s).

Definition raise {S A} (e : pyexn) : M S A := fun s => (Raise e, s).

Definition bind {S A B} (m : M S A) (k : A -> M S B) : M S B :=
  fun s =>
    match m s with
    | (Ret a, s') => k a s'
    | (Raise e, s') => (Raise e, s')
    end.

Definition lift_outcome {S A} (o : outcome A) : M S A := fun s => (o, s).

(** [try: body  except Exception as e: handler e] *)
Definition try_except {S A} (body : M S A) (handler : pyexn -> M S A) : M S A :=
  fun s =>
    match body s with
    | (Ret a, s') => (Ret a, s')
    | (Raise e, s') =>
        if exn_is_Exception e then handler e s' else (Raise e, s')
    end.

(** [try: body  finally: fin].  The [finally] block runs on every exit of
    [body]; if it raises, its exception replaces the pending result. *)
Definition try_finally {S A} (body : M S A) (fin : M S unit) : M S A :=
  fun s =>
    match body s with
    | (r, s') =>
        match fin s' with
        | (Ret _, s'') => (r, s'')
        | (Raise e, s'') => (Raise e, s'')
        end
    end.

Declare Scope py_scope.
Delimit Scope py_scope with py.
Notation "x <- m ;; k" := (bind m (fun x => k))
  (at level 61, m at next level, right associativity) : py_scope.
Notation "m ;;; k" := (bind m (fun _ => k))
  (at level 61, right associativity) : py_scope.

(* ================================================================== *)
(** * Batch input: [csv.DictReader] and the URL filter *)
(* ================================================================== *)

(** A dict with string keys, in insertion order.  [d[k] = v] overwrites
    in place or appends. *)
Fixpoint dict_set {V} (d : list (str * V)) (k : str) (v : V) : list (str * V) :=
  match d with
  | [] => [(k, v)]
  | (k', v') :: d' =>
      if str_eqb k' k then (k', v) :: d' else (k', v') :: dict_set d' k v
  end.

Fixpoint dict_get {V} (d : list (str * V)) (k : str) : option V :=
  match d with
  | [] => None
  | (k', v') :: d' => if str_eqb k' k then Some v' else dict_get d' k
  end.

(** A cell of a [DictReader] row is a string, or [None] where the row is
    shorter than the header ([restval]). *)
Definition row_dict := list (str * option str).

(** The input is taken after [csv.reader]: one list of cells per line,
    the empty list for a blank line. *)
Definition csv_records := list (list str).

(** [csv_reader.fieldnames]: the first record, [None] when there is no
    line at all. *)
Definition fieldnames (records : csv_records) : option (list str) :=
  match records with
  | [] => None
  | header :: _ => Some header
  end.

(** [dict(zip(fieldnames, row))] followed by
    [for key in fieldnames[lr:]: d[key] = restval].  Surplus cells go
    under the key [None], which no column name equals; they are left
    out. *)
Fixpoint zip_row (d : row_dict) (names : list str) (row : list str) : row_dict :=
  match names, row with
  | [], _ => d
  | k :: names', [] => zip_row (dict_set d k None) names' []
  | k :: names', c :: row' => zip_row (dict_set d k (Some c)) names' row'
  end.

Definition is_blank (row : list str) : bool :=
  match row with [] => true | _ => false end.

(** The rows the reader yields: blank records are skipped. *)
Definition dict_rows (records : csv_records) : list row_dict :=
  match records with
  | [] => []
  | header :: rest =>
      map (zip_row [] header) (filter (fun r => negb (is_blank r)) rest)
  end.

Definition profile_marker : str := lit "linkedin.com/in/".

(** The loop [for row in csv_reader] of [process_csv_batch]. *)
Fixpoint collect_urls (url_column : str) (rows : list row_dict) (urls : list str)
  : outcome (list str) :=
  match rows with
  | [] => Ret urls
  | row :: rest =>
      match
        match dict_get row url_column with
        | Some v => v
        | None => Some (lit "")
        end
      with
      | None =>
          Raise (AttributeError (lit "'NoneType' object has no attribute 'strip'"))
      | Some cell =>
          let url := strip cell in
          if str_truthy url && contains profile_marker url
          then collect_urls url_column rest (urls ++ [url])
          else collect_urls url_column rest urls
      end
  end.

Section Parser.

(** [repr] of a list of strings, as the f-string interpolates it. *)
Variable repr_list : list str -> str.

Definition column_error (url_column : str) (names : list str) : pyexn :=
  ValueError (lit "Column '" ++ url_column
              ++ lit "' not found in CSV. Available columns: "
              ++ repr_list names).

Definition empty_batch_error : pyexn :=
  ValueError (lit "No valid LinkedIn URLs found in the CSV file").

(** Lines 166-181 of [process_csv_batch]. *)
Definition parse_urls (records : csv_records) (url_column : str)
  : outcome (list str) :=
  match fieldnames records with
  | None =>
      Raise (TypeError (lit "argument of type 'NoneType' is not iterable"))
  | Some names =>
      if negb (existsb (str_eqb url_column) names)
      then Raise (column_error url_column names)
      else
        match collect_urls url_column (dict_rows records) [] with
        | Raise e => Raise e
        | Ret urls =>
            match urls with
            | [] => Raise empty_batch_error
            | _ :: _ => Ret urls
            end
        end
  end.

End Parser.

(* ================================================================== *)
(** * Data model *)
(* ================================================================== *)

(** An entry of the experience list: a dict with optional [title] and
    [company], or some other value (the aggregator tests
    [isinstance(exp, dict)]). *)
Inductive experience_entry :=
| ExpDict (title company : option str)
| ExpOther.

(** Modelled from the spec: the dict [scrape_profile] returns (the
    scraper module is not part of [main.py]).  A key may be absent. *)
Record ProfileRecord := mkProfile {
  p_name : option str;
  p_headline : option str;
  p_about : option str;
  p_experience : option (list experience_entry);
  p_skills : option (list str);
  p_education : option (list str);
  p_url : option str
}.

Definition is_some {A} (o : option A) : bool :=
  match o with Some _ => true | None => false end.

(** [bool(profile_data)] for a dict: false exactly for [{}]. *)
Definition profile_nonempty (p : ProfileRecord) : bool :=
  is_some (p_name p) || is_some (p_headline p) || is_some (p_about p)
  || is_some (p_experience p) || is_some (p_skills p)
  || is_some (p_education p) || is_some (p_url p).

(** [bool(d.get(key))] for a string-valued key. *)
Definition get_truthy (o : option str) : bool :=
  match o with
  | Some s => str_truthy s
  | None => false
  end.

(** [d.get(key, default)] *)
Definition get_default {A} (o : option A) (default : A) : A :=
  match o with
  | Some a => a
  | None => default
  end.

(** Modelled from the spec: the dict [analyze_profile] returns (the
    summarizer module is not part of [main.py]). *)
Record AnalysisResult := mkAnalysis {
  a_result : option str;
  a_mode : option str;
  a_error : option str
}.

Definition analysis_nonempty (a : AnalysisResult) : bool :=
  is_some (a_result a) || is_some (a_mode a) || is_some (a_error a).

(** An element of [results]. *)
Record success := mkSuccess {
  s_url : str;
  s_profile_data : ProfileRecord;
  s_analysis_result : AnalysisResult;
  s_index : Z;
  s_timestamp : str
}.

(** An element of [errors]. *)
Record failure := mkFailure {
  f_url : str;
  f_error : str;
  f_index : Z
}.

(* ================================================================== *)
(** * Collaborators *)
(* ================================================================== *)

(** The calls [process_csv_batch] makes on the scraper, the summarizer
    and the clock, and the call [open(name, 'w')] that
    [save_batch_results] makes on the file system, as transitions of an
    outside world [W].  Each may return or raise, the clock apart. *)
Record Collab (W : Type) := mkCollab {
  new_scraper : W -> outcome unit * W;
  login_to_linkedin : W -> outcome bool * W;
  page_goto : str -> W -> outcome unit * W;
  random_delay : Z -> Z -> W -> outcome unit * W;
  scrape_profile : str -> W -> outcome (option ProfileRecord) * W;
  analyze_profile :
    ProfileRecord -> str -> W -> outcome (option AnalysisResult) * W;
  now_isoformat : W -> str * W;
  now_strftime : str -> W -> str * W;
  close : W -> outcome unit * W;
  open_file : str -> W -> outcome unit * W
}.
Arguments new_scraper {W} _ _.
Arguments login_to_linkedin {W} _ _.
Arguments page_goto {W} _ _ _.
Arguments random_delay {W} _ _ _ _.
Arguments scrape_profile {W} _ _ _.
Arguments analyze_profile {W} _ _ _ _.
Arguments now_isoformat {W} _ _.
Arguments now_strftime {W} _ _ _.
Arguments close {W} _ _.
Arguments open_file {W} _ _ _.

(** What the run did to the outside, in order. *)
Inductive event :=
| ENew
| ELogin
| EGoto (url : str)
| EDelay (lo hi : Z)
| EScrape (url : str)
| EAnalyze (mode : str)
| ENow
| EClose.

Definition is_close (e : event) : bool :=
  match e with EClose => true | _ => false end.

Definition is_item_event (e : event) : bool :=
  match e with
  | EGoto _ | EDelay _ _ | EScrape _ | EAnalyze _ | ENow => true
  | _ => false
  end.

(** The state of a batch run: the world, the calls made so far and the
    two accumulators. *)
Record bstate (W : Type) := mkB {
  world : W;
  trace : list event;
  results : list success;
  errors : list failure
}.
Arguments mkB {W} _ _ _ _.
Arguments world {W} _.
Arguments trace {W} _.
Arguments results {W} _.
Arguments errors {W} _.

Definition init_state {W} (w : W) : bstate W := mkB w [] [] [].

(** A collaborator call: the world moves and the call is recorded. *)
Definition call {W A} (ev : event) (f : W -> outcome A * W) : M (bstate W) A :=
  fun s =>
    let (r, w') := f (world s) in
    (r, mkB w' (trace s ++ [ev]) (results s) (errors s)).

Definition call_total {W A} (ev : event) (f : W -> A * W) : M (bstate W) A :=
  fun s =>
    let (a, w') := f (world s) in
    (Ret a, mkB w' (trace s ++ [ev]) (results s) (errors s)).

Definition results_append {W} (r : success) : M (bstate W) unit :=
  fun s => (Ret tt, mkB (world s) (trace s) (results s ++ [r]) (errors s)).

Definition errors_append {W} (f : failure) : M (bstate W) unit :=
  fun s => (Ret tt, mkB (world s) (trace s) (results s) (errors s ++ [f])).

Definition get_results {W} : M (bstate W) (list success) :=
  fun s => (Ret (results s), s).

Definition get_errors {W} : M (bstate W) (list failure) :=
  fun s => (Ret (errors s), s).

(* ================================================================== *)
(** * [process_csv_batch] *)
(* ================================================================== *)

Definition scrape_failed_msg (url : str) : str :=
  lit "Failed to scrape profile: " ++ url.

Definition analysis_failed_msg (url : str) : str :=
  lit "Failed to generate analysis for: " ++ url.

Definition processing_error_msg (url : str) (e : pyexn) : str :=
  lit "Error processing " ++ url ++ lit ": " ++ exn_str e.

Definition login_failed_record : failure :=
  mkFailure (lit "login_failed") (lit "Failed to login to LinkedIn") 0.

Section Batch.

Context {W : Type}.
Variable env : Collab W.
Variable repr_list : list str -> str.

Local Open Scope py_scope.

(** [not analysis_result or analysis_result.get('error')] *)
Definition analysis_failed (a : option AnalysisResult) : bool :=
  match a with
  | None => true
  | Some a => negb (analysis_nonempty a) || get_truthy (a_error a)
  end.

(** The statements of the loop body after [profile_data] is known to be
    truthy (lines 220-246). *)
Definition analyze_and_store (analysis_mode : str) (i : Z) (url : str)
    (profile_data : ProfileRecord) : M (bstate W) unit :=
  analysis_result <-
    call (EAnalyze analysis_mode) (analyze_profile env profile_data analysis_mode) ;;
  match analysis_result with
  | Some a =>
      if analysis_failed analysis_result
      then errors_append (mkFailure url (analysis_failed_msg url) i)
      else
        timestamp <- call_total ENow (now_isoformat env) ;;
        results_append (mkSuccess url profile_data a i timestamp) ;;;
        call (EDelay 3 6) (random_delay env 3 6)
  | None => errors_append (mkFailure url (analysis_failed_msg url) i)
  end.

(** The [try] suite of the loop body (lines 201-246); the two
    [continue] statements are the branches that stop early. *)
Definition item_steps (analysis_mode : str) (i : Z) (url : str)
  : M (bstate W) unit :=
  call (EGoto url) (page_goto env url) ;;;
  call (EDelay 2 4) (random_delay env 2 4) ;;;
  profile_data <- call (EScrape url) (scrape_profile env url) ;;
  match profile_data with
  | None => errors_append (mkFailure url (scrape_failed_msg url) i)
  | Some p =>
      if profile_nonempty p
      then analyze_and_store analysis_mode i url p
      else errors_append (mkFailure url (scrape_failed_msg url) i)
  end.

(** The body of [for i, url in enumerate(urls, 1)] (lines 200-255). *)
Definition loop_body (analysis_mode : str) (i : Z) (url : str)
  : M (bstate W) unit :=
  try_except
    (item_steps analysis_mode i url)
    (fun e => errors_append (mkFailure url (processing_error_msg url e) i)).

Fixpoint batch_loop (analysis_mode : str) (i : Z) (urls : list str)
  : M (bstate W) unit :=
  match urls with
  | [] => ret tt
  | url :: rest =>
      loop_body analysis_mode i url ;;;
      batch_loop analysis_mode (i + 1) rest
  end.

(** The block guarded by [finally: scraper.close()] (lines 189-259).
    It yields [Some v] for the early [return v] and [None] when control
    falls through to the [return] after the block. *)
Definition session_block (analysis_mode : str) (urls : list str)
  : M (bstate W) (option (list success * list failure)) :=
  try_finally
    (logged_in <- call ELogin (login_to_linkedin env) ;;
     if negb logged_in
     then ret (Some ([], [login_failed_record]))
     else
       batch_loop analysis_mode 1 urls ;;;
       ret None)
    (call EClose (close env)).

(** The outer [except Exception as e: ...; raise e] logs and re-raises,
    so it leaves outcome and state as they are. *)
Definition process_csv_batch (records : csv_records) (url_column : str)
    (analysis_mode : str) : M (bstate W) (list success * list failure) :=
  try_except
    (urls <- lift_outcome (parse_urls repr_list records url_column) ;;
     call ENew (new_scraper env) ;;;
     early <- session_block analysis_mode urls ;;
     match early with
     | Some v => ret v
     | None =>
         rs <- get_results ;;
         es <- get_errors ;;
         ret (rs, es)
     end)
    (fun e => raise e).

(** One call of the function from a fresh frame. *)
Definition run_batch (records : csv_records) (url_column : str)
    (analysis_mode : str) (w : W)
  : outcome (list success * list failure) * bstate W :=
  process_csv_batch records url_column analysis_mode (init_state w).

End Batch.

Arguments analysis_failed : simpl never.

(* ================================================================== *)
(** * Floats: true division and the [.1f] format *)
(* ================================================================== *)

Definition prec : Z := 53.
Definition emax : Z := 1024.

(** [float(n)]; exact below [2^53], which every list length is. *)
Definition float_of_int (n : Z) : spec_float := binary_normalize prec emax n 0 false.

(** [a / b] on two ints. *)
Definition int_truediv (a b : Z) : outcome spec_float :=
  if b =? 0
  then Raise (ZeroDivisionError (lit "division by zero"))
  else Ret (SFdiv prec emax (float_of_int a) (float_of_int b)).

Definition float_mul_int (x : spec_float) (n : Z) : spec_float :=
  SFmul prec emax x (float_of_int n).

(** [num / den] rounded to the nearest integer, ties to even. *)
Definition round_half_even (num den : Z) : Z :=
  let q := num / den in
  let r := num mod den in
  match 2 * r ?= den with
  | Lt => q
  | Gt => q + 1
  | Eq => if Z.even q then q else q + 1
  end.

(** Ten times the magnitude [m * 2^e], correctly rounded to an integer. *)
Definition tenths (m : positive) (e : Z) : Z :=
  match e with
  | Z0 => 10 * Zpos m
  | Zpos p => 10 * Zpos m * 2 ^ Zpos p
  | Zneg p => round_half_even (10 * Zpos m) (2 ^ Zpos p)
  end.

Definition fixed1 (t : Z) : str :=
  str_of_int (t / 10) ++ lit "." ++ [digit_char (t mod 10)].

Definition sign_str (s : bool) : str := if s then lit "-" else [].

(** [format(x, '.1f')] *)
Definition format_1f (x : spec_float) : str :=
  match x with
  | S754_zero s => sign_str s ++ lit "0.0"
  | S754_infinity s => sign_str s ++ lit "inf"
  | S754_nan => lit "nan"
  | S754_finite s m e => sign_str s ++ fixed1 (tenths m e)
  end.

(* ================================================================== *)
(** * [save_batch_results] *)
(* ================================================================== *)

(** A row of the results table. *)
Record results_row := mkResultsRow {
  r_profile_url : str;
  r_name : str;
  r_headline : str;
  r_about : str;
  r_experience_raw : str;
  r_experience_formatted : str;
  r_experience_count : Z;
  r_skills_raw : str;
  r_skills_formatted : str;
  r_skills_count : Z;
  r_education_raw : str;
  r_education_formatted : str;
  r_education_count : Z;
  r_analysis_result : str;
  r_analysis_mode : str;
  r_timestamp : str;
  r_processing_index : Z;
  r_scraping_success : str;
  r_analysis_success : str
}.

(** A row of the errors table. *)
Record errors_row := mkErrorsRow {
  e_profile_url : str;
  e_error : str;
  e_index : Z;
  e_timestamp : str;
  e_error_type : str
}.

(** What a file holds once written: a table (header and rows, as handed
    to [csv.DictWriter]) or text. *)
Inductive artifact :=
| ResultsCsv (header : list str) (rows : list results_row)
| ErrorsCsv (header : list str) (rows : list errors_row)
| SummaryTxt (text : str).


Definition results_fieldnames : list str :=
  map lit
    ["profile_url"; "name"; "headline"; "about";
     "experience_raw"; "experience_formatted"; "experience_count";
     "skills_raw"; "skills_formatted"; "skills_count";
     "education_raw"; "education_formatted"; "education_count";
     "analysis_result"; "analysis_mode"; "timestamp"; "processing_index";
     "scraping_success"; "analysis_success"]%string.

Definition errors_fieldnames : list str :=
  map lit ["profile_url"; "error"; "index"; "timestamp"; "error_type"]%string.

Definition yes_no (b : bool) : str := if b then lit "Yes" else lit "No".

Definition scrape_marker : str := lit "Failed to scrape".

(** ['scraping_error' if 'Failed to scrape' in error['error'] else
    'analysis_error'] *)
Definition error_type (reason : str) : str :=
  if contains scrape_marker reason
  then lit "scraping_error"
  else lit "analysis_error".

(** The list comprehension behind [experience_formatted]. *)
Definition experience_lines (l : list experience_entry) : list str :=
  flat_map
    (fun exp =>
       match exp with
       | ExpDict title company =>
           if get_truthy title && get_truthy company
           then [get_default title [] ++ lit " at " ++ get_default company []]
           else []
       | ExpOther => []
       end) l.

Definition len {A} (l : list A) : Z := Z.of_nat (List.length l).

(** The files of the run: name and content, in creation order. *)
Record fstate (W : Type) := mkF {
  fworld : W;
  files : list (str * artifact)
}.
Arguments mkF {W} _ _.
Arguments fworld {W} _.
Arguments files {W} _.

Section Aggregator.

Context {W : Type}.
Variable env : Collab W.
(** [json.dumps(_, ensure_ascii=False)] on the experience list and on a
    list of strings. *)
Variable json_dumps_experience : list experience_entry -> str.
Variable json_dumps_strings : list str -> str.

Local Open Scope py_scope.

Definition strftime (fmt : str) : M (fstate W) str :=
  fun s => let (t, w') := now_strftime env fmt (fworld s) in (Ret t, mkF w' (files s)).

Definition isoformat : M (fstate W) str :=
  fun s => let (t, w') := now_isoformat env (fworld s) in (Ret t, mkF w' (files s)).

(** [open(name, 'w')]: the file is created, or emptied; or [open]
    raises (a name that is a path into a missing directory, a directory
    that cannot be written) and there is no file.  Writing to a file
    that has been opened is taken to succeed. *)
Definition open_w (name : str) (empty : artifact) : M (fstate W) unit :=
  fun s =>
    match open_file env name (fworld s) with
    | (Ret _, w') => (Ret tt, mkF w' (dict_set (files s) name empty))
    | (Raise e, w') => (Raise e, mkF w' (files s))
    end.

Definition update_file (name : str) (f : artifact -> artifact) : M (fstate W) unit :=
  fun s =>
    match dict_get (files s) name with
    | Some a => (Ret tt, mkF (fworld s) (dict_set (files s) name (f a)))
    | None => (Ret tt, s)
    end.

Definition write_results_row (name : str) (row : results_row) :=
  update_file name
    (fun a => match a with ResultsCsv h rows => ResultsCsv h (rows ++ [row]) | _ => a end).

Definition write_errors_row (name : str) (row : errors_row) :=
  update_file name
    (fun a => match a with ErrorsCsv h rows => ErrorsCsv h (rows ++ [row]) | _ => a end).

Definition write (name : str) (text : str) :=
  update_file name
    (fun a => match a with SummaryTxt t => SummaryTxt (t ++ text) | _ => a end).

(** The dict handed to [writer.writerow] for one element of [results]
    (lines 287-338). *)
Definition results_row_of (analysis_mode : str) (result : success) : results_row :=
  let profile_data := s_profile_data result in
  let analysis_result := s_analysis_result result in
  let experience_raw := get_default (p_experience profile_data) [] in
  let skills_raw := get_default (p_skills profile_data) [] in
  let education_raw := get_default (p_education profile_data) [] in
  mkResultsRow
    (s_url result)
    (get_default (p_name profile_data) [])
    (get_default (p_headline profile_data) [])
    (get_default (p_about profile_data) [])
    (json_dumps_experience experience_raw)
    (join (lit "; ") (experience_lines experience_raw))
    (len experience_raw)
    (json_dumps_strings skills_raw)
    (join (lit "; ") skills_raw)
    (len skills_raw)
    (json_dumps_strings education_raw)
    (join (lit "; ") education_raw)
    (len education_raw)
    (get_default (a_result analysis_result) [])
    analysis_mode
    (s_timestamp result)
    (s_index result)
    (yes_no (get_truthy (p_name profile_data)))
    (yes_no (get_truthy (a_result analysis_result))).

Fixpoint write_results (name analysis_mode : str) (rs : list success)
  : M (fstate W) unit :=
  match rs with
  | [] => ret tt
  | result :: rest =>
      write_results_row name (results_row_of analysis_mode result) ;;;
      write_results name analysis_mode rest
  end.

(** The loop [for error in errors] of the errors table (lines 347-357). *)
Fixpoint write_errors (name : str) (es : list failure) : M (fstate W) unit :=
  match es with
  | [] => ret tt
  | error :: rest =>
      let et := error_type (f_error error) in
      now <- isoformat ;;
      write_errors_row name
        (mkErrorsRow (f_url error) (f_error error) (f_index error) now et) ;;;
      write_errors name rest
  end.

Definition success_line (result : success) : str :=
  lit "- " ++ get_default (p_name (s_profile_data result)) (lit "Unknown")
  ++ lit " (" ++ s_url result ++ lit ")" ++ [10%N].

Definition failure_line (error : failure) : str :=
  lit "- " ++ f_url error ++ lit ": " ++ f_error error ++ [10%N].

Fixpoint write_lines {A} (name : str) (line : A -> str) (l : list A)
  : M (fstate W) unit :=
  match l with
  | [] => ret tt
  | a :: rest => write name (line a) ;;; write_lines name line rest
  end.

(** The text after [Success Rate: ] (line 368). *)
Definition success_rate (rs : list success) (es : list failure) : outcome str :=
  match int_truediv (len rs) (len rs + len es) with
  | Raise e => Raise e
  | Ret q => Ret (format_1f (float_mul_int q 100) ++ lit "%")
  end.

Definition nl : str := [10%N].

(** The summary report (lines 360-379). *)
Definition write_summary (name analysis_mode : str)
    (rs : list success) (es : list failure) : M (fstate W) unit :=
  open_w name (SummaryTxt []) ;;;
  write name (lit "LinkedIn Profile Analyzer - Batch Processing Summary" ++ nl) ;;;
  generated <- strftime (lit "%Y-%m-%d %H:%M:%S") ;;
  write name (lit "Generated: " ++ generated ++ nl) ;;;
  write name (lit "Analysis Mode: " ++ analysis_mode ++ nl) ;;;
  write name (lit "Total Profiles Processed: " ++ str_of_int (len rs + len es) ++ nl) ;;;
  write name (lit "Successful Scrapes: " ++ str_of_int (len rs) ++ nl) ;;;
  write name (lit "Failed Scrapes: " ++ str_of_int (len es) ++ nl) ;;;
  rate <- lift_outcome (success_rate rs es) ;;
  write name (lit "Success Rate: " ++ rate ++ nl ++ nl) ;;;
  (match rs with
   | [] => ret tt
   | _ :: _ =>
       write name (lit "Successfully Processed Profiles:" ++ nl) ;;;
       write_lines name success_line rs
   end) ;;;
  (match es with
   | [] => ret tt
   | _ :: _ =>
       write name (nl ++ lit "Failed Profiles:" ++ nl) ;;;
       write_lines name failure_line es
   end).

(** The function returns the three file names; the second is [None]
    when there is no error.  The outer [except Exception] logs and
    re-raises. *)
Definition save_batch_results (rs : list success) (es : list failure)
    (analysis_mode : str) : M (fstate W) (str * option str * str) :=
  try_except
    (timestamp <- strftime (lit "%Y%m%d_%H%M%S") ;;
     let filename :=
       lit "batch_results_" ++ analysis_mode ++ lit "_" ++ timestamp ++ lit ".csv" in
     open_w filename (ResultsCsv results_fieldnames []) ;;;
     write_results filename analysis_mode rs ;;;
     let error_filename := lit "batch_errors_" ++ timestamp ++ lit ".csv" in
     (match es with
      | [] => ret tt
      | _ :: _ =>
          open_w error_filename (ErrorsCsv errors_fieldnames []) ;;;
          write_errors error_filename es
      end) ;;;
     let summary_filename := lit "batch_summary_" ++ timestamp ++ lit ".txt" in
     write_summary summary_filename analysis_mode rs es ;;;
     ret (filename,
          match es with [] => None | _ :: _ => Some error_filename end,
          summary_filename))
    (fun e => raise e).

Definition run_save (rs : list success) (es : list failure)
    (analysis_mode : str) (w : W) :=
  save_batch_results rs es analysis_mode (mkF w []).

End Aggregator.

(* ================================================================== *)
(** * The tail of the [/batch_analyze] route *)
(* ================================================================== *)

Inductive response :=
| Redirect (category : string) (message : str)
| SendFile (message : str) (filename : str).

Section Route.

Context {W : Type}.
Variable env : Collab W.
Variable repr_list : list str -> str.
Variable json_dumps_experience : list experience_entry -> str.
Variable json_dumps_strings : list str -> str.

Definition completed_message (rs : list success) (es : list failure)
    (names : str * option str * str) : str :=
  let '(results_filename, errors_filename, summary_filename) := names in
  lit "Batch processing completed! Processed " ++ str_of_int (len rs + len es)
  ++ lit " profiles: " ++ str_of_int (len rs) ++ lit " successful, "
  ++ str_of_int (len es) ++ lit " failed."
  ++ (if str_truthy results_filename
      then lit " Results saved to: " ++ results_filename else [])
  ++ (match errors_filename with
      | Some n => if str_truthy n then lit " Errors saved to: " ++ n else []
      | None => []
      end)
  ++ (if str_truthy summary_filename
      then lit " Summary saved to: " ++ summary_filename else []).

(** Lines 483-526 of [batch_analyze], after the request has been
    validated: process the upload, skip the aggregator when there is
    no outcome at all, otherwise save and send the results file.  The
    value is the response (or the exception that leaves the route), the
    calls made, the files written and the final world. *)
Definition batch_analyze (records : csv_records) (url_column analysis_mode : str)
    (w : W) : outcome response * list event * list (str * artifact) * W :=
  match run_batch env repr_list records url_column analysis_mode w with
  | (Raise e, st) =>
      if exn_is_Exception e
      then (Ret (Redirect "error"
                   (lit "An error occurred during batch processing: " ++ exn_str e)),
            trace st, [], world st)
      else (Raise e, trace st, [], world st)
  | (Ret (rs, es), st) =>
      match rs, es with
      | [], [] =>
          (Ret (Redirect "error" (lit "No valid LinkedIn URLs found in the CSV file")),
           trace st, [], world st)
      | _, _ =>
          match run_save env json_dumps_experience json_dumps_strings
                  rs es analysis_mode (world st) with
          | (Ret names, fs) =>
              (Ret (SendFile (completed_message rs es names) (fst (fst names))),
               trace st, files fs, fworld fs)
          | (Raise e, fs) =>
              if exn_is_Exception e
              then (Ret (Redirect "error" (lit "Error saving results: " ++ exn_str e)),
                    trace st, files fs, fworld fs)
              else (Raise e, trace st, files fs, fworld fs)
          end
      end
  end.

End Route.

(* ================================================================== *)
(** * Sample collaborators *)
(* ================================================================== *)

Module Sample.

(** A working directory without subdirectories: a name with a slash
    cannot be opened. *)
Definition open_flat (name : str) : outcome unit :=
  if contains (lit "/") name then Raise (FileNotFoundError name) else Ret tt.

(** A world with no state: every call answers from its arguments. *)
Definition scripted
    (login : outcome bool)
    (goto : str -> outcome unit)
    (delay : Z -> Z -> outcome unit)
    (scrape : str -> outcome (option ProfileRecord))
    (analyze : ProfileRecord -> str -> outcome (option AnalysisResult))
  : Collab unit :=
  mkCollab unit
    (fun w => (Ret tt, w))
    (fun w => (login, w))
    (fun url w => (goto url, w))
    (fun lo hi w => (delay lo hi, w))
    (fun url w => (scrape url, w))
    (fun p mode w => (analyze p mode, w))
    (fun w => (lit "2025-01-01T00:00:00", w))
    (fun fmt w => (lit "20250101_000000", w))
    (fun w => (Ret tt, w))
    (fun name w => (open_flat name, w)).

Definition repr_list (l : list str) : str :=
  lit "[" ++ join (lit ", ") (map (fun s => lit "'" ++ s ++ lit "'") l) ++ lit "]".

Definition json_none {A} (_ : A) : str := lit "[]".

Definition url_a : str := lit "https://linkedin.com/in/a".
Definition url_b : str := lit "https://linkedin.com/in/b".
Definition url_c : str := lit "https://linkedin.com/in/c".

Definition profile_of (url : str) : ProfileRecord :=
  mkProfile (Some (lit "Ada")) (Some (lit "Engineer")) None None None None (Some url).

Definition nameless_profile (url : str) : ProfileRecord :=
  mkProfile None (Some (lit "Engineer")) None None None None (Some url).

Definition analysis_ok (mode : str) : AnalysisResult :=
  mkAnalysis (Some (lit "A short bio.")) (Some mode) None.

Definition boom : pyexn := mkExn "TimeoutError" (lit "page timed out") true.
Definition scrape_boom : pyexn :=
  mkExn "RuntimeError" (lit "Failed to scrape the page") true.
Definition interrupt : pyexn := mkExn "KeyboardInterrupt" [] false.

Definition ok_goto (_ : str) : outcome unit := Ret tt.
Definition ok_delay (_ _ : Z) : outcome unit := Ret tt.
Definition ok_scrape (url : str) : outcome (option ProfileRecord) :=
  Ret (Some (profile_of url)).
Definition ok_analyze (_ : ProfileRecord) (mode : str)
  : outcome (option AnalysisResult) := Ret (Some (analysis_ok mode)).

(** Everything works. *)
Definition env_ok : Collab unit :=
  scripted (Ret true) ok_goto ok_delay ok_scrape ok_analyze.

(** Login is refused. *)
Definition env_login_refused : Collab unit :=
  scripted (Ret false) ok_goto ok_delay ok_scrape ok_analyze.

(** Navigation to [url_b] raises. *)
Definition env_b_broken : Collab unit :=
  scripted (Ret true)
    (fun url => if str_eqb url url_b then Raise boom else Ret tt)
    ok_delay ok_scrape ok_analyze.

(** The scraper returns a record without a name. *)
Definition env_nameless : Collab unit :=
  scripted (Ret true) ok_goto ok_delay
    (fun url => Ret (Some (nameless_profile url))) ok_analyze.

(** Extraction raises, and the text of the exception mentions scraping. *)
Definition env_scrape_raises : Collab unit :=
  scripted (Ret true) ok_goto ok_delay (fun _ => Raise scrape_boom) ok_analyze.

(** The user interrupts while the browser navigates to [url_b]. *)
Definition env_interrupted : Collab unit :=
  scripted (Ret true)
    (fun url => if str_eqb url url_b then Raise interrupt else Ret tt)
    ok_delay ok_scrape ok_analyze.


Definition header : list str := [lit "name"; lit "profile_url"].

Definition column : str := lit "profile_url".

Definition mode_bio : str := lit "bio".

Definition one_row : csv_records := [header; [lit "A"; url_a]].

Definition three_rows : csv_records :=
  [header; [lit "A"; url_a]; [lit "B"; url_b]; [lit "C"; url_c]].

(** The rows of the parser example of the design document. *)
Definition mixed_rows : csv_records :=
  [[lit "profile_url"]; [url_a]; [lit ""]; [lit "not-a-url"]].

(** A row that stops before the URL column. *)
Definition short_row : csv_records := [header; [lit "Alice"]].

End Sample.

(* ================================================================== *)
(** * Vocabulary of the properties *)
(* ================================================================== *)

(** [enumerate(urls, i)] *)
Fixpoint enumerate (i : Z) (urls : list str) : list (Z * str) :=
  match urls with
  | [] => []
  | url :: rest => (i, url) :: enumerate (i + 1) rest
  end.

Definition success_key (r : success) : Z * str := (s_index r, s_url r).
Definition failure_key (f : failure) : Z * str := (f_index f, f_url f).

(** [Interleave l1 l2 l]: [l1] and [l2] split [l] into two subsequences
    that keep the order of [l] and share no position. *)
Inductive Interleave {A : Type} : list A -> list A -> list A -> Prop :=
| il_nil : Interleave [] [] []
| il_left a l1 l2 l : Interleave l1 l2 l -> Interleave (a :: l1) l2 (a :: l)
| il_right a l1 l2 l : Interleave l1 l2 l -> Interleave l1 (a :: l2) (a :: l).

(** The three reasons a failure can carry. *)
Definition is_reason (url reason : str) : Prop :=
  reason = scrape_failed_msg url \/
  reason = analysis_failed_msg url \/
  exists e, reason = processing_error_msg url e.

(** The calls of one item whose every step succeeds, in order. *)
Definition item_events (url analysis_mode : str) : list event :=
  [EGoto url; EDelay 2 4; EScrape url; EAnalyze analysis_mode; ENow; EDelay 3 6].

(** How far an item can get: it stops after one of its first four calls,
    or makes all six. *)
Definition item_reach (n : nat) : Prop :=
  n = 1%nat \/ n = 2%nat \/ n = 3%nat \/ n = 4%nat \/ n = 6%nat.

Section Environments.

Context {W : Type}.
Variable env : Collab W.

Definition raises_Exception_only {A} (f : W -> outcome A * W) : Prop :=
  forall w e w', f w = (Raise e, w') -> exn_is_Exception e = true.

(** Whatever a collaborator raises inside the loop is an instance of
    [Exception]. *)
Definition failures_are_Exceptions : Prop :=
  (forall url, raises_Exception_only (page_goto env url)) /\
  (forall lo hi, raises_Exception_only (random_delay env lo hi)) /\
  (forall url, raises_Exception_only (scrape_profile env url)) /\
  (forall p mode, raises_Exception_only (analyze_profile env p mode)).


(** The browser returns from every navigation. *)
Definition navigation_returns : Prop :=
  forall url w, exists w', page_goto env url w = (Ret tt, w').


End Environments.

(** The calls of a loop in which the k-th item made the first [ns[k]] of
    its calls. *)
Fixpoint loop_trace (analysis_mode : str) (urls : list str) (ns : list nat)
  : list event :=
  match urls, ns with
  | url :: urls', n :: ns' =>
      firstn n (item_events url analysis_mode) ++ loop_trace analysis_mode urls' ns'
  | _, _ => []
  end.

(** The items of such a loop that made all six calls. *)
Fixpoint completed (i : Z) (urls : list str) (ns : list nat) : list (Z * str) :=
  match urls, ns with
  | url :: urls', n :: ns' =>
      (if Nat.eqb n 6 then [(i, url)] else []) ++ completed (i + 1) urls' ns'
  | _, _ => []
  end.

Section ItemCases.

Context {W : Type}.
Variable env : Collab W.
Variable mode : str.
Variable i : Z.
Variable url : str.
Variable s : bstate W.

(** The state after an item that made the first [n] of its calls and
    stored [rs] and [es]. *)
Definition after_item (w : W) (n : nat) (rs : list success) (es : list failure)
  : bstate W :=
  mkB w (trace s ++ firstn n (item_events url mode))
    (results s ++ rs) (errors s ++ es).

(** [e] is raised by one of the first four calls of the item. *)
Definition raised_in_item (e : pyexn) : Prop :=
  (exists w w', page_goto env url w = (Raise e, w')) \/
  (exists w w', random_delay env 2 4 w = (Raise e, w')) \/
  (exists w w', scrape_profile env url w = (Raise e, w')) \/
  (exists p w w', analyze_profile env p mode w = (Raise e, w')).

(** A stored success stands for an item whose navigation, extraction
    and analysis all went through: the scraper returned its non-empty
    profile for its URL, and the summarizer returned its analysis, free
    of an error marker, for that profile. *)
Definition item_succeeded (r : success) : Prop :=
  (exists w w', page_goto env (s_url r) w = (Ret tt, w')) /\
  (exists w w',
      scrape_profile env (s_url r) w = (Ret (Some (s_profile_data r)), w')) /\
  profile_nonempty (s_profile_data r) = true /\
  (exists w w',
      analyze_profile env (s_profile_data r) mode w
      = (Ret (Some (s_analysis_result r)), w')) /\
  analysis_failed (Some (s_analysis_result r)) = false.

(** Every way one pass through the loop body can end. *)
Inductive item_case : outcome unit -> bstate W -> Prop :=
| ic_raised n e w :
    (1 <= n <= 4)%nat -> raised_in_item e -> exn_is_Exception e = true ->
    item_case (Ret tt)
      (after_item w n [] [mkFailure url (processing_error_msg url e) i])
| ic_interrupted n e w :
    (1 <= n <= 4)%nat -> raised_in_item e -> exn_is_Exception e = false ->
    item_case (Raise e) (after_item w n [] [])
| ic_scrape_failed w :
    item_case (Ret tt)
      (after_item w 3 [] [mkFailure url (scrape_failed_msg url) i])
| ic_analysis_failed w :
    item_case (Ret tt)
      (after_item w 4 [] [mkFailure url (analysis_failed_msg url) i])
| ic_success w0 w p a t :
    item_succeeded (mkSuccess url p a i t) ->
    random_delay env 3 6 w0 = (Ret tt, w) ->
    item_case (Ret tt) (after_item w 6 [mkSuccess url p a i t] [])
| ic_success_pause_raised w0 w p a t e :
    item_succeeded (mkSuccess url p a i t) ->
    random_delay env 3 6 w0 = (Raise e, w) -> exn_is_Exception e = true ->
    item_case (Ret tt)
      (after_item w 6 [mkSuccess url p a i t]
         [mkFailure url (processing_error_msg url e) i])
| ic_success_pause_interrupted w0 w p a t e :
    item_succeeded (mkSuccess url p a i t) ->
    random_delay env 3 6 w0 = (Raise e, w) -> exn_is_Exception e = false ->
    item_case (Raise e) (after_item w 6 [mkSuccess url p a i t] []).

End ItemCases.

Section Recording.

Context {W : Type}.
Variable env : Collab W.
Variable mode : str.

(** [Recorded i urls rs es]: going through [urls] in order, with
    indices from [i], every identifier has its success in [rs] or its
    failure in [es]; it has both only in the third case, which arises
    when the pause that follows a stored success raises. *)
Inductive Recorded : Z -> list str -> list success -> list failure -> Prop :=
| rec_nil i : Recorded i [] [] []
| rec_success i url urls r rs es :
    success_key r = (i, url) -> item_succeeded env mode r ->
    Recorded (i + 1) urls rs es ->
    Recorded i (url :: urls) (r :: rs) es
| rec_failure i url urls f rs es :
    failure_key f = (i, url) -> is_reason url (f_error f) ->
    Recorded (i + 1) urls rs es ->
    Recorded i (url :: urls) rs (f :: es)
| rec_both i url urls r f rs es :
    success_key r = (i, url) -> item_succeeded env mode r ->
    failure_key f = (i, url) ->
    (exists e, f_error f = processing_error_msg url e) ->
    Recorded (i + 1) urls rs es ->
    Recorded i (url :: urls) (r :: rs) (f :: es).

End Recording.

(** [bool(profile_data)] for what [scrape_profile] returns: [None] and
    the empty dict are falsy. *)
Definition profile_truthy (profile_data : option ProfileRecord) : bool :=
  match profile_data with
  | Some p => profile_nonempty p
  | None => false
  end.

(** What the handler of line 248 makes of an exception raised in an
    item: an instance of [Exception] becomes the failure of the item,
    and the loop goes on; anything else is not caught and leaves the
    loop. *)
Definition caught (i : Z) (url : str) (e : pyexn) : list failure * option pyexn :=
  if exn_is_Exception e
  then ([mkFailure url (processing_error_msg url e) i], None)
  else ([], Some e).

(** How a statement ends when nothing, or [e], leaves it. *)
Definition ended (o : option pyexn) : outcome unit :=
  match o with
  | None => Ret tt
  | Some e => Raise e
  end.

Section ItemResults.

Context {W : Type}.
Variable env : Collab W.
Variable mode : str.

(** From world [w] the navigation to [url] and the pause of 2 to 4 that
    follows it return, and leave world [w2]. *)
Definition navigated (url : str) (w w2 : W) : Prop :=
  exists w1,
    page_goto env url w = (Ret tt, w1) /\
    random_delay env 2 4 w1 = (Ret tt, w2).

(** ... and the extraction then returns the non-empty record [p]. *)
Definition extracted (url : str) (w : W) (p : ProfileRecord) (w3 : W) : Prop :=
  exists w2,
    navigated url w w2 /\
    scrape_profile env url w2 = (Ret (Some p), w3) /\
    profile_nonempty p = true.

(** ... and the analysis of [p] then returns [a], free of an error
    marker. *)
Definition analysed (url : str) (w : W) (p : ProfileRecord)
    (a : AnalysisResult) (w4 : W) : Prop :=
  exists w3,
    extracted url w p w3 /\
    analyze_profile env p mode w3 = (Ret (Some a), w4) /\
    analysis_failed (Some a) = false.

(** [item_result i url w n w' rs es o]: what the item [url] of index
    [i] comes to when it starts in world [w], read off the answers of
    the collaborators alone: it makes the first [n] of its six calls,
    leaves world [w'], stores the successes [rs] and the failures [es],
    and lets [o] out of the loop body. *)
Inductive item_result (i : Z) (url : str) (w : W)
  : nat -> W -> list success -> list failure -> option pyexn -> Prop :=
| ir_goto_raised e w1 :
    page_goto env url w = (Raise e, w1) ->
    item_result i url w 1 w1 [] (fst (caught i url e)) (snd (caught i url e))
| ir_pause_raised w1 e w2 :
    page_goto env url w = (Ret tt, w1) ->
    random_delay env 2 4 w1 = (Raise e, w2) ->
    item_result i url w 2 w2 [] (fst (caught i url e)) (snd (caught i url e))
| ir_scrape_raised w2 e w3 :
    navigated url w w2 ->
    scrape_profile env url w2 = (Raise e, w3) ->
    item_result i url w 3 w3 [] (fst (caught i url e)) (snd (caught i url e))
| ir_scrape_empty w2 profile_data w3 :
    navigated url w w2 ->
    scrape_profile env url w2 = (Ret profile_data, w3) ->
    profile_truthy profile_data = false ->
    item_result i url w 3 w3 [] [mkFailure url (scrape_failed_msg url) i] None
| ir_analysis_raised p w3 e w4 :
    extracted url w p w3 ->
    analyze_profile env p mode w3 = (Raise e, w4) ->
    item_result i url w 4 w4 [] (fst (caught i url e)) (snd (caught i url e))
| ir_analysis_failed p w3 analysis_result w4 :
    extracted url w p w3 ->
    analyze_profile env p mode w3 = (Ret analysis_result, w4) ->
    analysis_failed analysis_result = true ->
    item_result i url w 4 w4 [] [mkFailure url (analysis_failed_msg url) i] None
| ir_stored p a w4 t w5 w6 :
    analysed url w p a w4 ->
    now_isoformat env w4 = (t, w5) ->
    random_delay env 3 6 w5 = (Ret tt, w6) ->
    item_result i url w 6 w6 [mkSuccess url p a i t] [] None
| ir_stored_pause_raised p a w4 t w5 e w6 :
    analysed url w p a w4 ->
    now_isoformat env w4 = (t, w5) ->
    random_delay env 3 6 w5 = (Raise e, w6) ->
    item_result i url w 6 w6 [mkSuccess url p a i t]
      (fst (caught i url e)) (snd (caught i url e)).

(** [loop_result i urls w ns rs es o w']: the loop over [urls], indices
    from [i], started in world [w]: every item starts in the world the
    item before it has left, whatever that item came to; the loop ends
    after the last item, or with the first item that lets an exception
    out. *)
Inductive loop_result
  : Z -> list str -> W -> list nat -> list success -> list failure
    -> option pyexn -> W -> Prop :=
| lr_done i w : loop_result i [] w [] [] [] None w
| lr_next i url urls w n w1 rs1 es1 ns rs es o w' :
    item_result i url w n w1 rs1 es1 None ->
    loop_result (i + 1) urls w1 ns rs es o w' ->
    loop_result i (url :: urls) w (n :: ns) (rs1 ++ rs) (es1 ++ es) o w'
| lr_left i url urls w n w1 rs1 es1 e :
    item_result i url w n w1 rs1 es1 (Some e) ->
    loop_result i (url :: urls) w [n] rs1 es1 (Some e) w1.

End ItemResults.

(** What a row of the errors table says about its failure, the time of
    writing left aside. *)
Definition errors_row_core (r : errors_row) : str * str * Z * str :=
  (e_profile_url r, e_error r, e_index r, e_error_type r).

Definition failure_core (f : failure) : str * str * Z * str :=
  (f_url f, f_error f, f_index f, error_type (f_error f)).

(** The three file names of a call whose time stamp is [ts]. *)
Definition results_name (mode ts : str) : str :=
  lit "batch_results_" ++ mode ++ lit "_" ++ ts ++ lit ".csv".

Definition errors_name (ts : str) : str := lit "batch_errors_" ++ ts ++ lit ".csv".

Definition summary_name (ts : str) : str := lit "batch_summary_" ++ ts ++ lit ".txt".

(** The files of a call for [mode] can be created: whatever time stamp
    the clock gives, [open] returns for each of the three names. *)
Definition creatable {W} (env : Collab W) (mode : str) : Prop :=
  forall w ts w1,
    now_strftime env (lit "%Y%m%d_%H%M%S") w = (ts, w1) ->
    forall name w2,
      In name [results_name mode ts; errors_name ts; summary_name ts] ->
      exists w3, open_file env name w2 = (Ret tt, w3).

(** The summary up to the counts, and from the lists on. *)
Definition summary_head (generated mode : str) (rs : list success)
    (es : list failure) : str :=
  (lit "LinkedIn Profile Analyzer - Batch Processing Summary" ++ [10%N])
  ++ (lit "Generated: " ++ generated ++ [10%N])
  ++ (lit "Analysis Mode: " ++ mode ++ [10%N])
  ++ (lit "Total Profiles Processed: " ++ str_of_int (len rs + len es) ++ [10%N])
  ++ (lit "Successful Scrapes: " ++ str_of_int (len rs) ++ [10%N])
  ++ (lit "Failed Scrapes: " ++ str_of_int (len es) ++ [10%N]).

Definition summary_tail (rs : list success) (es : list failure) : str :=
  (match rs with
   | [] => []
   | _ :: _ =>
       (lit "Successfully Processed Profiles:" ++ [10%N])
       ++ List.concat (map (fun r =>
                         lit "- "
                         ++ get_default (p_name (s_profile_data r)) (lit "Unknown")
                         ++ lit " (" ++ s_url r ++ lit ")" ++ [10%N]) rs)
   end)
  ++ (match es with
      | [] => []
      | _ :: _ =>
          ([10%N] ++ lit "Failed Profiles:" ++ [10%N])
          ++ List.concat (map (fun f =>
                            lit "- " ++ f_url f ++ lit ": " ++ f_error f
                            ++ [10%N]) es)
      end).

Definition is_digit (c : N) : bool := ((48 <=? c) && (c <=? 57))%N.

(** The pacing as the design document words it: a pause of 2 to 4 right
    before every navigation ... *)
Fixpoint pause_before_each_goto (prev : option event) (tr : list event) : bool :=
  match tr with
  | [] => true
  | EGoto u :: rest =>
      match prev with
      | Some (EDelay 2 4) => pause_before_each_goto (Some (EGoto u)) rest
      | _ => false
      end
  | ev :: rest => pause_before_each_goto (Some ev) rest
  end.

(** ... and no pause of 3 to 6 once the last item is done, that is, right
    before the session is closed. *)
Fixpoint no_pause_after_last_item (tr : list event) : bool :=
  match tr with
  | [] => true
  | EDelay 3 6 :: EClose :: _ => false
  | _ :: rest => no_pause_after_last_item rest
  end.

Definition paced_as_documented (tr : list event) : bool :=
  pause_before_each_goto None tr && no_pause_after_last_item tr.

(* ================================================================== *)
(** * Further vocabulary for the batch pipeline *)
(* ================================================================== *)

(** The cell the URL filter reads from a row, [row.get(url_column, '')]. *)
Definition cell_of (url_column : str) (row : row_dict) : option str :=
  match dict_get row url_column with
  | Some v => v
  | None => Some (lit "")
  end.

(** The test of the URL filter, [url and "linkedin.com/in/" in url]. *)
Definition is_profile_url (url : str) : bool :=
  str_truthy url && contains profile_marker url.

Definition is_goto (e : event) : bool :=
  match e with EGoto _ => true | _ => false end.

Module MoreSamples.

(** The browser cannot be started. *)
Definition env_no_browser : Collab unit :=
  mkCollab unit
    (fun w => (Raise Sample.boom, w))
    (fun w => (Ret true, w))
    (fun url w => (Ret tt, w))
    (fun lo hi w => (Ret tt, w))
    (fun url w => (Sample.ok_scrape url, w))
    (fun p mode w => (Sample.ok_analyze p mode, w))
    (fun w => (lit "2025-01-01T00:00:00", w))
    (fun fmt w => (lit "20250101_000000", w))
    (fun w => (Ret tt, w))
    (fun name w => (Sample.open_flat name, w)).

(** Login raises. *)
Definition env_login_raises : Collab unit :=
  Sample.scripted (Raise Sample.boom) Sample.ok_goto Sample.ok_delay
    Sample.ok_scrape Sample.ok_analyze.

Definition close_boom : pyexn := mkExn "Error" (lit "browser has been closed") true.

(** Everything works until the browser is closed. *)
Definition env_close_raises : Collab unit :=
  mkCollab unit
    (fun w => (Ret tt, w))
    (fun w => (Ret true, w))
    (fun url w => (Ret tt, w))
    (fun lo hi w => (Ret tt, w))
    (fun url w => (Sample.ok_scrape url, w))
    (fun p mode w => (Sample.ok_analyze p mode, w))
    (fun w => (lit "2025-01-01T00:00:00", w))
    (fun fmt w => (lit "20250101_000000", w))
    (fun w => (Raise close_boom, w))
    (fun name w => (Sample.open_flat name, w)).

End MoreSamples.

(** An experience entry that the formatted column lists: a dict with a
    non-empty title and a non-empty company. *)
Definition experience_listed (exp : experience_entry) : bool :=
  match exp with
  | ExpDict title company => get_truthy title && get_truthy company
  | ExpOther => false
  end.

(* ================================================================== *)
(** * The routes of the web application *)
(* ================================================================== *)

(** A value of a JSON body: a string, or a value of another type (whose
    name is kept, for the text of the [AttributeError] it causes). *)
Inductive jval :=
| JStr (s : str)
| JOther (type_name : str).

(** What the routes use besides the batch collaborators: the one-shot
    [scrape_linkedin_profile(url, headless)], [analyze_profile] handed a
    mode that is not a string, and the configured [GEMINI_API_KEY]. *)
Record Services (W : Type) := mkServices {
  collab : Collab W;
  scrape_linkedin_profile :
    str -> bool -> W -> outcome (option ProfileRecord) * W;
  analyze_profile_other :
    ProfileRecord -> str -> W -> outcome (option AnalysisResult) * W;
  gemini_api_key : option str
}.
Arguments collab {W} _.
Arguments scrape_linkedin_profile {W} _ _ _ _.
Arguments analyze_profile_other {W} _ _ _ _.
Arguments gemini_api_key {W} _.

(** The calls a route makes. *)
Inductive route_event :=
| RScrape (url : str) (headless : bool)
| RAnalyze (p : ProfileRecord) (mode : jval).

Definition is_rscrape (e : route_event) : bool :=
  match e with RScrape _ _ => true | _ => false end.

(** The state of a request: the world, the calls made and the messages
    flashed (text and category). *)
Record rstate (W : Type) := mkR {
  rworld : W;
  rcalls : list route_event;
  flashes : list (str * string)
}.
Arguments mkR {W} _ _ _.
Arguments rworld {W} _.
Arguments rcalls {W} _.
Arguments flashes {W} _.

Definition rcall {W A} (ev : route_event) (f : W -> outcome A * W)
  : M (rstate W) A :=
  fun s =>
    let (r, w') := f (rworld s) in
    (r, mkR w' (rcalls s ++ [ev]) (flashes s)).

(** [flash(message, category)] *)
Definition flash {W} (message : str) (category : string) : M (rstate W) unit :=
  fun s => (Ret tt, mkR (rworld s) (rcalls s) (flashes s ++ [(message, category)])).

(** What the form route answers: a redirect to the index page, or the
    result page. *)
Inductive page :=
| RedirectIndex
| RenderResult (profile_data : ProfileRecord) (analysis_result : AnalysisResult).

(** The body and the status of an answer of the JSON API. *)
Inductive api_payload :=
| ApiError (message : str)
| ApiSuccess (profile_data : ProfileRecord) (analysis : AnalysisResult).

Record api_response := mkApi {
  status : Z;
  payload : api_payload
}.

(** The record the form route uses instead of scraping (lines 422-433). *)
Definition sample_profile (profile_url : str) : ProfileRecord :=
  mkProfile
    (Some (lit "John Doe"))
    (Some (lit "Senior Software Engineer at Tech Company"))
    (Some (lit "Passionate software engineer with 5+ years of experience in full-stack development, specializing in Python, JavaScript, and cloud technologies. I love building scalable applications and mentoring junior developers."))
    (Some [ExpDict (Some (lit "Senior Software Engineer")) (Some (lit "Tech Corp"));
           ExpDict (Some (lit "Software Engineer")) (Some (lit "Startup Inc"));
           ExpDict (Some (lit "Junior Developer")) (Some (lit "Web Solutions"))])
    (Some (map lit ["Python"; "JavaScript"; "React"; "Node.js"; "AWS"; "Docker";
                    "Git"; "SQL"; "MongoDB"; "REST APIs"]%string))
    None
    (Some profile_url).

(** [s.endswith(suffix)] *)
Definition endswith (suffix s : str) : bool := startswith (rev suffix) (rev s).

(** An uploaded file: its name, if the part had one, and its content
    after [csv.reader]. *)
Record upload := mkUpload {
  up_filename : option str;
  up_records : csv_records
}.

Section Routes.

Context {W : Type}.
Variable svc : Services W.
Variable repr_list : list str -> str.
Variable json_dumps_experience : list experience_entry -> str.
Variable json_dumps_strings : list str -> str.

Local Open Scope py_scope.

Definition key_configured : bool := get_truthy (gemini_api_key svc).

Definition to_index (message : str) : M (rstate W) page :=
  flash message "error" ;;; ret RedirectIndex.

(** The analysis step of the form route and its test (lines 444-452). *)
Definition analyze_and_render (profile_data : ProfileRecord)
    (analysis_mode : str) : M (rstate W) page :=
  analysis_result <-
    rcall (RAnalyze profile_data (JStr analysis_mode))
      (analyze_profile (collab svc) profile_data analysis_mode) ;;
  match analysis_result with
  | Some a =>
      if analysis_failed analysis_result
      then to_index (lit "Failed to generate analysis. Please check your Gemini API key.")
      else ret (RenderResult profile_data a)
  | None =>
      to_index (lit "Failed to generate analysis. Please check your Gemini API key.")
  end.

(** The route [/analyze] (lines 399-457) on the submitted form. *)
Definition analyze (form : list (str * str)) : M (rstate W) page :=
  try_except
    (let profile_url := strip (get_default (dict_get form (lit "profile_url")) (lit "")) in
     let analysis_mode := get_default (dict_get form (lit "analysis_mode")) (lit "bio") in
     let use_sample := is_some (dict_get form (lit "use_sample")) in
     if negb use_sample && negb (str_truthy profile_url)
     then to_index (lit "Please provide a LinkedIn profile URL")
     else if negb use_sample && negb (contains profile_marker profile_url)
     then to_index (lit "Please provide a valid LinkedIn profile URL")
     else if negb key_configured
     then to_index (lit "Gemini API key not configured. Please check your configuration.")
     else if use_sample
     then
       flash (lit "Using sample data for demonstration") "info" ;;;
       analyze_and_render (sample_profile profile_url) analysis_mode
     else
       profile_data <-
         rcall (RScrape profile_url false)
           (scrape_linkedin_profile svc profile_url false) ;;
       match profile_data with
       | Some p =>
           if profile_nonempty p
           then analyze_and_render p analysis_mode
           else to_index (lit "Failed to scrape profile data. Please check the URL and try again.")
       | None =>
           to_index (lit "Failed to scrape profile data. Please check the URL and try again.")
       end)
    (fun e => to_index (lit "An error occurred: " ++ exn_str e)).

Definition run_analyze (form : list (str * str)) (w : W) :=
  analyze form (mkR w [] []).

(** [analyze_profile(profile_data, analysis_mode)] for whatever the body
    gave as mode. *)
Definition analyze_with (profile_data : ProfileRecord) (analysis_mode : jval)
  : M (rstate W) (option AnalysisResult) :=
  rcall (RAnalyze profile_data analysis_mode)
    (match analysis_mode with
     | JStr m => analyze_profile (collab svc) profile_data m
     | JOther t => analyze_profile_other svc profile_data t
     end).

(** The route [/api/analyze] (lines 529-562) on what [request.get_json()]
    gives: an exception, [None], or an object. *)
Definition api_analyze (get_json : outcome (option (list (str * jval))))
  : M (rstate W) api_response :=
  try_except
    (data <- lift_outcome get_json ;;
     match data with
     | None =>
         raise (AttributeError (lit "'NoneType' object has no attribute 'get'"))
     | Some d =>
         match get_default (dict_get d (lit "profile_url")) (JStr (lit "")) with
         | JOther t =>
             raise (AttributeError
                      (lit "'" ++ t ++ lit "' object has no attribute 'strip'"))
         | JStr u =>
             let profile_url := strip u in
             let analysis_mode :=
               get_default (dict_get d (lit "analysis_mode")) (JStr (lit "bio")) in
             if negb (str_truthy profile_url)
             then ret (mkApi 400 (ApiError (lit "Profile URL is required")))
             else if negb key_configured
             then ret (mkApi 500 (ApiError (lit "Gemini API key not configured")))
             else
               profile_data <-
                 rcall (RScrape profile_url false)
                   (scrape_linkedin_profile svc profile_url false) ;;
               match profile_data with
               | None =>
                   ret (mkApi 400 (ApiError (lit "Failed to scrape profile data")))
               | Some p =>
                   if profile_nonempty p
                   then
                     analysis_result <- analyze_with p analysis_mode ;;
                     match analysis_result with
                     | Some a =>
                         if analysis_failed analysis_result
                         then ret (mkApi 500 (ApiError (lit "Failed to generate analysis")))
                         else ret (mkApi 200 (ApiSuccess p a))
                     | None =>
                         ret (mkApi 500 (ApiError (lit "Failed to generate analysis")))
                     end
                   else
                     ret (mkApi 400 (ApiError (lit "Failed to scrape profile data")))
               end
         end
     end)
    (fun e => ret (mkApi 500 (ApiError (exn_str e)))).

Definition run_api_analyze (get_json : outcome (option (list (str * jval))))
    (w : W) :=
  api_analyze get_json (mkR w [] []).

(** The route [/batch_analyze] (lines 460-526) on the uploaded file, if
    any, and the form.  Its value is that of [batch_analyze]: the
    response (or the exception that leaves the route), the calls made on
    the batch collaborators, the files written and the final world. *)
Definition batch_analyze_route (file : option upload) (form : list (str * str))
    (w : W) : outcome response * list event * list (str * artifact) * W :=
  match file with
  | None => (Ret (Redirect "error" (lit "No CSV file uploaded")), [], [], w)
  | Some csv_file =>
      match up_filename csv_file with
      | None =>
          (Ret (Redirect "error"
                  (lit "An error occurred during batch processing: "
                   ++ lit "'NoneType' object has no attribute 'endswith'")),
           [], [], w)
      | Some filename =>
          if str_eqb filename (lit "")
          then (Ret (Redirect "error" (lit "No CSV file selected")), [], [], w)
          else if negb (endswith (lit ".csv") filename)
          then (Ret (Redirect "error" (lit "Please upload a CSV file")), [], [], w)
          else
            let url_column :=
              strip (get_default (dict_get form (lit "url_column"))
                       (lit "profile_url")) in
            let analysis_mode :=
              get_default (dict_get form (lit "analysis_mode")) (lit "bio") in
            if negb key_configured
            then (Ret (Redirect "error"
                         (lit "Gemini API key not configured. Please check your configuration.")),
                  [], [], w)
            else
              batch_analyze (collab svc) repr_list json_dumps_experience
                json_dumps_strings (up_records csv_file) url_column
                analysis_mode w
      end
  end.

End Routes.

(** The URL and the mode the form route reads from the form. *)
Definition form_url_of (form : list (str * str)) : str :=
  strip (get_default (dict_get form (lit "profile_url")) (lit "")).

Definition form_mode_of (form : list (str * str)) : str :=
  get_default (dict_get form (lit "analysis_mode")) (lit "bio").

Definition form_uses_sample (form : list (str * str)) : bool :=
  is_some (dict_get form (lit "use_sample")).

Module RouteSamples.

Definition services (key : option str)
    (scrape : str -> bool -> outcome (option ProfileRecord)) : Services unit :=
  mkServices unit Sample.env_ok
    (fun url headless w => (scrape url headless, w))
    (fun p t w => (Ret (Some (Sample.analysis_ok (lit "bio"))), w))
    key.

Definition good_scrape (url : str) (_ : bool) : outcome (option ProfileRecord) :=
  Ret (Some (Sample.profile_of url)).

(** A key is configured and scraping works. *)
Definition svc_ok : Services unit := services (Some (lit "k")) good_scrape.

(** No key is configured. *)
Definition svc_no_key : Services unit := services None good_scrape.

(** Scraping raises. *)
Definition svc_scrape_raises : Services unit :=
  services (Some (lit "k")) (fun _ _ => Raise Sample.boom).

Definition other_url : str := lit "https://example.com/jane".

Definition form_url (url : str) : list (str * str) :=
  [(lit "profile_url", url); (lit "analysis_mode", lit "summary")].

Definition form_sample (url : str) : list (str * str) :=
  [(lit "profile_url", url); (lit "use_sample", lit "on")].

Definition body_url (url : str) : outcome (option (list (str * jval))) :=
  Ret (Some [(lit "profile_url", JStr url)]).

Definition csv_upload : upload :=
  mkUpload (Some (lit "profiles.csv")) Sample.three_rows.

Definition txt_upload : upload :=
  mkUpload (Some (lit "profiles.txt")) Sample.three_rows.

End RouteSamples.

(** The URL and the mode the JSON API reads from an object. *)
Definition body_url_of (d : list (str * jval)) : jval :=
  get_default (dict_get d (lit "profile_url")) (JStr (lit "")).

Definition body_mode_of (d : list (str * jval)) : jval :=
  get_default (dict_get d (lit "analysis_mode")) (JStr (lit "bio")).

(* ================================================================== *)
(** * The console mode *)
(* ================================================================== *)

(** [str.upper], [str.lower] and [str.capitalize] on the letters of
    ASCII.  The code applies [upper] and [capitalize] to its own mode
    names only; [lower] is applied to what was typed, and is compared
    with ['1'], ['2'], ['3'], ['all'] and ['y'], characters that no
    letter outside ASCII is lowered to. *)
Definition upper_char (c : N) : N :=
  if ((97 <=? c) && (c <=? 122))%N then (c - 32)%N else c.

Definition lower_char (c : N) : N :=
  if ((65 <=? c) && (c <=? 90))%N then (c + 32)%N else c.

Definition upper (s : str) : str := map upper_char s.

Definition lower (s : str) : str := map lower_char s.

Definition capitalize (s : str) : str :=
  match s with
  | [] => []
  | c :: rest => upper_char c :: lower rest
  end.

Definition EOFError : pyexn :=
  mkExn "EOFError" (lit "EOF when reading a line") true.

(** [str(KeyError(key))] is the [repr] of the key. *)
Definition KeyError (key : str) : pyexn :=
  mkExn "KeyError" (lit "'" ++ key ++ lit "'") true.

Definition is_KeyboardInterrupt (e : pyexn) : bool :=
  String.eqb (exn_type e) "KeyboardInterrupt".

(** What the console mode uses besides the services of the routes:
    [ProfileAnalyzer()] and [analyzer.save_result(result)], which gives
    a file name or nothing. *)
Record Console (W : Type) := mkConsole {
  services : Services W;
  new_analyzer : W -> outcome unit * W;
  save_result : AnalysisResult -> W -> outcome (option str) * W
}.
Arguments services {W} _.
Arguments new_analyzer {W} _ _.
Arguments save_result {W} _ _ _.

(** What a run of the console mode does, in order: the lines printed,
    the prompts shown, the calls made, the entries logged. *)
Inductive console_event :=
| CPrint (text : str)
| CInput (prompt : str)
| CScrape (url : str) (headless : bool)
| CAnalyze (p : ProfileRecord) (mode : str)
| CNewAnalyzer
| CSave (result : AnalysisResult)
| CLogError (message : str).

(** The state of a run: the world, the answers still waiting on standard
    input (an answer may be an exception, as Ctrl-C is) and what was
    done so far. *)
Record cstate (W : Type) := mkC {
  cworld : W;
  stdin : list (outcome str);
  console : list console_event
}.
Arguments mkC {W} _ _ _.
Arguments cworld {W} _.
Arguments stdin {W} _.
Arguments console {W} _.

(** [print(text)]: the line is added to what was done; writing to the
    terminal is taken to succeed. *)
Definition print {W} (text : str) : M (cstate W) unit :=
  fun s => (Ret tt, mkC (cworld s) (stdin s) (console s ++ [CPrint text])).

(** [input(prompt)]: the next answer; [EOFError] when there is none. *)
Definition input {W} (prompt : str) : M (cstate W) str :=
  fun s =>
    match stdin s with
    | [] => (Raise EOFError, mkC (cworld s) [] (console s ++ [CInput prompt]))
    | answer :: rest => (answer, mkC (cworld s) rest (console s ++ [CInput prompt]))
    end.

Definition ccall {W A} (ev : console_event) (f : W -> outcome A * W)
  : M (cstate W) A :=
  fun s =>
    let (r, w') := f (cworld s) in
    (r, mkC w' (stdin s) (console s ++ [ev])).

Definition log_error {W} (message : str) : M (cstate W) unit :=
  fun s => (Ret tt, mkC (cworld s) (stdin s) (console s ++ [CLogError message])).

(** [try: body except KeyboardInterrupt: h1 except Exception as e: h2 e] *)
Definition try_except_interrupt {S A} (body : M S A) (on_interrupt : M S A)
    (on_exception : pyexn -> M S A) : M S A :=
  fun s =>
    match body s with
    | (Ret a, s') => (Ret a, s')
    | (Raise e, s') =>
        if is_KeyboardInterrupt e then on_interrupt s'
        else if exn_is_Exception e then on_exception e s'
        else (Raise e, s')
    end.

(** The characters of the messages that are outside ASCII. *)
Definition cross_mark : str := [10060%N].
Definition check_mark : str := [9989%N].
Definition magnifier : str := [128269%N].
Definition bar_chart : str := [128202%N].
Definition robot : str := [129302%N].
Definition arrows : str := [128260%N].
Definition party : str := [127881%N].
Definition warning_sign : str := [9888%N; 65039%N].
Definition tab : str := [9%N].

(** ["=" * 60] *)
Definition rule : str := List.concat (repeat (lit "=") 60).

Definition modes : list str := [lit "bio"; lit "summary"; lit "analysis"].

Definition mode_names : list (str * str) :=
  [(lit "bio", lit "Bio"); (lit "summary", lit "Summary");
   (lit "analysis", lit "Analysis")].

Definition choice_prompt : str :=
  nl ++ lit "Select analysis mode (1-3) or 'all' for all modes: ".

Definition invalid_choice : str :=
  cross_mark ++ lit " Invalid choice. Please select 1, 2, 3, or 'all'".

Definition url_prompt : str := nl ++ lit "Enter LinkedIn profile URL: ".

Definition save_prompt : str :=
  nl ++ lit "Would you like to save the result to a file? (y/n): ".

Definition completed_line : str :=
  nl ++ nl ++ tab ++ tab ++ party ++ lit " Process completed successfully!".

(** The loop of lines 77-93 on the answers that wait: each turn takes
    one, so the loop ends with a mode or with the exception of
    [input]. *)
Fixpoint choice_loop {W} (answers : list (outcome str)) (w : W)
    (out : list console_event) : outcome str * cstate W :=
  match answers with
  | [] => (Raise EOFError, mkC w [] (out ++ [CInput choice_prompt]))
  | Raise e :: rest => (Raise e, mkC w rest (out ++ [CInput choice_prompt]))
  | Ret answer :: rest =>
      let choice := lower (strip answer) in
      if str_eqb choice (lit "1")
      then (Ret (lit "bio"), mkC w rest (out ++ [CInput choice_prompt]))
      else if str_eqb choice (lit "2")
      then (Ret (lit "summary"), mkC w rest (out ++ [CInput choice_prompt]))
      else if str_eqb choice (lit "3")
      then (Ret (lit "analysis"), mkC w rest (out ++ [CInput choice_prompt]))
      else if str_eqb choice (lit "all")
      then (Ret (lit "all"), mkC w rest (out ++ [CInput choice_prompt]))
      else choice_loop rest w
             (out ++ [CInput choice_prompt] ++ [CPrint invalid_choice])
  end.

Definition choose_mode {W} : M (cstate W) str :=
  fun s => choice_loop (stdin s) (cworld s) (console s).

Section ConsoleMode.

Context {W : Type}.
Variable con : Console W.
Variable repr_list : list str -> str.
Variable repr_experience : list experience_entry -> str.

Local Open Scope py_scope.

Definition analyze_console (profile_data : ProfileRecord) (analysis_mode : str)
  : M (cstate W) (option AnalysisResult) :=
  ccall (CAnalyze profile_data analysis_mode)
    (analyze_profile (collab (services con)) profile_data analysis_mode).

(** Lines 63-74. *)
Definition show_profile (profile_data : ProfileRecord) : M (cstate W) unit :=
  print (nl ++ nl ++ tab ++ tab ++ check_mark
         ++ lit " Profile data scraped successfully!" ++ nl) ;;;
  print (lit "Name: " ++ get_default (p_name profile_data) (lit "Unknown")) ;;;
  print (lit "Headline: "
         ++ get_default (p_headline profile_data) (lit "Unknown") ++ nl) ;;;
  print (lit "About: "
         ++ get_default (p_about profile_data) (lit "Unknown") ++ nl) ;;;
  print (lit "Skills: "
         ++ match p_skills profile_data with
            | Some l => repr_list l
            | None => lit "Unknown"
            end ++ nl) ;;;
  print (lit "Experience: "
         ++ match p_experience profile_data with
            | Some l => repr_experience l
            | None => lit "Unknown"
            end ++ nl) ;;;
  print (nl ++ bar_chart ++ lit " Available Analysis Modes:") ;;;
  print (lit "1. Bio - Generate a professional LinkedIn bio") ;;;
  print (lit "2. Tell me about this Profile - Create a networking summary for recruiters") ;;;
  print (lit "3. Analysis - Comprehensive profile analysis with strengths/gaps").

(** Lines 108-112 and 123-127: [result['result']] raises [KeyError] when
    the key is absent. *)
Definition show_result (title : str) (result : AnalysisResult)
  : M (cstate W) unit :=
  print (nl ++ rule) ;;;
  print title ;;;
  print rule ;;;
  text <- match a_result result with
          | Some t => ret t
          | None => raise (KeyError (lit "result"))
          end ;;
  print text ;;;
  print rule.

(** The loop of lines 100-112. *)
Fixpoint generate_all (profile_data : ProfileRecord) (ms : list str)
  : M (cstate W) unit :=
  match ms with
  | [] => ret tt
  | analysis_mode :: rest =>
      print (nl ++ arrows ++ lit " Generating " ++ analysis_mode ++ lit "...") ;;;
      result <- analyze_console profile_data analysis_mode ;;
      match result with
      | Some a =>
          if analysis_failed result
          then print (nl ++ cross_mark ++ lit " Failed to generate " ++ analysis_mode)
          else show_result (upper analysis_mode) a
      | None => print (nl ++ cross_mark ++ lit " Failed to generate " ++ analysis_mode)
      end ;;;
      generate_all profile_data rest
  end.

(** Lines 144-146. *)
Definition save_one (result : AnalysisResult) (saved : str -> str)
  : M (cstate W) unit :=
  filename <- ccall (CSave result) (save_result con result) ;;
  match filename with
  | Some f => if str_truthy f then print (saved f) else ret tt
  | None => ret tt
  end.

(** The loop of lines 137-142. *)
Fixpoint save_all (profile_data : ProfileRecord) (ms : list str)
  : M (cstate W) unit :=
  match ms with
  | [] => ret tt
  | analysis_mode :: rest =>
      result <- analyze_console profile_data analysis_mode ;;
      match result with
      | Some a =>
          if analysis_failed result
          then ret tt
          else save_one a
                 (fun f => check_mark ++ lit " " ++ capitalize analysis_mode
                           ++ lit " saved to: " ++ f)
      | None => ret tt
      end ;;;
      save_all profile_data rest
  end.

(** Lines 130-150, which follow the analysis in either mode; [save] is
    the branch of line 135 that the mode selects. *)
Definition ask_to_save (save : M (cstate W) unit) : M (cstate W) unit :=
  answer <- input save_prompt ;;
  let save_result := strip (lower answer) in
  (if str_eqb save_result (lit "y")
   then try_except
          (ccall CNewAnalyzer (new_analyzer con) ;;; save)
          (fun e => print (cross_mark ++ lit " Error saving file: " ++ exn_str e))
   else ret tt) ;;;
  print completed_line.

(** Lines 96-150 once [mode] is chosen. *)
Definition generate_and_save (profile_data : ProfileRecord) (mode : str)
  : M (cstate W) unit :=
  if str_eqb mode (lit "all")
  then
    print (nl ++ robot ++ lit " Generating all analysis types...") ;;;
    generate_all profile_data modes ;;;
    ask_to_save (save_all profile_data modes)
  else
    name <- match dict_get mode_names mode with
            | Some n => ret n
            | None => raise (KeyError mode)
            end ;;
    print (nl ++ robot ++ lit " Generating " ++ name ++ lit "...") ;;;
    result <- analyze_console profile_data mode ;;
    match result with
    | Some a =>
        if analysis_failed result
        then print (nl ++ cross_mark ++ lit " Failed to generate " ++ mode)
        else
          show_result (upper name) a ;;;
          ask_to_save
            (save_one a (fun f => check_mark ++ lit " Result saved to: " ++ f))
    | None => print (nl ++ cross_mark ++ lit " Failed to generate " ++ mode)
    end.

(** The body of the [try] (lines 57-150). *)
Definition console_session (profile_url : str) : M (cstate W) unit :=
  profile_data <-
    ccall (CScrape profile_url true)
      (scrape_linkedin_profile (services con) profile_url true) ;;
  match profile_data with
  | Some p =>
      if profile_nonempty p
      then
        show_profile p ;;;
        mode <- choose_mode ;;
        generate_and_save p mode
      else print (nl ++ nl ++ tab ++ tab ++ cross_mark
                  ++ lit " Failed to scrape profile data" ++ nl ++ nl)
  | None => print (nl ++ nl ++ tab ++ tab ++ cross_mark
                   ++ lit " Failed to scrape profile data" ++ nl ++ nl)
  end.

(** [run_console_mode] (lines 26-156). *)
Definition run_console_mode : M (cstate W) unit :=
  print rule ;;;
  print (lit "LinkedIn Profile Analyzer - Console Mode") ;;;
  print rule ;;;
  if negb (key_configured (services con))
  then
    print (cross_mark ++ lit " Error: Gemini API key not found!") ;;;
    print (lit "Please set your GEMINI_API_KEY in the .env file or config.py") ;;;
    print (lit "Get your API key from: https://aistudio.google.com/app/apikey")
  else
    print (check_mark ++ lit " Gemini API key found") ;;;
    answer <- input url_prompt ;;
    let profile_url := strip answer in
    if negb (str_truthy profile_url)
    then print (cross_mark ++ lit " No profile URL provided")
    else if negb (contains profile_marker profile_url)
    then print (nl ++ cross_mark
                ++ lit " Invalid LinkedIn profile URL. Please provide a valid LinkedIn profile URL."
                ++ nl)
    else
      print (nl ++ magnifier ++ lit " Scraping profile: " ++ profile_url) ;;;
      print (nl ++ lit "Note: You will need to log in to LinkedIn manually when the browser opens."
             ++ nl) ;;;
      try_except_interrupt
        (console_session profile_url)
        (print (nl ++ nl ++ warning_sign ++ lit " Process interrupted by user"))
        (fun e =>
           print (nl ++ cross_mark ++ lit " An error occurred: " ++ exn_str e) ;;;
           log_error (lit "Error in console mode: " ++ exn_str e)).

Definition run_console (answers : list (outcome str)) (w : W) :=
  run_console_mode (mkC w answers []).

End ConsoleMode.

(** The mode an answer to the prompt of line 78 selects, if any. *)
Definition mode_of_answer (answer : str) : option str :=
  let choice := lower (strip answer) in
  if str_eqb choice (lit "1") then Some (lit "bio")
  else if str_eqb choice (lit "2") then Some (lit "summary")
  else if str_eqb choice (lit "3") then Some (lit "analysis")
  else if str_eqb choice (lit "all") then Some (lit "all")
  else None.

(** The calls among the events of a run. *)
Definition is_console_call (e : console_event) : bool :=
  match e with
  | CScrape _ _ | CAnalyze _ _ | CNewAnalyzer | CSave _ => true
  | CPrint _ | CInput _ | CLogError _ => false
  end.

Definition console_calls (out : list console_event) : list console_event :=
  filter is_console_call out.

Definition prompts (out : list console_event) : list console_event :=
  filter (fun e => match e with CInput _ => true | _ => false end) out.

Module ConsoleSamples.

Definition good_url : str := lit "  https://linkedin.com/in/jane ".

Definition jane : ProfileRecord :=
  Sample.profile_of (lit "https://linkedin.com/in/jane").

Definition shown (mode : str) : AnalysisResult :=
  mkAnalysis (Some (lit "text of " ++ mode)) (Some mode) None.

Definition console_of (key : option str)
    (analyze : ProfileRecord -> str -> outcome (option AnalysisResult))
    (save : AnalysisResult -> outcome (option str)) : Console unit :=
  mkConsole unit
    (mkServices unit
       (mkCollab unit
          (new_scraper Sample.env_ok) (login_to_linkedin Sample.env_ok)
          (page_goto Sample.env_ok) (random_delay Sample.env_ok)
          (scrape_profile Sample.env_ok)
          (fun p m w => (analyze p m, w))
          (now_isoformat Sample.env_ok) (now_strftime Sample.env_ok)
          (close Sample.env_ok) (open_file Sample.env_ok))
       (fun url headless w => (Ret (Some (Sample.profile_of url)), w))
       (fun p t w => (Ret None, w))
       key)
    (fun w => (Ret tt, w))
    (fun a w => (save a, w)).

Definition good_analyze (_ : ProfileRecord) (mode : str)
  : outcome (option AnalysisResult) := Ret (Some (shown mode)).

Definition good_save (a : AnalysisResult) : outcome (option str) :=
  Ret (Some (lit "analysis_" ++ get_default (a_mode a) [] ++ lit ".txt")).

Definition con_ok : Console unit :=
  console_of (Some (lit "k")) good_analyze good_save.

Definition con_no_key : Console unit :=
  console_of None good_analyze good_save.

(** The disk is full: saving raises. *)
Definition con_disk_full : Console unit :=
  console_of (Some (lit "k")) good_analyze
    (fun _ => Raise (mkExn "OSError" (lit "No space left on device") true)).

(** The analysis gives an error record. *)
Definition con_analysis_fails : Console unit :=
  console_of (Some (lit "k"))
    (fun _ mode => Ret (Some (mkAnalysis None (Some mode) (Some (lit "quota")))))
    good_save.

End ConsoleSamples.

Definition is_cscrape (e : console_event) : bool :=
  match e with CScrape _ _ => true | _ => false end.

Definition is_canalyze (e : console_event) : bool :=
  match e with CAnalyze _ _ => true | _ => false end.

Definition is_csave (e : console_event) : bool :=
  match e with CSave _ => true | _ => false end.

Definition not_cscrape (e : console_event) : bool := negb (is_cscrape e).

(** [m] only adds to what was done, and only events that satisfy [p]. *)
Definition emits {W A} (p : console_event -> bool) (m : M (cstate W) A) : Prop :=
  forall s, exists out,
    console (snd (m s)) = console s ++ out /\ forallb p out = true.

(** The prompt repeated and the complaint, once per answer turned down. *)
Definition asked_again (bad : list str) : list console_event :=
  List.concat (map (fun _ => [CInput choice_prompt; CPrint invalid_choice]) bad).

(** Assumptions on the services of a run of the console mode. *)
Definition analysis_answers {W} (con : Console W) (p : ProfileRecord) : Prop :=
  forall m w, exists r w',
    analyze_profile (collab (services con)) p m w = (Ret r, w') /\
    (analysis_failed r = true \/
     exists a t, r = Some a /\ a_result a = Some t).

Definition every_analysis_fails {W} (con : Console W) (p : ProfileRecord) : Prop :=
  forall m w, exists r w',
    analyze_profile (collab (services con)) p m w = (Ret r, w') /\
    analysis_failed r = true.

Definition analyzer_available {W} (con : Console W) : Prop :=
  forall w, exists w', new_analyzer con w = (Ret tt, w').

Definition saving_returns {W} (con : Console W) : Prop :=
  forall a w, exists f w', save_result con a w = (Ret f, w').

(* ================================================================== *)
(** * Basic facts *)
(* ================================================================== *)

Lemma str_eqb_refl (a : str) : str_eqb a a = true.
Proof.
  induction a as [|c a IH]; simpl; [reflexivity|].
  now rewrite N.eqb_refl, IH.
Qed.

Lemma str_eqb_eq (a b : str) : str_eqb a b = true <-> a = b.
Proof.
  split.
  - revert b; induction a as [|c a IH]; intros [|d b]; simpl; try discriminate; auto.
    intros H. apply andb_true_iff in H as [Hc Hr].
    apply N.eqb_eq in Hc. f_equal; auto.
  - intros ->. apply str_eqb_refl.
Qed.

Lemma dict_get_set_same {V} (d : list (str * V)) k v :
  dict_get (dict_set d k v) k = Some v.
Proof.
  induction d as [|[k' v'] d IH]; simpl.
  - now rewrite str_eqb_refl.
  - destruct (str_eqb k' k) eqn:E; simpl; rewrite E; auto.
Qed.

Lemma dict_set_set {V} (d : list (str * V)) k v v' :
  dict_set (dict_set d k v) k v' = dict_set d k v'.
Proof.
  induction d as [|[k0 v0] d IH]; simpl.
  - now rewrite str_eqb_refl.
  - destruct (str_eqb k0 k) eqn:E; simpl; rewrite E; [reflexivity|].
    now rewrite IH.
Qed.


Lemma Interleave_app {A} (a1 a2 a b1 b2 b : list A) :
  Interleave a1 a2 a -> Interleave b1 b2 b ->
  Interleave (a1 ++ b1) (a2 ++ b2) (a ++ b).
Proof. induction 1; simpl; intros; auto; constructor; auto. Qed.

Lemma Interleave_Permutation {A} (l1 l2 l : list A) :
  Interleave l1 l2 l -> Permutation (l1 ++ l2) l.
Proof.
  induction 1; simpl; auto.
  eapply perm_trans; [symmetry; apply Permutation_middle|]. auto.
Qed.




(* ================================================================== *)
(** * One item *)
(* ================================================================== *)

Section ItemFacts.

Context {W : Type}.
Variable env : Collab W.
Variable mode : str.

Ltac run_call f r w :=
  match goal with
  | |- context [f ?w0] =>
      let E := fresh "E" in
      destruct (f w0) as [[r|r] w] eqn:E; simpl
  end.

Lemma item_case_eq i url s o s1 s2 :
  item_case env mode i url s o s1 -> s1 = s2 -> item_case env mode i url s o s2.
Proof. now intros H <-. Qed.

Ltac same_state :=
  unfold after_item; simpl;
  rewrite <- ?app_assoc, ?app_nil_r; reflexivity.

Ltac by_case c :=
  eapply item_case_eq; [eapply c; eauto | same_state].

Ltac handle n :=
  match goal with
  | e : pyexn |- _ =>
      destruct (exn_is_Exception e) eqn:?; simpl;
      [ eapply item_case_eq;
        [eapply (ic_raised env mode _ _ _ n);
         [lia | unfold raised_in_item; eauto 10 | eassumption]
        | same_state]
      | eapply item_case_eq;
        [eapply (ic_interrupted env mode _ _ _ n);
         [lia | unfold raised_in_item; eauto 10 | eassumption]
        | same_state] ]
  end.

(** The loop body ends in one of the ways of [item_case], whatever the
    collaborators do. *)
Lemma loop_body_cases (i : Z) (url : str) (s : bstate W) :
  item_case env mode i url s
    (fst (loop_body env mode i url s)) (snd (loop_body env mode i url s)).
Proof.
  unfold loop_body, try_except, item_steps, bind, call, errors_append.
  destruct s as [w0 tr rs es]; simpl.
  run_call (page_goto env url) r1 w1; [|handle 1%nat].
  run_call (random_delay env 2 4) r2 w2; [|handle 2%nat].
  run_call (scrape_profile env url) pd w3; [|handle 3%nat].
  destruct pd as [p|]; simpl; [|by_case (ic_scrape_failed env mode)].
  destruct (profile_nonempty p) eqn:Hp; simpl;
    [|by_case (ic_scrape_failed env mode)].
  unfold analyze_and_store, bind, call, call_total, errors_append,
    results_append; simpl.
  run_call (analyze_profile env p mode) ar w4; [|handle 4%nat].
  destruct ar as [a|]; simpl; [|by_case (ic_analysis_failed env mode)].
  destruct (analysis_failed (Some a)) eqn:Ha; simpl;
    [by_case (ic_analysis_failed env mode)|].
  destruct (now_isoformat env w4) as [t w5] eqn:Et; simpl.
  assert (Hok : item_succeeded env mode (mkSuccess url p a i t)).
  { destruct r1, r2. unfold item_succeeded; simpl. eauto 12. }
  run_call (random_delay env 3 6) r6 w6.
  - destruct r6. by_case (ic_success env mode).
  - destruct (exn_is_Exception r6) eqn:He; simpl.
    + by_case (ic_success_pause_raised env mode).
    + by_case (ic_success_pause_interrupted env mode).
Qed.

(** What the calls and the stored successes of one item look like. *)
Lemma item_case_summary i url (s : bstate W) o s1 :
  item_case env mode i url s o s1 ->
  exists n rs1,
    trace s1 = trace s ++ firstn n (item_events url mode) /\
    item_reach n /\
    results s1 = results s ++ rs1 /\
    map success_key rs1 = (if Nat.eqb n 6 then [(i, url)] else []) /\
    match o with
    | Ret _ => True
    | Raise e => exn_is_Exception e = false
    end.
Proof.
  assert (Hr : forall n, (1 <= n <= 4)%nat ->
               item_reach n /\ Nat.eqb n 6 = false).
  { intros n Hn. unfold item_reach.
    destruct n as [|[|[|[|[|n]]]]]; simpl; try lia; split; auto; lia. }
  unfold item_reach.
  destruct 1;
    try (match goal with H : (1 <= _ <= 4)%nat |- _ =>
           destruct (Hr _ H) as [Hreach Hneq] end;
         exists n, []; rewrite Hneq; simpl; rewrite ?app_nil_r; auto 10);
    try (exists 3%nat, []; simpl; rewrite ?app_nil_r; now auto 10);
    try (exists 4%nat, []; simpl; rewrite ?app_nil_r; now auto 10);
    eexists 6%nat, [_]; simpl; auto 10.
Qed.

End ItemFacts.

(* ================================================================== *)
(** * The loop *)
(* ================================================================== *)

Section LoopFacts.

Context {W : Type}.
Variable env : Collab W.
Variable mode : str.

Lemma batch_loop_cons i url rest (s : bstate W) :
  batch_loop env mode i (url :: rest) s =
  match loop_body env mode i url s with
  | (Ret _, s1) => batch_loop env mode (i + 1) rest s1
  | (Raise e, s1) => (Raise e, s1)
  end.
Proof. reflexivity. Qed.


Lemma loop_trace_nil urls : loop_trace mode urls [] = [].
Proof. now destruct urls. Qed.

Lemma completed_nil i urls : completed i urls [] = [].
Proof. now destruct urls. Qed.

(** The calls of the loop, whatever the collaborators do: item after
    item, each a prefix of [item_events]; a success is stored exactly
    for the items that made all six calls; the loop stops early only
    on an exception that is not an [Exception]. *)
Lemma batch_loop_trace urls : forall i (s : bstate W),
  exists ns rs,
    let (o, s') := batch_loop env mode i urls s in
    trace s' = trace s ++ loop_trace mode urls ns /\
    Forall item_reach ns /\
    results s' = results s ++ rs /\
    map success_key rs = completed i urls ns /\
    match o with
    | Ret _ => List.length ns = List.length urls
    | Raise e => (List.length ns <= List.length urls)%nat /\
                 exn_is_Exception e = false
    end.
Proof.
  induction urls as [|url rest IH]; intros i s.
  - exists [], []; simpl. now rewrite !app_nil_r.
  - rewrite batch_loop_cons.
    pose proof (loop_body_cases env mode i url s) as Hc.
    destruct (loop_body env mode i url s) as [o1 s1]; simpl in Hc.
    apply item_case_summary in Hc
      as (n & rs1 & Htr & Hn & Hrs & Hkeys & Ho).
    destruct o1 as [[]|e].
    + destruct (IH (i + 1) s1) as (ns & rs & H).
      destruct (batch_loop env mode (i + 1) rest s1) as [o s'].
      destruct H as (Htr' & Hns & Hrs' & Hkeys' & Ho').
      exists (n :: ns), (rs1 ++ rs); simpl.
      rewrite Htr', Htr, Hrs', Hrs, map_app, Hkeys, Hkeys', <- !app_assoc.
      repeat split; auto.
      destruct o; simpl; [lia|]. destruct Ho'; split; [lia|auto].
    + exists [n], rs1; simpl.
      rewrite loop_trace_nil, completed_nil, !app_nil_r.
      repeat split; auto. lia.
Qed.

End LoopFacts.

(* ================================================================== *)
(** * The loop, item by item *)
(* ================================================================== *)

Section ResultFacts.

Context {W : Type}.
Variable env : Collab W.
Variable mode : str.

Ltac item_ends :=
  unfold caught, ended;
  try match goal with
      | |- context [exn_is_Exception ?e] => destruct (exn_is_Exception e)
      end;
  simpl; rewrite <- ?app_assoc, ?app_nil_r; reflexivity.

(** The loop body does what the answers of the collaborators say, in
    the world it starts in, and touches nothing that was recorded
    before. *)
Lemma loop_body_result (i : Z) (url : str) (s : bstate W) :
  exists n w' rs1 es1 o,
    item_result env mode i url (world s) n w' rs1 es1 o /\
    loop_body env mode i url s
    = (ended o,
       mkB w' (trace s ++ firstn n (item_events url mode))
         (results s ++ rs1) (errors s ++ es1)).
Proof.
  unfold loop_body, try_except, item_steps, bind, call, errors_append.
  destruct s as [w0 tr rs es]; cbn [world trace results errors].
  destruct (page_goto env url w0) as [[[]|e] w1] eqn:E1.
  2:{ eexists 1%nat, w1, [], _, _.
      split; [apply ir_goto_raised; exact E1 | item_ends]. }
  cbn [world trace results errors].
  destruct (random_delay env 2 4 w1) as [[[]|e] w2] eqn:E2.
  2:{ eexists 2%nat, w2, [], _, _.
      split; [eapply ir_pause_raised; eassumption | item_ends]. }
  assert (Hnav : navigated env url w0 w2) by (exists w1; auto).
  cbn [world trace results errors].
  destruct (scrape_profile env url w2) as [[pd|e] w3] eqn:E3.
  2:{ eexists 3%nat, w3, [], _, _.
      split; [eapply ir_scrape_raised; eassumption | item_ends]. }
  destruct (profile_truthy pd) eqn:Hpd.
  2:{ eexists 3%nat, w3, [], _, None.
      split; [eapply ir_scrape_empty; eassumption|].
      destruct pd as [p|]; cbv beta iota; [simpl in Hpd; rewrite Hpd|]; item_ends. }
  destruct pd as [p|]; [|discriminate]. simpl in Hpd. cbv beta iota. rewrite Hpd.
  assert (Hext : extracted env url w0 p w3) by (exists w2; auto).
  unfold analyze_and_store, bind, call, call_total, errors_append,
    results_append.
  cbn [world trace results errors].
  destruct (analyze_profile env p mode w3) as [[ar|e] w4] eqn:E4.
  2:{ eexists 4%nat, w4, [], _, _.
      split; [eapply ir_analysis_raised; eassumption | item_ends]. }
  destruct (analysis_failed ar) eqn:Har.
  { eexists 4%nat, w4, [], _, None.
    split; [eapply ir_analysis_failed; eassumption|].
    destruct ar as [a|]; item_ends. }
  destruct ar as [a|]; [|discriminate]. cbv beta iota.
  cbn [world trace results errors].
  assert (Hana : analysed env mode url w0 p a w4) by (exists w3; auto).
  destruct (now_isoformat env w4) as [t w5] eqn:E5.
  cbn [world trace results errors].
  destruct (random_delay env 3 6 w5) as [[[]|e] w6] eqn:E6.
  - eexists 6%nat, w6, [_], [], None.
    split; [eapply ir_stored; eassumption | item_ends].
  - eexists 6%nat, w6, [_], _, _.
    split; [eapply ir_stored_pause_raised; eassumption | item_ends].
Qed.

(** The loop does what [loop_result] says. *)
Lemma batch_loop_result urls : forall i (s : bstate W),
  exists ns rs es o w',
    loop_result env mode i urls (world s) ns rs es o w' /\
    batch_loop env mode i urls s
    = (ended o,
       mkB w' (trace s ++ loop_trace mode urls ns)
         (results s ++ rs) (errors s ++ es)).
Proof.
  induction urls as [|url rest IH]; intros i s.
  - exists [], [], [], None, (world s). split; [constructor|].
    destruct s; simpl. now rewrite !app_nil_r.
  - rewrite batch_loop_cons.
    destruct (loop_body_result i url s)
      as (n & w1 & rs1 & es1 & o1 & Hitem & Hbody).
    rewrite Hbody. destruct o1 as [e|]; cbn [ended].
    + exists [n], rs1, es1, (Some e), w1.
      split; [eapply lr_left; exact Hitem|].
      cbn [loop_trace ended]. now rewrite loop_trace_nil, app_nil_r.
    + destruct (IH (i + 1)
                  (mkB w1 (trace s ++ firstn n (item_events url mode))
                     (results s ++ rs1) (errors s ++ es1)))
        as (ns & rs & es & o & w' & Hloop & Hrun).
      cbn [world trace results errors] in Hloop, Hrun.
      exists (n :: ns), (rs1 ++ rs), (es1 ++ es), o, w'.
      split; [eapply lr_next; eassumption|].
      rewrite Hrun. cbn [loop_trace]. now rewrite <- !app_assoc.
Qed.

(** What is let out of an item is not an instance of [Exception]. *)
Lemma item_result_let_out i url (w : W) n w' rs es e :
  item_result env mode i url w n w' rs es (Some e) ->
  exn_is_Exception e = false /\ es = [].
Proof.
  assert (Hc : forall e0, snd (caught i url e0) = Some e ->
                          exn_is_Exception e = false /\
                          fst (caught i url e0) = []).
  { intros e0. unfold caught.
    destruct (exn_is_Exception e0) eqn:He; simpl; [discriminate|].
    intros H; inversion H; subst. auto. }
  intros H. inversion H; subst; auto; discriminate.
Qed.

Lemma item_result_reach i url (w : W) n w' rs es o :
  item_result env mode i url w n w' rs es o ->
  item_reach n /\
  map success_key rs = (if Nat.eqb n 6 then [(i, url)] else []).
Proof.
  unfold item_reach. destruct 1; simpl; auto 10.
Qed.

(** What leaves the loop is not an instance of [Exception]; a loop that
    ends after its last item has gone through every identifier. *)
Lemma loop_result_facts urls : forall i (w : W) ns rs es o w',
  loop_result env mode i urls w ns rs es o w' ->
  Forall item_reach ns /\
  map success_key rs = completed i urls ns /\
  (List.length ns <= List.length urls)%nat /\
  match o with
  | None => List.length ns = List.length urls
  | Some e => exn_is_Exception e = false
  end.
Proof.
  induction 1 as [i w | i url urls w n w1 rs1 es1 ns rs es o w' Hitem Hloop IH
                 | i url urls w n w1 rs1 es1 e Hitem].
  - simpl. auto.
  - destruct IH as (Hns & Hkeys & Hlen & Ho).
    destruct (item_result_reach _ _ _ _ _ _ _ _ Hitem) as [Hn Hk].
    simpl. rewrite map_app, Hk, Hkeys.
    repeat split; auto; [lia|].
    destruct o; [exact Ho | lia].
  - destruct (item_result_reach _ _ _ _ _ _ _ _ Hitem) as [Hn Hk].
    destruct (item_result_let_out _ _ _ _ _ _ _ _ Hitem) as [He _].
    simpl. rewrite completed_nil, app_nil_r, Hk.
    repeat split; auto. lia.
Qed.

(** Collaborators that raise instances of [Exception] only let nothing
    out of the loop. *)
Lemma loop_result_returns urls : forall i (w : W) ns rs es o w',
  failures_are_Exceptions env ->
  loop_result env mode i urls w ns rs es o w' -> o = None.
Proof.
  intros i w ns rs es o w' (Hgoto & Hdelay & Hscrape & Hanalyze) Hloop.
  assert (Hsome : forall e, o = Some e ->
             exists i0 url w0 n w1 rs1 es1,
               item_result env mode i0 url w0 n w1 rs1 es1 (Some e)).
  { induction Hloop; intros e' He'; [discriminate | auto |].
    inversion He'; subst. eauto 10. }
  destruct o as [e|]; [|reflexivity]. exfalso.
  destruct (Hsome e eq_refl) as (i0 & url & w0 & n & w1 & rs1 & es1 & Hitem).
  assert (Hc : forall e0, exn_is_Exception e0 = true ->
                          snd (caught i0 url e0) = Some e -> False).
  { intros e0 He0. unfold caught. rewrite He0. discriminate. }
  inversion Hitem; subst;
    match goal with
    | Hs : snd (caught _ _ ?e0) = Some _, Hr : _ = (Raise ?e0, _) |- _ =>
        apply (Hc e0); [|exact Hs];
        first [ apply Hgoto in Hr | apply Hdelay in Hr
              | apply Hscrape in Hr | apply Hanalyze in Hr ]; exact Hr
    end.
Qed.

(** An item that lets nothing out has its success, its failure, or
    both. *)
Lemma item_result_recorded i url (w : W) n w1 rs1 es1 :
  item_result env mode i url w n w1 rs1 es1 None ->
  forall urls rs es,
    Recorded env mode (i + 1) urls rs es ->
    Recorded env mode i (url :: urls) (rs1 ++ rs) (es1 ++ es).
Proof.
  intros Hitem urls rs es Hrec.
  assert (Hc : forall e, snd (caught i url e) = None ->
                         fst (caught i url e)
                         = [mkFailure url (processing_error_msg url e) i]).
  { intros e. unfold caught. now destruct (exn_is_Exception e). }
  assert (Hraised : forall e, snd (caught i url e) = None ->
             Recorded env mode i (url :: urls) ([] ++ rs)
               (fst (caught i url e) ++ es)).
  { intros e He. rewrite (Hc e He). simpl.
    apply rec_failure; auto. unfold is_reason; simpl; eauto. }
  assert (Hok : forall p a w4 t,
             analysed env mode url w p a w4 ->
             item_succeeded env mode (mkSuccess url p a i t)).
  { intros p a w4 t (w3 & (w2 & (w1' & Hg & Hd) & Hs & Hp) & Ha & Hf).
    unfold item_succeeded; simpl. eauto 12. }
  inversion Hitem; subst; auto.
  - simpl. apply rec_failure; auto. unfold is_reason; simpl; auto.
  - simpl. apply rec_failure; auto. unfold is_reason; simpl; auto.
  - simpl. apply rec_success; eauto.
  - match goal with
    | H : snd (caught _ _ ?e) = None |- _ => rewrite (Hc e H)
    end.
    simpl. apply rec_both; simpl; eauto.
Qed.

Lemma loop_result_recorded urls : forall i (w : W) ns rs es w',
  loop_result env mode i urls w ns rs es None w' ->
  Recorded env mode i urls rs es.
Proof.
  intros i w ns rs es w' Hloop.
  remember None as o eqn:Ho.
  induction Hloop; subst; [constructor | | discriminate].
  eapply item_result_recorded; eauto.
Qed.

(** When the navigations return, every item makes its pause of 2 to 4. *)
Lemma loop_result_paused urls : forall i (w : W) ns rs es o w',
  navigation_returns env ->
  loop_result env mode i urls w ns rs es o w' ->
  Forall (fun n => (2 <= n)%nat) ns.
Proof.
  intros i w ns rs es o w' Hnav Hloop.
  assert (Hitem : forall i url w n w1 rs1 es1 o1,
             item_result env mode i url w n w1 rs1 es1 o1 -> (2 <= n)%nat).
  { intros i0 url w0 n w1 rs1 es1 o1 Hitem.
    destruct Hitem; try lia.
    destruct (Hnav url w0) as [w2 Hw]. congruence. }
  induction Hloop; constructor; eauto.
Qed.

End ResultFacts.

(* ================================================================== *)
(** * The session *)
(* ================================================================== *)

Section SessionFacts.

Context {W : Type}.
Variable env : Collab W.
Variable repr_list : list str -> str.
Variable mode : str.

(** After parsing and acquiring the scraper, the function is the
    guarded block followed by the final [return]. *)
Lemma run_batch_acquired records col urls w w1 :
  parse_urls repr_list records col = Ret urls ->
  new_scraper env w = (Ret tt, w1) ->
  run_batch env repr_list records col mode w =
  match session_block env mode urls (mkB w1 [ENew] [] []) with
  | (Ret (Some v), s') => (Ret v, s')
  | (Ret None, s') => (Ret (results s', errors s'), s')
  | (Raise e, s') => (Raise e, s')
  end.
Proof.
  intros Hparse Hnew.
  unfold run_batch, process_csv_batch, try_except, bind, lift_outcome, call,
    init_state; simpl.
  rewrite Hparse, Hnew; simpl.
  destruct (session_block env mode urls _) as [[[v|]|e] s']; simpl; auto.
  now destruct (exn_is_Exception e).
Qed.

(** The guarded block when login is refused. *)
Lemma session_block_refused urls (s : bstate W) w2 :
  login_to_linkedin env (world s) = (Ret false, w2) ->
  session_block env mode urls s =
  match close env w2 with
  | (Ret _, w3) =>
      (Ret (Some ([], [login_failed_record])),
       mkB w3 (trace s ++ [ELogin; EClose]) (results s) (errors s))
  | (Raise e, w3) =>
      (Raise e, mkB w3 (trace s ++ [ELogin; EClose]) (results s) (errors s))
  end.
Proof.
  intros Hlogin.
  unfold session_block, try_finally, bind, call, ret; simpl.
  rewrite Hlogin; simpl.
  destruct (close env w2) as [[[]|e] w3]; simpl; now rewrite <- app_assoc.
Qed.

(** The guarded block when login raises. *)
Lemma session_block_login_raised urls (s : bstate W) e w2 :
  login_to_linkedin env (world s) = (Raise e, w2) ->
  session_block env mode urls s =
  match close env w2 with
  | (Ret _, w3) =>
      (Raise e, mkB w3 (trace s ++ [ELogin; EClose]) (results s) (errors s))
  | (Raise e', w3) =>
      (Raise e', mkB w3 (trace s ++ [ELogin; EClose]) (results s) (errors s))
  end.
Proof.
  intros Hlogin.
  unfold session_block, try_finally, bind, call, ret; simpl.
  rewrite Hlogin; simpl.
  destruct (close env w2) as [[[]|e'] w3]; simpl; now rewrite <- app_assoc.
Qed.

(** The guarded block when login succeeds: the loop, then [close]. *)
Lemma session_block_logged_in urls (s : bstate W) w2 :
  login_to_linkedin env (world s) = (Ret true, w2) ->
  session_block env mode urls s =
  let (o, s') :=
    batch_loop env mode 1 urls
      (mkB w2 (trace s ++ [ELogin]) (results s) (errors s)) in
  match close env (world s') with
  | (Ret _, w3) =>
      (match o with Ret _ => Ret None | Raise e => Raise e end,
       mkB w3 (trace s' ++ [EClose]) (results s') (errors s'))
  | (Raise e, w3) =>
      (Raise e, mkB w3 (trace s' ++ [EClose]) (results s') (errors s'))
  end.
Proof.
  intros Hlogin.
  unfold session_block, try_finally, bind, call, ret; simpl.
  rewrite Hlogin; simpl.
  destruct (batch_loop env mode 1 urls _) as [[[]|e] s']; simpl;
    destruct (close env (world s')) as [[[]|e'] w3]; simpl; reflexivity.
Qed.

Lemma item_events_no_close n url :
  filter is_close (firstn n (item_events url mode)) = [].
Proof. do 7 (destruct n as [|n]; [reflexivity|]). reflexivity. Qed.

Lemma item_events_are_item_events n url :
  forallb is_item_event (firstn n (item_events url mode)) = true.
Proof. do 7 (destruct n as [|n]; [reflexivity|]). reflexivity. Qed.

Lemma loop_trace_no_close urls : forall ns,
  filter is_close (loop_trace mode urls ns) = [].
Proof.
  induction urls as [|u urls IH]; intros [|n ns]; simpl; auto.
  now rewrite filter_app, item_events_no_close, IH.
Qed.

Lemma loop_trace_item_events urls : forall ns,
  forallb is_item_event (loop_trace mode urls ns) = true.
Proof.
  induction urls as [|u urls IH]; intros [|n ns]; simpl; auto.
  now rewrite forallb_app, item_events_are_item_events, IH.
Qed.

(** The calls of a whole run once the scraper exists: login, the items,
    then [close], whatever happens in between. *)
Lemma run_batch_trace records col urls w w1 :
  parse_urls repr_list records col = Ret urls ->
  new_scraper env w = (Ret tt, w1) ->
  exists ns,
    trace (snd (run_batch env repr_list records col mode w))
    = [ENew; ELogin] ++ loop_trace mode urls ns ++ [EClose].
Proof.
  intros Hparse Hnew.
  rewrite (run_batch_acquired _ _ _ _ _ Hparse Hnew).
  destruct (login_to_linkedin env w1) as [[[|]|e] w2] eqn:Hlogin.
  - rewrite (session_block_logged_in urls (mkB w1 [ENew] [] []) w2 Hlogin).
    simpl.
    destruct (batch_loop_trace env mode urls 1 (mkB w2 [ENew; ELogin] [] []))
      as (ns & rs & H).
    destruct (batch_loop env mode 1 urls _) as [o s'].
    destruct H as (Htr & _). simpl in Htr.
    exists ns.
    destruct (close env (world s')) as [[[]|e'] w3]; destruct o as [[]|e];
      simpl; rewrite Htr; simpl; now rewrite <- ?app_assoc.
  - rewrite (session_block_refused urls (mkB w1 [ENew] [] []) w2 Hlogin).
    exists []. rewrite loop_trace_nil.
    now destruct (close env w2) as [[[]|e'] w3].
  - rewrite (session_block_login_raised urls (mkB w1 [ENew] [] []) e w2 Hlogin).
    exists []. rewrite loop_trace_nil.
    now destruct (close env w2) as [[[]|e'] w3].
Qed.

End SessionFacts.

(* ================================================================== *)
(** * Properties of the batch run *)
(* ================================================================== *)

Lemma parse_urls_nonempty repr_list records col urls :
  parse_urls repr_list records col = Ret urls -> urls <> [].
Proof.
  unfold parse_urls.
  destruct (fieldnames records) as [names|]; [|discriminate].
  destruct (negb _); [discriminate|].
  destruct (collect_urls col (dict_rows records) []) as [[|u l]|e];
    try discriminate.
  intros H; inversion H; discriminate.
Qed.




(** C2, as stated, fails: an exception that is not an instance of
    [Exception] is not caught by the handler of the loop body.  When the
    user interrupts the navigation to the second of three identifiers,
    the interrupt leaves the loop and the function: the third identifier
    is never navigated to, no failure is recorded for the second, and
    the success of the first is not returned. *)
Lemma interrupt_in_one_item_ends_the_batch :
  exists r st,
    run_batch Sample.env_interrupted Sample.repr_list Sample.three_rows
      Sample.column Sample.mode_bio tt = (Raise Sample.interrupt, st) /\
    exn_is_Exception Sample.interrupt = false /\
    results st = [r] /\ success_key r = (1, Sample.url_a) /\
    errors st = [] /\
    filter is_goto (trace st) = [EGoto Sample.url_a; EGoto Sample.url_b].
Proof. vm_compute. do 2 eexists. repeat split. Qed.

(** C2, amended: the loop does to every identifier what the answers of
    the collaborators say, item by item.  An item starts in the world
    the item before it has left, whether that item succeeded or failed,
    and nothing recorded before is touched.  An item whose navigation,
    pause, extraction or analysis raises an instance of [Exception], or
    whose extraction or analysis gives nothing, adds one failure with
    its identifier, its index and the reason text, and the loop goes on;
    an item whose steps all go through adds its success.  Only an
    exception that is not an instance of [Exception] leaves the loop,
    and then the loop ends with the item that raised it; when the
    collaborators raise instances of [Exception] only, the loop goes
    through every identifier and returns. *)
Theorem failures_recorded_and_isolated
    {W : Type} (env : Collab W) (mode : str)
    (urls : list str) (i : Z) (s : bstate W) :
  exists ns rs es o w',
    batch_loop env mode i urls s
    = (ended o,
       mkB w' (trace s ++ loop_trace mode urls ns)
         (results s ++ rs) (errors s ++ es)) /\
    loop_result env mode i urls (world s) ns rs es o w' /\
    (forall e, o = Some e -> exn_is_Exception e = false) /\
    (o = None ->
     List.length ns = List.length urls /\ Recorded env mode i urls rs es) /\
    (failures_are_Exceptions env -> o = None).
Proof.
  destruct (batch_loop_result env mode urls i s)
    as (ns & rs & es & o & w' & Hloop & Hrun).
  exists ns, rs, es, o, w'.
  destruct (loop_result_facts env mode _ _ _ _ _ _ _ _ Hloop)
    as (_ & _ & _ & Ho).
  split; [exact Hrun|]. split; [exact Hloop|]. split; [|split].
  - intros e ->. exact Ho.
  - intros ->. split; [exact Ho|].
    apply (loop_result_recorded env mode _ _ _ _ _ _ _ Hloop).
  - intros Hexc. eapply loop_result_returns; eassumption.
Qed.

(** The isolation test of the design document: a broken identifier
    between two valid ones gives two successes and one failure, in the
    original order. *)
Example broken_item_between_two_valid :
  exists ra rc st,
    run_batch Sample.env_b_broken Sample.repr_list Sample.three_rows
      Sample.column Sample.mode_bio tt
    = (Ret ([ra; rc],
            [mkFailure Sample.url_b
               (lit "Error processing https://linkedin.com/in/b: page timed out") 2]),
       st) /\
    success_key ra = (1, Sample.url_a) /\ success_key rc = (3, Sample.url_c).
Proof. vm_compute. do 3 eexists. repeat split. Qed.


(** C3, as stated, fails: when login is refused the single failure has
    index 0, but its reason text is not [login_failed]. *)
Lemma login_refused_reason_is_not_the_tag :
  exists f st,
    run_batch Sample.env_login_refused Sample.repr_list Sample.three_rows
      Sample.column Sample.mode_bio tt = (Ret ([], [f]), st) /\
    f_index f = 0 /\
    f_error f <> lit "login_failed".
Proof. vm_compute. do 2 eexists. repeat split. discriminate. Qed.

(** C3, amended: when login is refused (and [close] returns), the run
    returns no success and exactly one failure, whose identifier field
    is the tag [login_failed], whose reason is "Failed to login to
    LinkedIn" and whose index is 0; the only calls made are the
    construction of the scraper, the login and [close], so no item is
    navigated to or processed. *)
Theorem login_refused_aborts_batch
    {W : Type} (env : Collab W) (repr_list : list str -> str)
    (records : csv_records) (col mode : str) (w w1 w2 w3 : W) (urls : list str) :
  parse_urls repr_list records col = Ret urls ->
  new_scraper env w = (Ret tt, w1) ->
  login_to_linkedin env w1 = (Ret false, w2) ->
  close env w2 = (Ret tt, w3) ->
  run_batch env repr_list records col mode w
  = (Ret ([],
          [mkFailure (lit "login_failed") (lit "Failed to login to LinkedIn") 0]),
     mkB w3 [ENew; ELogin; EClose] [] []).
Proof.
  intros Hparse Hnew Hlogin Hclose.
  rewrite (run_batch_acquired env repr_list mode _ _ _ _ _ Hparse Hnew).
  rewrite (session_block_refused env mode urls (mkB w1 [ENew] [] []) w2 Hlogin).
  rewrite Hclose. reflexivity.
Qed.

Lemma login_refused_aborts_batch_witness :
  run_batch Sample.env_login_refused Sample.repr_list Sample.three_rows
    Sample.column Sample.mode_bio tt
  = (Ret ([],
          [mkFailure (lit "login_failed") (lit "Failed to login to LinkedIn") 0]),
     mkB tt [ENew; ELogin; EClose] [] []).
Proof.
  apply (login_refused_aborts_batch Sample.env_login_refused Sample.repr_list
           Sample.three_rows Sample.column Sample.mode_bio tt tt tt tt
           [Sample.url_a; Sample.url_b; Sample.url_c]).
  - vm_compute; reflexivity.
  - reflexivity.
  - reflexivity.
  - reflexivity.
Defined.



(** The interrupted run of the witness: the exception leaves the
    function, the first item is kept in the state, and [close] has been
    called. *)
Example interrupted_run_still_closes :
  exists st,
    run_batch Sample.env_interrupted Sample.repr_list Sample.three_rows
      Sample.column Sample.mode_bio tt = (Raise Sample.interrupt, st) /\
    trace st
    = [ENew; ELogin] ++ item_events Sample.url_a Sample.mode_bio
      ++ [EGoto Sample.url_b; EClose].
Proof. vm_compute. eexists. split; reflexivity. Qed.

(** C9, as stated, fails: in a run over one identifier in which
    everything works, no pause precedes the navigation (the pause of 2 to
    4 comes after it), and a pause of 3 to 6 follows the last item. *)
Lemma pacing_is_not_as_documented :
  let tr := trace (snd (run_batch Sample.env_ok Sample.repr_list Sample.one_row
                          Sample.column Sample.mode_bio tt)) in
  tr = [ENew; ELogin; EGoto Sample.url_a; EDelay 2 4; EScrape Sample.url_a;
        EAnalyze Sample.mode_bio; ENow; EDelay 3 6; EClose] /\
  pause_before_each_goto None tr = false /\
  no_pause_after_last_item tr = false /\
  paced_as_documented tr = false.
Proof. vm_compute. repeat split. Qed.

(** C9, amended: after a successful login the calls of the run are the
    items in input order, each a prefix of navigation, pause of 2 to 4,
    extraction, analysis, timestamp, pause of 3 to 6, and how long the
    prefix of an item is follows from the answers of the collaborators
    in the world the item starts in ([loop_result]): one call when the
    navigation raises, two when it returns and the pause of 2 to 4
    raises, three or more when that pause returns.  So the short pause
    is the call that follows every navigation that returned (when all
    navigations return, every item makes it), and the long pause is made
    by exactly the items that a success is stored for, the last item
    included. *)
Theorem pacing_of_the_loop
    {W : Type} (env : Collab W) (repr_list : list str -> str)
    (records : csv_records) (col mode : str) (w w1 w2 : W) (urls : list str) :
  parse_urls repr_list records col = Ret urls ->
  new_scraper env w = (Ret tt, w1) ->
  login_to_linkedin env w1 = (Ret true, w2) ->
  exists ns o st,
    run_batch env repr_list records col mode w = (o, st) /\
    trace st = [ENew; ELogin] ++ loop_trace mode urls ns ++ [EClose] /\
    (exists rs es raised w', loop_result env mode 1 urls w2 ns rs es raised w') /\
    (navigation_returns env -> Forall (fun n => (2 <= n)%nat) ns) /\
    Forall item_reach ns /\
    map success_key (results st) = completed 1 urls ns /\
    (List.length ns <= List.length urls)%nat /\
    match o with
    | Ret _ => List.length ns = List.length urls
    | Raise _ => True
    end.
Proof.
  intros Hparse Hnew Hlogin.
  rewrite (run_batch_acquired env repr_list mode _ _ _ _ _ Hparse Hnew).
  rewrite (session_block_logged_in env mode urls (mkB w1 [ENew] [] []) w2 Hlogin).
  cbn [world trace results errors].
  destruct (batch_loop_result env mode urls 1 (mkB w2 ([ENew] ++ [ELogin]) [] []))
    as (ns & rs & es & raised & w' & Hloop & Hrun).
  cbn [world trace results errors] in Hloop, Hrun.
  rewrite Hrun. cbn [world trace results errors].
  destruct (loop_result_facts env mode _ _ _ _ _ _ _ _ Hloop)
    as (Hns & Hkeys & Hlen & Ho).
  exists ns.
  assert (Hrest :
            (exists rs es raised w', loop_result env mode 1 urls w2 ns rs es raised w') /\
            (navigation_returns env -> Forall (fun n => (2 <= n)%nat) ns) /\
            Forall item_reach ns /\
            map success_key ([] ++ rs) = completed 1 urls ns /\
            (List.length ns <= List.length urls)%nat).
  { split; [eauto|]. split; [|auto].
    intros Hnav. eapply loop_result_paused; eassumption. }
  destruct Hrest as (H1 & H2 & H3 & H4 & H5).
  destruct (close env w') as [[[]|e'] w3]; destruct raised as [e|];
    cbn [ended]; do 2 eexists; (split; [reflexivity|]);
    cbn [trace results]; rewrite <- ?app_assoc;
    (split; [reflexivity|]); auto 10.
Qed.

Lemma pacing_of_the_loop_witness :
  exists ns o st,
    run_batch Sample.env_b_broken Sample.repr_list Sample.three_rows
      Sample.column Sample.mode_bio tt = (o, st) /\
    trace st = [ENew; ELogin]
               ++ loop_trace Sample.mode_bio
                    [Sample.url_a; Sample.url_b; Sample.url_c] ns
               ++ [EClose] /\
    (exists rs es raised w',
        loop_result Sample.env_b_broken Sample.mode_bio 1
          [Sample.url_a; Sample.url_b; Sample.url_c] tt ns rs es raised w') /\
    (navigation_returns Sample.env_b_broken ->
     Forall (fun n => (2 <= n)%nat) ns) /\
    Forall item_reach ns /\
    map success_key (results st)
    = completed 1 [Sample.url_a; Sample.url_b; Sample.url_c] ns /\
    (List.length ns <= 3)%nat /\
    match o with
    | Ret _ => List.length ns = 3%nat
    | Raise _ => True
    end.
Proof.
  apply (pacing_of_the_loop Sample.env_b_broken Sample.repr_list
           Sample.three_rows Sample.column Sample.mode_bio tt tt tt
           [Sample.url_a; Sample.url_b; Sample.url_c]).
  - vm_compute; reflexivity.
  - reflexivity.
  - reflexivity.
Defined.

(** The run of the witness, call by call: the first and the third
    identifier make their six calls, the second stops at the navigation
    that raised, without any pause. *)
Example pacing_of_a_broken_item :
  trace (snd (run_batch Sample.env_b_broken Sample.repr_list Sample.three_rows
                Sample.column Sample.mode_bio tt))
  = [ENew; ELogin]
    ++ item_events Sample.url_a Sample.mode_bio
    ++ [EGoto Sample.url_b]
    ++ item_events Sample.url_c Sample.mode_bio
    ++ [EClose].
Proof. vm_compute. reflexivity. Qed.


(* ================================================================== *)
(** * Properties of the input parser *)
(* ================================================================== *)

(** The URLs the filter keeps from a list of cells. *)
Lemma collect_urls_of_cells col : forall rows urls,
  Forall (fun row => exists cell, dict_get row col = Some (Some cell)) rows ->
  exists kept,
    collect_urls col rows urls = Ret (urls ++ kept) /\
    Forall (fun url => str_truthy url = true /\
                       contains profile_marker url = true) kept.
Proof.
  induction rows as [|row rows IH]; intros urls Hrows; simpl.
  - exists []. now rewrite app_nil_r.
  - inversion Hrows as [|? ? [cell Hcell] Hrest]; subst.
    rewrite Hcell.
    destruct (str_truthy (strip cell) && contains profile_marker (strip cell))
      eqn:Hvalid.
    + destruct (IH (urls ++ [strip cell]) Hrest) as (kept & Hrun & Hkept).
      exists (strip cell :: kept). rewrite Hrun, <- app_assoc. split; auto.
      constructor; auto. now apply andb_true_iff in Hvalid.
    + destruct (IH urls Hrest) as (kept & Hrun & Hkept). eauto.
Qed.

(** A column that is not in the header is reported together with the
    header that was found. *)
Lemma parse_urls_missing_column repr_list header rows col :
  existsb (str_eqb col) header = false ->
  parse_urls repr_list (header :: rows) col
  = Raise (ValueError (lit "Column '" ++ col
                       ++ lit "' not found in CSV. Available columns: "
                       ++ repr_list header)).
Proof. intros H. unfold parse_urls; simpl. now rewrite H. Qed.

(** The parser example of the design document: of the three rows only
    the first gives an identifier. *)
Example parse_urls_mixed_rows :
  parse_urls Sample.repr_list Sample.mixed_rows Sample.column
  = Ret [Sample.url_a].
Proof. vm_compute. reflexivity. Qed.

(** Rows that hold no profile URL leave an empty batch, which is an
    error. *)
Example parse_urls_no_valid_url :
  parse_urls Sample.repr_list
    [[lit "profile_url"]; [lit ""]; [lit "not-a-url"]] Sample.column
  = Raise (ValueError (lit "No valid LinkedIn URLs found in the CSV file")).
Proof. vm_compute. reflexivity. Qed.

(** An input without any line has no header: the column test itself
    raises. *)
Example parse_urls_no_line :
  parse_urls Sample.repr_list [] Sample.column
  = Raise (TypeError (lit "argument of type 'NoneType' is not iterable")).
Proof. reflexivity. Qed.

(** C5: the claim does not hold of a row that ends before the URL
    column.  [DictReader] fills the missing cell with [None], the default
    of [row.get(url_column, '')] is not used because the key is there,
    and [.strip()] raises [AttributeError]: the row is not skipped, the
    whole batch is abandoned before a session is opened. *)
Theorem short_row_aborts_the_batch :
  parse_urls Sample.repr_list Sample.short_row Sample.column
  = Raise (AttributeError (lit "'NoneType' object has no attribute 'strip'")) /\
  run_batch Sample.env_ok Sample.repr_list Sample.short_row Sample.column
    Sample.mode_bio tt
  = (Raise (AttributeError (lit "'NoneType' object has no attribute 'strip'")),
     init_state tt).
Proof. split; vm_compute; reflexivity. Qed.

(* ================================================================== *)
(** * Properties of the classification of an item *)
(* ================================================================== *)

(** C6, as stated, fails: a record that has a headline but no name is
    stored as a success, and no failure is recorded for it. *)
Lemma nameless_record_is_stored_as_success :
  exists r st,
    run_batch Sample.env_nameless Sample.repr_list Sample.one_row
      Sample.column Sample.mode_bio tt = (Ret ([r], []), st) /\
    s_url r = Sample.url_a /\
    p_name (s_profile_data r) = None.
Proof. vm_compute. do 2 eexists. repeat split. Qed.

(** C6, amended: what is classified as an extraction failure is a record
    that is absent or empty; the failure carries the reason "Failed to
    scrape profile: " followed by the identifier.  A record that is not
    empty goes on to the analysis whether or not it has a name, and when
    the analysis succeeds it is stored as a success; its row in the
    results table has [scraping_success] "Yes" if the name is there and
    not empty, "No" otherwise. *)
Theorem extraction_failure_is_an_empty_record
    {W : Type} (env : Collab W)
    (json_dumps_experience : list experience_entry -> str)
    (json_dumps_strings : list str -> str)
    (mode : str) (i : Z) (url : str) (s : bstate W) (w1 w2 w3 : W)
    (profile_data : option ProfileRecord) :
  page_goto env url (world s) = (Ret tt, w1) ->
  random_delay env 2 4 w1 = (Ret tt, w2) ->
  scrape_profile env url w2 = (Ret profile_data, w3) ->
  (profile_truthy profile_data = false ->
   loop_body env mode i url s
   = (Ret tt,
      mkB w3 (trace s ++ [EGoto url; EDelay 2 4; EScrape url]) (results s)
        (errors s ++ [mkFailure url (lit "Failed to scrape profile: " ++ url) i])))
  /\
  (forall p a t w4 w5 w6,
      profile_data = Some p ->
      profile_nonempty p = true ->
      analyze_profile env p mode w3 = (Ret (Some a), w4) ->
      analysis_failed (Some a) = false ->
      now_isoformat env w4 = (t, w5) ->
      random_delay env 3 6 w5 = (Ret tt, w6) ->
      loop_body env mode i url s
      = (Ret tt,
         mkB w6 (trace s ++ item_events url mode)
           (results s ++ [mkSuccess url p a i t]) (errors s)) /\
      r_scraping_success
        (results_row_of json_dumps_experience json_dumps_strings mode
           (mkSuccess url p a i t))
      = (if get_truthy (p_name p) then lit "Yes" else lit "No")).
Proof.
  intros Hgoto Hdelay Hscrape.
  destruct s as [w0 tr rs es]; simpl in *.
  split.
  - intros Hfalsy.
    unfold loop_body, try_except, item_steps, bind, call, errors_append; simpl.
    rewrite Hgoto; simpl. rewrite Hdelay; simpl. rewrite Hscrape; simpl.
    destruct profile_data as [p|]; simpl in *;
      [rewrite Hfalsy|]; simpl; now rewrite <- !app_assoc.
  - intros p a t w4 w5 w6 -> Hp Hanalyze Hok Hnow Hpause.
    split; [|reflexivity].
    unfold loop_body, try_except, item_steps, bind, call; simpl.
    rewrite Hgoto; simpl. rewrite Hdelay; simpl. rewrite Hscrape; simpl.
    rewrite Hp.
    unfold analyze_and_store, bind, call, call_total, results_append; simpl.
    rewrite Hanalyze; simpl. rewrite Hok; simpl. rewrite Hnow; simpl.
    rewrite Hpause; simpl. now rewrite <- !app_assoc.
Qed.

Lemma extraction_failure_is_an_empty_record_witness :
  (profile_truthy (Some (Sample.nameless_profile Sample.url_a)) = false ->
   loop_body Sample.env_nameless Sample.mode_bio 1 Sample.url_a (init_state tt)
   = (Ret tt,
      mkB tt ([] ++ [EGoto Sample.url_a; EDelay 2 4; EScrape Sample.url_a]) []
        ([] ++ [mkFailure Sample.url_a
                  (lit "Failed to scrape profile: " ++ Sample.url_a) 1])))
  /\
  (forall p a t w4 w5 w6,
      Some (Sample.nameless_profile Sample.url_a) = Some p ->
      profile_nonempty p = true ->
      analyze_profile Sample.env_nameless p Sample.mode_bio tt = (Ret (Some a), w4) ->
      analysis_failed (Some a) = false ->
      now_isoformat Sample.env_nameless w4 = (t, w5) ->
      random_delay Sample.env_nameless 3 6 w5 = (Ret tt, w6) ->
      loop_body Sample.env_nameless Sample.mode_bio 1 Sample.url_a (init_state tt)
      = (Ret tt,
         mkB w6 ([] ++ item_events Sample.url_a Sample.mode_bio)
           ([] ++ [mkSuccess Sample.url_a p a 1 t]) []) /\
      r_scraping_success
        (results_row_of Sample.json_none Sample.json_none Sample.mode_bio
           (mkSuccess Sample.url_a p a 1 t))
      = (if get_truthy (p_name p) then lit "Yes" else lit "No")).
Proof.
  apply (extraction_failure_is_an_empty_record Sample.env_nameless
           Sample.json_none Sample.json_none Sample.mode_bio 1 Sample.url_a
           (init_state tt) tt tt tt
           (Some (Sample.nameless_profile Sample.url_a))).
  - reflexivity.
  - reflexivity.
  - reflexivity.
Defined.

(** The row of the results table for the nameless record of the sample
    says that scraping did not succeed. *)
Example nameless_row_says_no :
  r_scraping_success
    (results_row_of Sample.json_none Sample.json_none Sample.mode_bio
       (mkSuccess Sample.url_a (Sample.nameless_profile Sample.url_a)
          (Sample.analysis_ok Sample.mode_bio) 1 (lit "2025-01-01T00:00:00")))
  = lit "No".
Proof. reflexivity. Qed.


(* ================================================================== *)
(** * The aggregator *)
(* ================================================================== *)

Section AggregatorFacts.

Context {W : Type}.
Variable env : Collab W.
Variable json_dumps_experience : list experience_entry -> str.
Variable json_dumps_strings : list str -> str.

Lemma update_file_present name f (w : W) fs a :
  update_file name f (mkF w (dict_set fs name a))
  = (Ret tt, mkF w (dict_set fs name (f a))).
Proof.
  unfold update_file; simpl. now rewrite dict_get_set_same, dict_set_set.
Qed.

Lemma write_present name text (w : W) fs t :
  write name text (mkF w (dict_set fs name (SummaryTxt t)))
  = (Ret tt, mkF w (dict_set fs name (SummaryTxt (t ++ text)))).
Proof. unfold write. now rewrite update_file_present. Qed.

Lemma write_results_present name mode rs : forall (w : W) fs h rows,
  write_results json_dumps_experience json_dumps_strings name mode rs
    (mkF w (dict_set fs name (ResultsCsv h rows)))
  = (Ret tt,
     mkF w (dict_set fs name
              (ResultsCsv h (rows ++ map (results_row_of json_dumps_experience json_dumps_strings mode) rs)))).
Proof.
  induction rs as [|r rs IH]; intros w fs h rows; simpl.
  - now rewrite app_nil_r.
  - unfold bind, write_results_row. rewrite update_file_present.
    rewrite IH. now rewrite <- app_assoc.
Qed.

Lemma write_errors_present name es : forall (w : W) fs h rows,
  exists w' rows',
    write_errors env name es (mkF w (dict_set fs name (ErrorsCsv h rows)))
    = (Ret tt, mkF w' (dict_set fs name (ErrorsCsv h (rows ++ rows')))) /\
    map errors_row_core rows' = map failure_core es.
Proof.
  induction es as [|f es IH]; intros w fs h rows; simpl.
  - exists w, []. now rewrite app_nil_r.
  - unfold bind, isoformat; simpl.
    destruct (now_isoformat env w) as [t w1].
    unfold write_errors_row. rewrite update_file_present.
    destruct (IH w1 fs h
                (rows ++ [mkErrorsRow (f_url f) (f_error f) (f_index f) t
                            (error_type (f_error f))]))
      as (w' & rows' & Hrun & Hcore).
    rewrite Hrun. eexists w', (_ :: rows'). rewrite <- app_assoc. simpl.
    split; [reflexivity|]. now rewrite Hcore.
Qed.

Lemma write_lines_present {A} name (line : A -> str) l : forall (w : W) fs t,
  write_lines name line l (mkF w (dict_set fs name (SummaryTxt t)))
  = (Ret tt, mkF w (dict_set fs name (SummaryTxt (t ++ List.concat (map line l))))).
Proof.
  induction l as [|a l IH]; intros w fs t; simpl.
  - now rewrite app_nil_r.
  - unfold bind. rewrite write_present, IH. now rewrite <- app_assoc.
Qed.

Lemma bind_open_w {A} name a (k : unit -> M (fstate W) A) (w w' : W) fs :
  open_file env name w = (Ret tt, w') ->
  bind (open_w env name a) k (mkF w fs) = k tt (mkF w' (dict_set fs name a)).
Proof. intros H. unfold bind, open_w. cbn [fworld files]. now rewrite H. Qed.

Lemma bind_open_w_raised {A} name a (k : unit -> M (fstate W) A) (w w' : W) fs e :
  open_file env name w = (Raise e, w') ->
  bind (open_w env name a) k (mkF w fs) = (Raise e, mkF w' fs).
Proof. intros H. unfold bind, open_w. cbn [fworld files]. now rewrite H. Qed.

Lemma bind_write {A} name text (k : unit -> M (fstate W) A) (w : W) fs t :
  bind (write name text) k (mkF w (dict_set fs name (SummaryTxt t)))
  = k tt (mkF w (dict_set fs name (SummaryTxt (t ++ text)))).
Proof. unfold bind. now rewrite write_present. Qed.

Lemma bind_write_lines {A B} name (line : B -> str) l
    (k : unit -> M (fstate W) A) (w : W) fs t :
  bind (write_lines name line l) k (mkF w (dict_set fs name (SummaryTxt t)))
  = k tt (mkF w (dict_set fs name (SummaryTxt (t ++ List.concat (map line l))))).
Proof. unfold bind. now rewrite write_lines_present. Qed.

Lemma bind_strftime {A} fmt (k : str -> M (fstate W) A) (w w' : W) fs t :
  now_strftime env fmt w = (t, w') ->
  bind (strftime env fmt) k (mkF w fs) = k t (mkF w' fs).
Proof. intros H. unfold bind, strftime; simpl. now rewrite H. Qed.

Lemma bind_ret {S A B} (a : A) (k : A -> M S B) (s : S) :
  bind (ret a) k s = k a s.
Proof. reflexivity. Qed.

Lemma bind_assoc {S A B C} (m : M S A) (f : A -> M S B) (g : B -> M S C) (s : S) :
  bind (bind m f) g s = bind m (fun x => bind (f x) g) s.
Proof. unfold bind. now destruct (m s) as [[a|e] s']. Qed.

Lemma bind_lift_outcome {S A B} (o : outcome A) (k : A -> M S B) (s : S) :
  bind (lift_outcome o) k s
  = match o with Ret a => k a s | Raise e => (Raise e, s) end.
Proof. unfold bind, lift_outcome. now destruct o. Qed.

(** The summary file once it has been opened: complete when the rate
    can be computed, cut before the rate otherwise. *)
Lemma write_summary_spec name mode rs es (w w0 : W) fs :
  open_file env name w = (Ret tt, w0) ->
  write_summary env name mode rs es (mkF w fs)
  = let (generated, w') := now_strftime env (lit "%Y-%m-%d %H:%M:%S") w0 in
    match success_rate rs es with
    | Ret rate =>
        (Ret tt,
         mkF w' (dict_set fs name
                   (SummaryTxt (summary_head generated mode rs es
                                ++ (lit "Success Rate: " ++ rate ++ nl ++ nl)
                                ++ summary_tail rs es))))
    | Raise e =>
        (Raise e,
         mkF w' (dict_set fs name (SummaryTxt (summary_head generated mode rs es))))
    end.
Proof.
  intros Hopen. unfold write_summary.
  rewrite (bind_open_w _ _ _ _ _ _ Hopen), bind_write.
  destruct (now_strftime env (lit "%Y-%m-%d %H:%M:%S") w0) as [generated w'] eqn:Hnow.
  rewrite (bind_strftime _ _ _ _ _ _ Hnow).
  rewrite !bind_write, bind_lift_outcome.
  assert (Hhead :
            ((((([] ++ lit "LinkedIn Profile Analyzer - Batch Processing Summary" ++ nl)
                ++ lit "Generated: " ++ generated ++ nl)
               ++ lit "Analysis Mode: " ++ mode ++ nl)
              ++ lit "Total Profiles Processed: " ++ str_of_int (len rs + len es) ++ nl)
             ++ lit "Successful Scrapes: " ++ str_of_int (len rs) ++ nl)
            ++ lit "Failed Scrapes: " ++ str_of_int (len es) ++ nl
            = summary_head generated mode rs es).
  { unfold summary_head, nl. rewrite <- !app_assoc. reflexivity. }
  rewrite Hhead.
  set (head := summary_head generated mode rs es).
  destruct (success_rate rs es) as [rate|e]; [|reflexivity].
  rewrite bind_write.
  unfold summary_tail, nl.
  destruct rs as [|r rs]; destruct es as [|f es];
    repeat first [ rewrite bind_assoc | rewrite bind_ret | rewrite bind_write
                 | rewrite bind_write_lines | rewrite write_present
                 | rewrite write_lines_present ];
    unfold ret, success_line, failure_line;
    rewrite ?app_nil_r, <- ?app_assoc; reflexivity.
Qed.

(** The summary file when it cannot be opened. *)
Lemma write_summary_raised name mode rs es (w w0 : W) fs e :
  open_file env name w = (Raise e, w0) ->
  write_summary env name mode rs es (mkF w fs) = (Raise e, mkF w0 fs).
Proof.
  intros Hopen. unfold write_summary.
  now rewrite (bind_open_w_raised _ _ _ _ _ _ _ Hopen).
Qed.

Lemma results_name_not_errors x y :
  str_eqb (lit "batch_results_" ++ x) (lit "batch_errors_" ++ y) = false.
Proof. reflexivity. Qed.

Lemma results_name_not_summary x y :
  str_eqb (lit "batch_results_" ++ x) (lit "batch_summary_" ++ y) = false.
Proof. reflexivity. Qed.

Lemma errors_name_not_summary x y :
  str_eqb (lit "batch_errors_" ++ x) (lit "batch_summary_" ++ y) = false.
Proof. reflexivity. Qed.

Lemma reraise_same {S A} (body : M S A) (s : S) :
  try_except body (fun e => raise e) s = body s.
Proof.
  unfold try_except, raise.
  destruct (body s) as [[a|e] s']; [reflexivity|].
  now destruct (exn_is_Exception e).
Qed.

(** Every way a call of the aggregator can go: the results table cannot
    be opened, and there is no file; or the errors table cannot, and
    there is the results table; or the summary cannot, and there are the
    tables; or all files are opened, and the summary is complete, or cut
    before the rate when the rate cannot be computed. *)
Lemma run_save_cases rs es mode (w : W) :
  exists ts w1,
    now_strftime env (lit "%Y%m%d_%H%M%S") w = (ts, w1) /\
    let filename := results_name mode ts in
    let error_filename := errors_name ts in
    let summary_filename := summary_name ts in
    let R :=
      (filename,
       ResultsCsv results_fieldnames
         (map (results_row_of json_dumps_experience json_dumps_strings mode) rs)) in
    (exists e w2,
        open_file env filename w1 = (Raise e, w2) /\
        run_save env json_dumps_experience json_dumps_strings rs es mode w
        = (Raise e, mkF w2 [])) \/
    (exists e w2 w3,
        es <> [] /\
        open_file env filename w1 = (Ret tt, w2) /\
        open_file env error_filename w2 = (Raise e, w3) /\
        run_save env json_dumps_experience json_dumps_strings rs es mode w
        = (Raise e, mkF w3 [R])) \/
    (exists w2 rows' w3,
        open_file env filename w1 = (Ret tt, w2) /\
        map errors_row_core rows' = map failure_core es /\
        let tables :=
          R :: match es with
               | [] => []
               | _ :: _ => [(error_filename, ErrorsCsv errors_fieldnames rows')]
               end in
        (exists e w4,
            open_file env summary_filename w3 = (Raise e, w4) /\
            run_save env json_dumps_experience json_dumps_strings rs es mode w
            = (Raise e, mkF w4 tables)) \/
        (exists w4 generated w5,
            open_file env summary_filename w3 = (Ret tt, w4) /\
            now_strftime env (lit "%Y-%m-%d %H:%M:%S") w4 = (generated, w5) /\
            run_save env json_dumps_experience json_dumps_strings rs es mode w
            = match success_rate rs es with
              | Ret rate =>
                  (Ret (filename,
                        match es with [] => None | _ :: _ => Some error_filename end,
                        summary_filename),
                   mkF w5
                     (tables
                      ++ [(summary_filename,
                           SummaryTxt (summary_head generated mode rs es
                                       ++ (lit "Success Rate: " ++ rate ++ nl ++ nl)
                                       ++ summary_tail rs es))]))
              | Raise e =>
                  (Raise e,
                   mkF w5
                     (tables
                      ++ [(summary_filename,
                           SummaryTxt (summary_head generated mode rs es))]))
              end)).
Proof.
  remember (run_save env json_dumps_experience json_dumps_strings rs es mode w)
    as run eqn:Hrun.
  unfold run_save, save_batch_results in Hrun. rewrite reraise_same in Hrun.
  destruct (now_strftime env (lit "%Y%m%d_%H%M%S") w) as [ts w1] eqn:Hts.
  rewrite (bind_strftime _ _ _ _ _ _ Hts) in Hrun.
  exists ts, w1. split; [reflexivity|]. cbv zeta.
  fold (results_name mode ts) (errors_name ts) (summary_name ts) in Hrun.
  set (filename := results_name mode ts) in *.
  set (error_filename := errors_name ts) in *.
  set (summary_filename := summary_name ts) in *.
  set (R := ResultsCsv results_fieldnames
              (map (results_row_of json_dumps_experience json_dumps_strings mode) rs)).
  assert (Hre : str_eqb filename error_filename = false)
    by apply results_name_not_errors.
  assert (Hrs : str_eqb filename summary_filename = false)
    by apply results_name_not_summary.
  assert (Hes : str_eqb error_filename summary_filename = false)
    by apply errors_name_not_summary.
  destruct (open_file env filename w1) as [[[]|e] w2] eqn:Hopen1.
  2:{ left. exists e, w2. split; [reflexivity|].
      now rewrite (bind_open_w_raised _ _ _ _ _ _ _ Hopen1) in Hrun. }
  right.
  rewrite (bind_open_w _ _ _ _ _ _ Hopen1) in Hrun.
  unfold bind at 1 in Hrun. rewrite write_results_present in Hrun.
  rewrite app_nil_l in Hrun. fold R in Hrun.
  assert (Hsummary : forall w3 tables,
             (exists e w4,
                 open_file env summary_filename w3 = (Raise e, w4) /\
                 bind (write_summary env summary_filename mode rs es)
                   (fun _ =>
                      ret (filename,
                           match es with
                           | [] => None
                           | _ :: _ => Some error_filename
                           end, summary_filename)) (mkF w3 tables)
                 = (Raise e, mkF w4 tables)) \/
             (exists w4 generated w5,
                 open_file env summary_filename w3 = (Ret tt, w4) /\
                 now_strftime env (lit "%Y-%m-%d %H:%M:%S") w4 = (generated, w5) /\
                 bind (write_summary env summary_filename mode rs es)
                   (fun _ =>
                      ret (filename,
                           match es with
                           | [] => None
                           | _ :: _ => Some error_filename
                           end, summary_filename)) (mkF w3 tables)
                 = match success_rate rs es with
                   | Ret rate =>
                       (Ret (filename,
                             match es with
                             | [] => None
                             | _ :: _ => Some error_filename
                             end, summary_filename),
                        mkF w5
                          (dict_set tables summary_filename
                             (SummaryTxt (summary_head generated mode rs es
                                          ++ (lit "Success Rate: " ++ rate ++ nl ++ nl)
                                          ++ summary_tail rs es))))
                   | Raise e =>
                       (Raise e,
                        mkF w5
                          (dict_set tables summary_filename
                             (SummaryTxt (summary_head generated mode rs es))))
                   end)).
  { intros w3 tables.
    destruct (open_file env summary_filename w3) as [[[]|e] w4] eqn:Hopen3.
    - right.
      destruct (now_strftime env (lit "%Y-%m-%d %H:%M:%S") w4)
        as [generated w5] eqn:Hgen.
      exists w4, generated, w5. split; [reflexivity|]. split; [exact Hgen|].
      unfold bind at 1. rewrite (write_summary_spec _ _ _ _ _ _ _ Hopen3), Hgen.
      now destruct (success_rate rs es).
    - left. exists e, w4. split; [reflexivity|].
      unfold bind at 1. now rewrite (write_summary_raised _ _ _ _ _ _ _ _ Hopen3). }
  destruct es as [|f es'].
  - right. exists w2, [], w2. split; [reflexivity|]. split; [reflexivity|].
    cbv zeta.
    rewrite bind_ret in Hrun.
    destruct (Hsummary w2 (dict_set [] filename R))
      as [(e & w4 & Ho & Hsum) | (w4 & generated & w5 & Ho & Hg & Hsum)].
    + left. exists e, w4. split; [exact Ho|]. rewrite Hrun. exact Hsum.
    + right. exists w4, generated, w5. split; [exact Ho|]. split; [exact Hg|].
      rewrite Hrun. etransitivity; [exact Hsum|].
      cbn [dict_set]. rewrite Hrs. reflexivity.
  - rewrite bind_assoc in Hrun.
    destruct (open_file env error_filename w2) as [[[]|e] w3] eqn:Hopen2.
    2:{ left. exists e, w2, w3.
        split; [discriminate|]. split; [reflexivity|]. split; [exact Hopen2|].
        now rewrite (bind_open_w_raised _ _ _ _ _ _ _ Hopen2) in Hrun. }
    rewrite (bind_open_w _ _ _ _ _ _ Hopen2) in Hrun.
    destruct (write_errors_present error_filename (f :: es') w3
                (dict_set [] filename R) errors_fieldnames [])
      as (w3' & rows' & Herr & Hcore).
    unfold bind at 1 in Hrun. rewrite Herr in Hrun.
    right. exists w2, rows', w3'. split; [reflexivity|]. split; [exact Hcore|].
    cbv zeta.
    destruct (Hsummary w3'
                (dict_set (dict_set [] filename R) error_filename
                   (ErrorsCsv errors_fieldnames ([] ++ rows'))))
      as [(e & w4 & Ho & Hsum) | (w4 & generated & w5 & Ho & Hg & Hsum)].
    + left. exists e, w4. split; [exact Ho|]. rewrite Hrun.
      etransitivity; [exact Hsum|].
      cbn [dict_set]. rewrite Hre. reflexivity.
    + right. exists w4, generated, w5. split; [exact Ho|]. split; [exact Hg|].
      rewrite Hrun. etransitivity; [exact Hsum|].
      cbn [dict_set]. rewrite Hre. cbn [dict_set]. rewrite Hrs.
      cbn [dict_set]. rewrite Hes. reflexivity.
Qed.

(** The files of a call and its value when the files can be created:
    the results table, the errors table when there is a failure, and the
    summary, which is cut before the rate when the rate cannot be
    computed. *)
Lemma run_save_spec rs es mode (w : W) :
  creatable env mode ->
  exists ts w1 rows' w2 generated w3,
    now_strftime env (lit "%Y%m%d_%H%M%S") w = (ts, w1) /\
    map errors_row_core rows' = map failure_core es /\
    now_strftime env (lit "%Y-%m-%d %H:%M:%S") w2 = (generated, w3) /\
    let filename := lit "batch_results_" ++ mode ++ lit "_" ++ ts ++ lit ".csv" in
    let error_filename := lit "batch_errors_" ++ ts ++ lit ".csv" in
    let summary_filename := lit "batch_summary_" ++ ts ++ lit ".txt" in
    let tables :=
      (filename, ResultsCsv results_fieldnames (map (results_row_of json_dumps_experience json_dumps_strings mode) rs))
      :: match es with
         | [] => []
         | _ :: _ => [(error_filename, ErrorsCsv errors_fieldnames rows')]
         end in
    run_save env json_dumps_experience json_dumps_strings rs es mode w
    = match success_rate rs es with
      | Ret rate =>
          (Ret (filename,
                match es with [] => None | _ :: _ => Some error_filename end,
                summary_filename),
           mkF w3
             (tables
              ++ [(summary_filename,
                   SummaryTxt (summary_head generated mode rs es
                               ++ (lit "Success Rate: " ++ rate ++ nl ++ nl)
                               ++ summary_tail rs es))]))
      | Raise e =>
          (Raise e,
           mkF w3
             (tables
              ++ [(summary_filename,
                   SummaryTxt (summary_head generated mode rs es))]))
      end.
Proof.
  intros Hcan.
  destruct (run_save_cases rs es mode w) as (ts & w1 & Hts & Hcases).
  cbv zeta in Hcases.
  assert (Hopen : forall name w2 e w3,
             In name [results_name mode ts; errors_name ts; summary_name ts] ->
             open_file env name w2 = (Raise e, w3) -> False).
  { intros name w2 e w3 Hin Hraise.
    destruct (Hcan w ts w1 Hts name w2 Hin) as [w4 Hok]. congruence. }
  destruct Hcases
    as [(e & w2 & Ho & _)
       | [(e & w2 & w3 & _ & _ & Ho & _)
         | (w2 & rows' & w3 & _ & Hcore
            & [(e & w4 & Ho & _) | (w4 & generated & w5 & _ & Hg & Hrun)])]].
  - destruct (Hopen _ _ _ _ (or_introl eq_refl) Ho).
  - destruct (Hopen _ _ _ _ (or_intror (or_introl eq_refl)) Ho).
  - destruct (Hopen _ _ _ _ (or_intror (or_intror (or_introl eq_refl))) Ho).
  - exists ts, w1, rows', w4, generated, w5.
    split; [exact Hts|]. split; [exact Hcore|]. split; [exact Hg|].
    exact Hrun.
Qed.

(** What a call that returns has done. *)
Lemma run_save_returned rs es mode (w : W) names fs :
  run_save env json_dumps_experience json_dumps_strings rs es mode w
  = (Ret names, fs) ->
  exists ts rows' rate generated,
    map errors_row_core rows' = map failure_core es /\
    success_rate rs es = Ret rate /\
    names = (results_name mode ts,
             match es with [] => None | _ :: _ => Some (errors_name ts) end,
             summary_name ts) /\
    files fs
    = ((results_name mode ts,
        ResultsCsv results_fieldnames
          (map (results_row_of json_dumps_experience json_dumps_strings mode) rs))
       :: match es with
          | [] => []
          | _ :: _ => [(errors_name ts, ErrorsCsv errors_fieldnames rows')]
          end)
      ++ [(summary_name ts,
           SummaryTxt (summary_head generated mode rs es
                       ++ (lit "Success Rate: " ++ rate ++ nl ++ nl)
                       ++ summary_tail rs es))].
Proof.
  intros Hret.
  destruct (run_save_cases rs es mode w) as (ts & w1 & Hts & Hcases).
  cbv zeta in Hcases.
  destruct Hcases
    as [(e & w2 & _ & Hrun)
       | [(e & w2 & w3 & _ & _ & _ & Hrun)
         | (w2 & rows' & w3 & _ & Hcore
            & [(e & w4 & _ & Hrun) | (w4 & generated & w5 & _ & _ & Hrun)])]];
    rewrite Hrun in Hret; try discriminate.
  destruct (success_rate rs es) as [rate|e] eqn:Hrate; [|discriminate].
  inversion Hret; subst.
  exists ts, rows', rate, generated. auto.
Qed.


End AggregatorFacts.

(* ================================================================== *)
(** * Properties of the artifacts *)
(* ================================================================== *)

Lemma digit_char_is_digit d : 0 <= d < 10 -> is_digit (digit_char d) = true.
Proof.
  intros H. unfold is_digit, digit_char.
  apply andb_true_iff; split; apply N.leb_le; lia.
Qed.

Lemma decimal_fuel_digits fuel : forall n acc,
  0 <= n -> forallb is_digit acc = true ->
  forallb is_digit (decimal_fuel fuel n acc) = true.
Proof.
  induction fuel as [|fuel IH]; intros n acc Hn Hacc; simpl; auto.
  assert (Hd : forallb is_digit (digit_char (n mod 10) :: acc) = true).
  { simpl. rewrite Hacc, digit_char_is_digit; auto.
    apply Z.mod_pos_bound; lia. }
  destruct (n / 10 =? 0); auto.
  apply IH; auto. apply Z.div_pos; lia.
Qed.

Lemma decimal_fuel_nonempty fuel : forall n acc,
  acc <> [] -> decimal_fuel fuel n acc <> [].
Proof.
  induction fuel as [|fuel IH]; intros n acc Hacc; simpl; auto.
  destruct (n / 10 =? 0); [discriminate|].
  apply IH. discriminate.
Qed.

Lemma str_of_int_digits n : 0 <= n -> forallb is_digit (str_of_int n) = true.
Proof.
  intros Hn. unfold str_of_int.
  destruct (n <? 0) eqn:E; [apply Z.ltb_lt in E; lia|].
  now apply decimal_fuel_digits.
Qed.

Lemma round_half_even_nonneg num den :
  0 <= num -> 0 < den -> 0 <= round_half_even num den.
Proof.
  intros Hn Hd. unfold round_half_even.
  assert (0 <= num / den) by (apply Z.div_pos; lia).
  destruct (2 * (num mod den) ?= den); [destruct (Z.even _)| |]; lia.
Qed.

Lemma tenths_nonneg m e : 0 <= tenths m e.
Proof.
  unfold tenths. destruct e as [|p|p].
  - lia.
  - apply Z.mul_nonneg_nonneg; [lia|]. apply Z.pow_nonneg; lia.
  - apply round_half_even_nonneg; [lia|]. apply Z.pow_pos_nonneg; lia.
Qed.

(** [.1f] on a finite float: an optional sign, digits, the point and one
    digit. *)
Lemma format_1f_one_decimal s m e :
  exists ip d,
    format_1f (S754_finite s m e) = sign_str s ++ ip ++ lit "." ++ [d] /\
    forallb is_digit ip = true /\ ip <> [] /\ is_digit d = true.
Proof.
  pose proof (tenths_nonneg m e) as Ht.
  exists (str_of_int (tenths m e / 10)), (digit_char (tenths m e mod 10)).
  repeat split.
  - apply str_of_int_digits. apply Z.div_pos; lia.
  - unfold str_of_int.
    destruct (_ <? 0); [discriminate|].
    simpl. destruct (_ =? 0); [discriminate|].
    apply decimal_fuel_nonempty. discriminate.
  - apply digit_char_is_digit. apply Z.mod_pos_bound; lia.
Qed.




(** The files of the sample runs can be created. *)
Example sample_files_are_creatable : creatable Sample.env_ok Sample.mode_bio.
Proof.
  intros w ts w1 Hts name w2 Hin. inversion Hts; subst.
  exists tt. destruct w2.
  destruct Hin as [<- | [<- | [<- | []]]]; vm_compute; reflexivity.
Qed.

(** A run of the aggregator over one success and two failures. *)
Example errors_table_of_two_failures :
  exists w names t1 t2 other,
    run_save Sample.env_ok Sample.json_none Sample.json_none
      [mkSuccess Sample.url_a (Sample.profile_of Sample.url_a)
         (Sample.analysis_ok Sample.mode_bio) 1 (lit "t")]
      [mkFailure Sample.url_b (scrape_failed_msg Sample.url_b) 2;
       mkFailure Sample.url_c (analysis_failed_msg Sample.url_c) 3]
      Sample.mode_bio tt
    = (Ret names, mkF w other) /\
    dict_get other (lit "batch_errors_20250101_000000.csv")
    = Some (ErrorsCsv errors_fieldnames
              [mkErrorsRow Sample.url_b (scrape_failed_msg Sample.url_b) 2 t1
                 (lit "scraping_error");
               mkErrorsRow Sample.url_c (analysis_failed_msg Sample.url_c) 3 t2
                 (lit "analysis_error")]).
Proof. vm_compute. do 5 eexists. split; reflexivity. Qed.

Lemma success_rate_defined rs es :
  len rs + len es <> 0 ->
  exists q,
    int_truediv (len rs) (len rs + len es) = Ret q /\
    success_rate rs es = Ret (format_1f (float_mul_int q 100) ++ lit "%").
Proof.
  intros H. unfold success_rate, int_truediv.
  destruct (len rs + len es =? 0) eqn:E; [apply Z.eqb_eq in E; lia|].
  eauto.
Qed.

Lemma success_rate_undefined :
  success_rate [] [] = Raise (ZeroDivisionError (lit "division by zero")).
Proof. reflexivity. Qed.

Lemma len_zero_iff {A B} (rs : list A) (es : list B) :
  len rs + len es = 0 <-> rs = [] /\ es = [].
Proof.
  unfold len. split.
  - intros H. destruct rs, es; simpl in *; auto; lia.
  - intros [-> ->]. reflexivity.
Qed.

(** C7, as stated, fails: with no outcome at all the aggregator raises
    [ZeroDivisionError] while it writes the summary; no placeholder is
    written, the summary stops before the rate. *)
Lemma summary_of_no_outcome_divides_by_zero :
  exists w others generated,
    run_save Sample.env_ok Sample.json_none Sample.json_none [] []
      Sample.mode_bio tt
    = (Raise (ZeroDivisionError (lit "division by zero")),
       mkF w (others
              ++ [(lit "batch_summary_20250101_000000.txt",
                   SummaryTxt (summary_head generated Sample.mode_bio [] []))])).
Proof.
  exists tt,
    [(lit "batch_results_bio_20250101_000000.csv",
      ResultsCsv results_fieldnames [])],
    (lit "20250101_000000").
  vm_compute. reflexivity.
Qed.

(** C7, amended: the summary gives the success rate as the float
    [len(results) / total * 100] in the format [.1f], followed by a
    percent sign; three successes and one failure give "75.0%", and a
    finite float is rendered with exactly one digit after the point.
    With at least one outcome the rate is defined, and the summary of a
    call that returns (as every call does whose files can be created)
    ends with it and the two lists.  With no outcome the aggregator
    never returns and renders no placeholder: it raises, and what it
    raises is [ZeroDivisionError] when its files can be created.  The
    route does not get there: whenever it has written a file, the
    aggregator had been handed at least one outcome. *)
Theorem success_rate_in_summary
    {W : Type} (env : Collab W) (repr_list : list str -> str)
    (json_dumps_experience : list experience_entry -> str)
    (json_dumps_strings : list str -> str) :
  (forall rs es,
      List.length rs = 3%nat -> List.length es = 1%nat ->
      success_rate rs es = Ret (lit "75.0%")) /\
  (forall rs es mode w,
      len rs + len es <> 0 ->
      exists q,
        int_truediv (len rs) (len rs + len es) = Ret q /\
        (forall names fs,
            run_save env json_dumps_experience json_dumps_strings rs es mode w
            = (Ret names, fs) ->
            exists generated others,
              files fs
              = others
                ++ [(snd names,
                     SummaryTxt
                       (summary_head generated mode rs es
                        ++ (lit "Success Rate: "
                            ++ (format_1f (float_mul_int q 100) ++ lit "%")
                            ++ nl ++ nl)
                        ++ summary_tail rs es))]) /\
        (creatable env mode ->
         exists names fs,
           run_save env json_dumps_experience json_dumps_strings rs es mode w
           = (Ret names, fs))) /\
  (forall s m e,
      exists ip d,
        format_1f (S754_finite s m e) = sign_str s ++ ip ++ lit "." ++ [d] /\
        forallb is_digit ip = true /\ ip <> [] /\ is_digit d = true) /\
  (forall mode w,
      (forall names fs,
          run_save env json_dumps_experience json_dumps_strings [] [] mode w
          <> (Ret names, fs)) /\
      (creatable env mode ->
       exists fs,
         run_save env json_dumps_experience json_dumps_strings [] [] mode w
         = (Raise (ZeroDivisionError (lit "division by zero")), fs))) /\
  (forall records col mode w,
      let '(response, _, written, _) :=
        batch_analyze env repr_list json_dumps_experience json_dumps_strings
          records col mode w in
      written = [] \/
      exists rs es st,
        run_batch env repr_list records col mode w = (Ret (rs, es), st) /\
        len rs + len es <> 0).
Proof.
  split; [|split; [|split; [|split]]].
  - intros rs es Hr He. unfold success_rate, len. rewrite Hr, He.
    vm_compute. reflexivity.
  - intros rs es mode w Hnz.
    destruct (success_rate_defined rs es Hnz) as (q & Hq & Hrate).
    exists q. split; [exact Hq|]. split.
    + intros names fs Hret.
      destruct (run_save_returned env json_dumps_experience json_dumps_strings
                  rs es mode w names fs Hret)
        as (ts & rows' & rate & generated & _ & Hrate' & Hnames & Hfs).
      rewrite Hrate in Hrate'. inversion Hrate'; subst rate.
      rewrite Hfs, Hnames. cbn [snd]. eauto.
    + intros Hcan.
      destruct (run_save_spec env json_dumps_experience json_dumps_strings
                  rs es mode w Hcan)
        as (ts & w1 & rows' & w2 & generated & w3 & _ & _ & _ & Hrun).
      cbv zeta in Hrun. rewrite Hrate in Hrun. rewrite Hrun. eauto.
  - apply format_1f_one_decimal.
  - intros mode w. split.
    + intros names fs Hret.
      destruct (run_save_returned env json_dumps_experience json_dumps_strings
                  [] [] mode w names fs Hret)
        as (ts & rows' & rate & generated & _ & Hrate & _).
      rewrite success_rate_undefined in Hrate. discriminate.
    + intros Hcan.
      destruct (run_save_spec env json_dumps_experience json_dumps_strings
                  [] [] mode w Hcan)
        as (ts & w1 & rows' & w2 & generated & w3 & _ & _ & _ & Hrun).
      cbv zeta in Hrun. rewrite success_rate_undefined in Hrun.
      rewrite Hrun. eauto.
  - intros records col mode w. unfold batch_analyze.
    destruct (run_batch env repr_list records col mode w)
      as [[[rs es]|e] st] eqn:Hbatch.
    + assert (Hcases : (rs = [] /\ es = []) \/ len rs + len es <> 0).
      { destruct (Z.eq_dec (len rs + len es) 0) as [H|H]; auto.
        left. now apply len_zero_iff. }
      destruct Hcases as [[-> ->]|Hnz]; [now left|].
      destruct (run_save env json_dumps_experience json_dumps_strings
                  rs es mode (world st)) as [[names|e] fs];
        [|destruct (exn_is_Exception e)];
        destruct rs; destruct es; try (now left);
        right; eexists _, _, st; (split; [reflexivity | exact Hnz]).
    + destruct (exn_is_Exception e); now left.
Qed.

(** The summary of three successes and one failure, as a file. *)
Example summary_of_three_and_one :
  exists names w fs text,
    run_save Sample.env_ok Sample.json_none Sample.json_none
      [mkSuccess Sample.url_a (Sample.profile_of Sample.url_a)
         (Sample.analysis_ok Sample.mode_bio) 1 (lit "t");
       mkSuccess Sample.url_b (Sample.profile_of Sample.url_b)
         (Sample.analysis_ok Sample.mode_bio) 2 (lit "t");
       mkSuccess Sample.url_c (Sample.profile_of Sample.url_c)
         (Sample.analysis_ok Sample.mode_bio) 3 (lit "t")]
      [mkFailure Sample.url_a (scrape_failed_msg Sample.url_a) 4]
      Sample.mode_bio tt
    = (Ret names, mkF w fs) /\
    dict_get fs (lit "batch_summary_20250101_000000.txt")
    = Some (SummaryTxt text) /\
    contains (lit "Success Rate: 75.0%" ++ nl ++ nl) text = true.
Proof.
  do 4 eexists.
  split; [vm_compute; reflexivity|].
  split; vm_compute; reflexivity.
Qed.

(* ================================================================== *)
(** * Reasons and error types *)
(* ================================================================== *)

Lemma contains_after_prefix c p pre s :
  forallb (fun x => negb (N.eqb c x)) pre = true ->
  contains (c :: p) (pre ++ s) = contains (c :: p) s.
Proof.
  induction pre as [|x pre IH]; intros H; [reflexivity|].
  simpl in H. apply andb_true_iff in H as [Hx Hpre].
  apply negb_true_iff in Hx.
  change (contains (c :: p) ((x :: pre) ++ s))
    with (startswith (c :: p) (x :: pre ++ s) || contains (c :: p) (pre ++ s)).
  change (startswith (c :: p) (x :: pre ++ s))
    with (N.eqb c x && startswith p (pre ++ s)).
  rewrite Hx. simpl. auto.
Qed.

(** "Failed to scrape" cannot begin inside "Error processing ". *)
Lemma processing_reason_marker url e :
  contains scrape_marker (processing_error_msg url e)
  = contains scrape_marker (url ++ lit ": " ++ exn_str e).
Proof.
  unfold processing_error_msg.
  change scrape_marker with (70%N :: lit "ailed to scrape").
  apply contains_after_prefix. reflexivity.
Qed.

(** Nor can it begin inside "Failed to generate analysis for: ". *)
Lemma analysis_reason_marker url :
  contains scrape_marker (analysis_failed_msg url) = contains scrape_marker url.
Proof.
  unfold analysis_failed_msg.
  change (lit "Failed to generate analysis for: " ++ url)
    with (70%N :: lit "ailed to generate analysis for: " ++ url).
  change (contains scrape_marker
            (70%N :: lit "ailed to generate analysis for: " ++ url))
    with (startswith scrape_marker
            (lit "Failed to generate analysis for: " ++ url)
          || contains scrape_marker
               (lit "ailed to generate analysis for: " ++ url)).
  replace (startswith scrape_marker
             (lit "Failed to generate analysis for: " ++ url))
    with false by reflexivity.
  change scrape_marker with (70%N :: lit "ailed to scrape").
  apply contains_after_prefix. reflexivity.
Qed.

Lemma scrape_reason_marker url :
  contains scrape_marker (scrape_failed_msg url) = true.
Proof. reflexivity. Qed.

(** C10, as stated, fails: extraction raises an exception whose text
    mentions scraping; the reason recorded for the item contains "Failed
    to scrape" and the errors table types it [scraping_error]. *)
Lemma raised_failure_typed_scraping_error :
  exists f st,
    run_batch Sample.env_scrape_raises Sample.repr_list Sample.one_row
      Sample.column Sample.mode_bio tt = (Ret ([], [f]), st) /\
    f_error f
    = lit "Error processing https://linkedin.com/in/a: Failed to scrape the page" /\
    contains (lit "Failed to scrape") (f_error f) = true /\
    error_type (f_error f) = lit "scraping_error".
Proof. vm_compute. do 2 eexists. repeat split. Qed.

(** C10, amended: when the steps of an item raise an instance of
    [Exception], the loop body returns and records one failure whose
    reason is "Error processing ", the identifier, ": " and the text of
    the exception.  That reason is typed [analysis_error] when neither
    the identifier nor the text of the exception brings in "Failed to
    scrape", and [scraping_error] when they do.  The reason of an empty
    extraction is always typed [scraping_error], and the reason of a
    failed analysis is typed by whether the identifier contains the
    phrase. *)
Theorem raised_failure_reason_and_type
    {W : Type} (env : Collab W) (mode : str) (i : Z) (url : str)
    (s s1 : bstate W) (e : pyexn) :
  item_steps env mode i url s = (Raise e, s1) ->
  exn_is_Exception e = true ->
  loop_body env mode i url s
  = (Ret tt,
     mkB (world s1) (trace s1) (results s1)
       (errors s1
        ++ [mkFailure url (lit "Error processing " ++ url ++ lit ": " ++ exn_str e)
              i])) /\
  error_type (lit "Error processing " ++ url ++ lit ": " ++ exn_str e)
  = (if contains (lit "Failed to scrape") (url ++ lit ": " ++ exn_str e)
     then lit "scraping_error"
     else lit "analysis_error") /\
  error_type (scrape_failed_msg url) = lit "scraping_error" /\
  error_type (analysis_failed_msg url)
  = (if contains (lit "Failed to scrape") url
     then lit "scraping_error"
     else lit "analysis_error").
Proof.
  intros Hsteps He.
  split; [|split; [|split]].
  - unfold loop_body, try_except. rewrite Hsteps, He. reflexivity.
  - unfold error_type.
    change (lit "Error processing " ++ url ++ lit ": " ++ exn_str e)
      with (processing_error_msg url e).
    now rewrite processing_reason_marker.
  - reflexivity.
  - unfold error_type. now rewrite analysis_reason_marker.
Qed.

Lemma raised_failure_reason_and_type_witness :
  loop_body Sample.env_b_broken Sample.mode_bio 2 Sample.url_b (init_state tt)
  = (Ret tt,
     mkB tt [EGoto Sample.url_b] []
       ([] ++ [mkFailure Sample.url_b
                 (lit "Error processing " ++ Sample.url_b ++ lit ": "
                  ++ exn_str Sample.boom) 2])) /\
  error_type (lit "Error processing " ++ Sample.url_b ++ lit ": "
              ++ exn_str Sample.boom)
  = (if contains (lit "Failed to scrape")
          (Sample.url_b ++ lit ": " ++ exn_str Sample.boom)
     then lit "scraping_error"
     else lit "analysis_error") /\
  error_type (scrape_failed_msg Sample.url_b) = lit "scraping_error" /\
  error_type (analysis_failed_msg Sample.url_b)
  = (if contains (lit "Failed to scrape") Sample.url_b
     then lit "scraping_error"
     else lit "analysis_error").
Proof.
  apply (raised_failure_reason_and_type Sample.env_b_broken Sample.mode_bio 2
           Sample.url_b (init_state tt) (mkB tt [EGoto Sample.url_b] [] [])
           Sample.boom).
  - vm_compute; reflexivity.
  - reflexivity.
Defined.

(* ================================================================== *)
(** * More about the input parser *)
(* ================================================================== *)

Lemma collect_urls_returns col : forall rows acc urls,
  collect_urls col rows acc = Ret urls ->
  exists cells,
    map (cell_of col) rows = map Some cells /\
    urls = acc ++ filter is_profile_url (map strip cells).
Proof.
  induction rows as [|row rows IH]; intros acc urls H; simpl in H.
  - exists []. inversion H. now rewrite app_nil_r.
  - fold (cell_of col row) in H.
    destruct (cell_of col row) as [cell|] eqn:Hcell; [|discriminate].
    fold (is_profile_url (strip cell)) in H.
    destruct (is_profile_url (strip cell)) eqn:Hvalid;
      apply IH in H as (cells & Hcells & Hurls);
      exists (cell :: cells); simpl; rewrite Hcell, Hcells, Hvalid;
      (split; [reflexivity|]); rewrite Hurls; now rewrite <- ?app_assoc.
Qed.

Lemma parse_urls_returns
    (repr_list : list str -> str) (records : csv_records) (col : str)
    (urls : list str) :
  parse_urls repr_list records col = Ret urls ->
  exists header rows cells,
    records = header :: rows /\
    existsb (str_eqb col) header = true /\
    map (cell_of col) (dict_rows records) = map Some cells /\
    urls = filter is_profile_url (map strip cells) /\
    urls <> [].
Proof.
  intros H. pose proof (parse_urls_nonempty _ _ _ _ H) as Hne.
  unfold parse_urls in H.
  destruct records as [|header rows]; [discriminate|]. simpl fieldnames in H.
  cbv iota beta in H.
  destruct (existsb (str_eqb col) header) eqn:Hcol; [|discriminate].
  simpl negb in H. cbv iota in H.
  destruct (collect_urls col (dict_rows (header :: rows)) []) as [found|e] eqn:Hc;
    [|discriminate].
  apply collect_urls_returns in Hc as (cells & Hcells & Hfound).
  destruct found as [|u found]; [discriminate|].
  inversion H; subst urls.
  exists header, rows, cells. repeat split; auto.
Qed.

(** X1: when the parser returns, the column is in the header, every data
    row has a string in that column, and the identifiers returned are
    the stripped cells that are non-empty and contain "linkedin.com/in/",
    in the order of the rows; a URL that occurs twice is returned twice,
    and there is at least one identifier. *)
Theorem parsed_identifiers_are_the_valid_cells
    (repr_list : list str -> str) (records : csv_records) (col : str)
    (urls : list str) :
  parse_urls repr_list records col = Ret urls ->
  exists header rows cells,
    records = header :: rows /\
    existsb (str_eqb col) header = true /\
    map (cell_of col) (dict_rows records) = map Some cells /\
    urls = filter is_profile_url (map strip cells) /\
    urls <> [].
Proof. apply parse_urls_returns. Qed.

Lemma parsed_identifiers_are_the_valid_cells_witness :
  exists header rows cells,
    Sample.mixed_rows = header :: rows /\
    existsb (str_eqb Sample.column) header = true /\
    map (cell_of Sample.column) (dict_rows Sample.mixed_rows) = map Some cells /\
    [Sample.url_a] = filter is_profile_url (map strip cells) /\
    [Sample.url_a] <> [].
Proof.
  apply (parsed_identifiers_are_the_valid_cells Sample.repr_list
           Sample.mixed_rows Sample.column [Sample.url_a]).
  vm_compute. reflexivity.
Defined.

Lemma lstrip_head s c t : lstrip s = c :: t -> isspace c = false.
Proof.
  induction s as [|x s IH]; simpl; [discriminate|].
  destruct (isspace x) eqn:E; auto.
  intros H; inversion H; subst; auto.
Qed.

Lemma lstrip_fixed c t : isspace c = false -> lstrip (c :: t) = c :: t.
Proof. intros H. simpl. now rewrite H. Qed.

Lemma lstrip_idempotent s : lstrip (lstrip s) = lstrip s.
Proof.
  destruct (lstrip s) as [|c t] eqn:E; [reflexivity|].
  apply lstrip_fixed. eapply lstrip_head; eauto.
Qed.

Lemma lstrip_snoc l x : isspace x = false -> lstrip (l ++ [x]) = lstrip l ++ [x].
Proof.
  intros Hx. induction l as [|a l IH]; simpl.
  - now rewrite Hx.
  - destruct (isspace a); auto.
Qed.

Lemma rstrip_cons c t : isspace c = false -> rstrip (c :: t) = c :: rstrip t.
Proof.
  intros Hc. unfold rstrip. simpl rev.
  rewrite lstrip_snoc by assumption.
  now rewrite rev_app_distr.
Qed.

Lemma rstrip_idempotent s : rstrip (rstrip s) = rstrip s.
Proof. unfold rstrip. now rewrite rev_involutive, lstrip_idempotent. Qed.

Lemma rstrip_last s : rstrip s <> [] -> isspace (last (rstrip s) 0%N) = false.
Proof.
  unfold rstrip. intros Hne.
  destruct (lstrip (rev s)) as [|c t] eqn:E; [now elim Hne|].
  simpl rev. rewrite last_last. eapply lstrip_head; eauto.
Qed.

(** [strip] leaves a stripped string as it is. *)
Lemma strip_idempotent s : strip (strip s) = strip s.
Proof.
  unfold strip.
  destruct (lstrip s) as [|c t] eqn:E; [reflexivity|].
  pose proof (lstrip_head _ _ _ E) as Hc.
  rewrite rstrip_cons by assumption.
  rewrite lstrip_fixed by assumption.
  rewrite rstrip_cons by assumption.
  now rewrite rstrip_idempotent.
Qed.

Lemma strip_ends s :
  strip s <> [] ->
  (forall c t, strip s = c :: t -> isspace c = false) /\
  isspace (last (strip s) 0%N) = false.
Proof.
  unfold strip. intros Hne. split.
  - intros c t H.
    destruct (lstrip s) as [|x r] eqn:E; [discriminate|].
    pose proof (lstrip_head _ _ _ E) as Hx.
    rewrite rstrip_cons in H by assumption. inversion H; subst; auto.
  - now apply rstrip_last.
Qed.

(** X2: every identifier the parser hands on is normalised: it is not
    empty, it contains "linkedin.com/in/", it neither begins nor ends
    with a white-space character, and stripping it again changes
    nothing. *)
Theorem parsed_identifiers_are_normalised
    (repr_list : list str -> str) (records : csv_records) (col : str)
    (urls : list str) :
  parse_urls repr_list records col = Ret urls ->
  Forall (fun url =>
            url <> [] /\
            contains (lit "linkedin.com/in/") url = true /\
            (forall c t, url = c :: t -> isspace c = false) /\
            isspace (last url 0%N) = false /\
            strip url = url) urls.
Proof.
  intros H.
  apply parse_urls_returns in H as (header & rows & cells & _ & _ & _ & -> & _).
  apply Forall_forall. intros url Hin.
  apply filter_In in Hin as [Hin Hvalid].
  apply in_map_iff in Hin as (cell & <- & _).
  unfold is_profile_url in Hvalid. apply andb_true_iff in Hvalid as [Hne Hm].
  assert (Hne' : strip cell <> []) by (destruct (strip cell); discriminate).
  destruct (strip_ends cell Hne') as [Hhead Hlast].
  repeat split; auto. apply strip_idempotent.
Qed.

Lemma parsed_identifiers_are_normalised_witness :
  Forall (fun url =>
            url <> [] /\
            contains (lit "linkedin.com/in/") url = true /\
            (forall c t, url = c :: t -> isspace c = false) /\
            isspace (last url 0%N) = false /\
            strip url = url) [Sample.url_a].
Proof.
  apply (parsed_identifiers_are_normalised Sample.repr_list
           [[lit "profile_url"]; [lit "  https://linkedin.com/in/a "]]
           Sample.column [Sample.url_a]).
  vm_compute. reflexivity.
Defined.

(* ================================================================== *)
(** * More about the batch run *)
(* ================================================================== *)

Lemma run_batch_parse_raised {W : Type} (env : Collab W) repr_list
    records col mode (w : W) e :
  parse_urls repr_list records col = Raise e ->
  run_batch env repr_list records col mode w = (Raise e, init_state w).
Proof.
  intros H. unfold run_batch, process_csv_batch, try_except, bind, lift_outcome.
  rewrite H. now destruct (exn_is_Exception e).
Qed.

Lemma run_batch_constructor_raised {W : Type} (env : Collab W) repr_list
    records col mode (w w1 : W) urls e :
  parse_urls repr_list records col = Ret urls ->
  new_scraper env w = (Raise e, w1) ->
  run_batch env repr_list records col mode w = (Raise e, mkB w1 [ENew] [] []).
Proof.
  intros Hp Hn.
  unfold run_batch, process_csv_batch, try_except, bind, lift_outcome, call,
    init_state; simpl.
  rewrite Hp, Hn; simpl. now destruct (exn_is_Exception e).
Qed.

(** X3: an input that the parser rejects (missing column, no valid URL,
    no line at all, a row that stops before the column) makes the
    function raise before it touches the browser: no collaborator is
    called and nothing is recorded. *)
Theorem rejected_input_opens_no_session
    {W : Type} (env : Collab W) (repr_list : list str -> str)
    (records : csv_records) (col mode : str) (w : W) (e : pyexn) :
  parse_urls repr_list records col = Raise e ->
  run_batch env repr_list records col mode w = (Raise e, mkB w [] [] []).
Proof. apply run_batch_parse_raised. Qed.

Lemma rejected_input_opens_no_session_witness :
  run_batch Sample.env_ok Sample.repr_list [[lit "name"]; [lit "A"]]
    Sample.column Sample.mode_bio tt
  = (Raise (ValueError (lit "Column 'profile_url' not found in CSV. Available columns: ['name']")),
     mkB tt [] [] []).
Proof.
  apply (rejected_input_opens_no_session Sample.env_ok Sample.repr_list
           [[lit "name"]; [lit "A"]] Sample.column Sample.mode_bio tt).
  vm_compute. reflexivity.
Defined.

(** X4: the scraper is constructed outside the [try ... finally]: when
    its constructor raises, the exception leaves the function and
    [close] is not called. *)
Theorem constructor_failure_skips_close
    {W : Type} (env : Collab W) (repr_list : list str -> str)
    (records : csv_records) (col mode : str) (w w1 : W) (urls : list str)
    (e : pyexn) :
  parse_urls repr_list records col = Ret urls ->
  new_scraper env w = (Raise e, w1) ->
  run_batch env repr_list records col mode w = (Raise e, mkB w1 [ENew] [] []).
Proof. apply run_batch_constructor_raised. Qed.

Lemma constructor_failure_skips_close_witness :
  run_batch MoreSamples.env_no_browser Sample.repr_list Sample.three_rows
    Sample.column Sample.mode_bio tt
  = (Raise Sample.boom, mkB tt [ENew] [] []).
Proof.
  apply (constructor_failure_skips_close MoreSamples.env_no_browser
           Sample.repr_list Sample.three_rows Sample.column Sample.mode_bio
           tt tt [Sample.url_a; Sample.url_b; Sample.url_c]).
  - vm_compute; reflexivity.
  - reflexivity.
Defined.

(** X5: when [login_to_linkedin] raises, no item is processed, [close]
    is called, and the function raises: the exception of the login, or
    the exception of [close] if [close] raises too. *)
Theorem login_exception_closes_and_propagates
    {W : Type} (env : Collab W) (repr_list : list str -> str)
    (records : csv_records) (col mode : str) (w w1 w2 : W) (urls : list str)
    (e : pyexn) :
  parse_urls repr_list records col = Ret urls ->
  new_scraper env w = (Ret tt, w1) ->
  login_to_linkedin env w1 = (Raise e, w2) ->
  run_batch env repr_list records col mode w
  = match close env w2 with
    | (Ret _, w3) => (Raise e, mkB w3 [ENew; ELogin; EClose] [] [])
    | (Raise e', w3) => (Raise e', mkB w3 [ENew; ELogin; EClose] [] [])
    end.
Proof.
  intros Hp Hn Hl.
  rewrite (run_batch_acquired env repr_list mode _ _ _ _ _ Hp Hn).
  rewrite (session_block_login_raised env mode urls (mkB w1 [ENew] [] []) e w2 Hl).
  destruct (close env w2) as [[[]|e'] w3]; reflexivity.
Qed.

Lemma login_exception_closes_and_propagates_witness :
  run_batch MoreSamples.env_login_raises Sample.repr_list Sample.three_rows
    Sample.column Sample.mode_bio tt
  = match close MoreSamples.env_login_raises tt with
    | (Ret _, w3) => (Raise Sample.boom, mkB w3 [ENew; ELogin; EClose] [] [])
    | (Raise e', w3) => (Raise e', mkB w3 [ENew; ELogin; EClose] [] [])
    end.
Proof.
  apply (login_exception_closes_and_propagates MoreSamples.env_login_raises
           Sample.repr_list Sample.three_rows Sample.column Sample.mode_bio
           tt tt tt [Sample.url_a; Sample.url_b; Sample.url_c]).
  - vm_compute; reflexivity.
  - reflexivity.
  - reflexivity.
Defined.

(** What a run that got past the login amounts to. *)
Lemma run_batch_logged_in {W : Type} (env : Collab W) repr_list
    records col mode (w w1 w2 : W) urls :
  parse_urls repr_list records col = Ret urls ->
  new_scraper env w = (Ret tt, w1) ->
  login_to_linkedin env w1 = (Ret true, w2) ->
  run_batch env repr_list records col mode w
  = let (o, s') := batch_loop env mode 1 urls (mkB w2 [ENew; ELogin] [] []) in
    match close env (world s') with
    | (Ret _, w3) =>
        (match o with
         | Ret _ => Ret (results s', errors s')
         | Raise e => Raise e
         end,
         mkB w3 (trace s' ++ [EClose]) (results s') (errors s'))
    | (Raise e, w3) =>
        (Raise e, mkB w3 (trace s' ++ [EClose]) (results s') (errors s'))
    end.
Proof.
  intros Hp Hn Hl.
  rewrite (run_batch_acquired env repr_list mode _ _ _ _ _ Hp Hn).
  rewrite (session_block_logged_in env mode urls (mkB w1 [ENew] [] []) w2 Hl).
  simpl.
  destruct (batch_loop env mode 1 urls _) as [[[]|e] s'];
    destruct (close env (world s')) as [[[]|e'] w3]; reflexivity.
Qed.

(** X6: the outcomes are returned only if [close] returns: when [close]
    raises, the function raises that exception, also after a loop that
    went through every identifier, and the caller receives neither the
    successes nor the failures. *)
Theorem close_failure_loses_the_outcomes
    {W : Type} (env : Collab W) (repr_list : list str -> str)
    (records : csv_records) (col mode : str) (w w1 w2 : W) (urls : list str)
    (e : pyexn) :
  parse_urls repr_list records col = Ret urls ->
  new_scraper env w = (Ret tt, w1) ->
  login_to_linkedin env w1 = (Ret true, w2) ->
  (forall x, exists x', close env x = (Raise e, x')) ->
  exists st,
    run_batch env repr_list records col mode w = (Raise e, st) /\
    last (trace st) ENew = EClose.
Proof.
  intros Hp Hn Hl Hc.
  rewrite (run_batch_logged_in env repr_list _ _ _ _ _ _ _ Hp Hn Hl).
  destruct (batch_loop env mode 1 urls _) as [o s'].
  destruct (Hc (world s')) as [w3 Hw3]. rewrite Hw3.
  eexists. split; [reflexivity|]. simpl. apply last_last.
Qed.

Lemma close_failure_loses_the_outcomes_witness :
  exists st,
    run_batch MoreSamples.env_close_raises Sample.repr_list Sample.three_rows
      Sample.column Sample.mode_bio tt = (Raise MoreSamples.close_boom, st) /\
    last (trace st) ENew = EClose.
Proof.
  apply (close_failure_loses_the_outcomes MoreSamples.env_close_raises
           Sample.repr_list Sample.three_rows Sample.column Sample.mode_bio
           tt tt tt [Sample.url_a; Sample.url_b; Sample.url_c]).
  - vm_compute; reflexivity.
  - reflexivity.
  - reflexivity.
  - intros x. exists x. reflexivity.
Defined.

(** X7: after a successful login the function can raise only what
    [close] raised or an exception that is not an instance of
    [Exception] (an interrupt) raised inside an item; no failure of the
    scraper or of the summarizer that is an [Exception] reaches the
    caller. *)
Theorem only_interrupts_and_close_escape
    {W : Type} (env : Collab W) (repr_list : list str -> str)
    (records : csv_records) (col mode : str) (w w1 w2 : W) (urls : list str)
    (e : pyexn) (st : bstate W) :
  parse_urls repr_list records col = Ret urls ->
  new_scraper env w = (Ret tt, w1) ->
  login_to_linkedin env w1 = (Ret true, w2) ->
  run_batch env repr_list records col mode w = (Raise e, st) ->
  exn_is_Exception e = false \/ exists x x', close env x = (Raise e, x').
Proof.
  intros Hp Hn Hl Hrun.
  rewrite (run_batch_logged_in env repr_list _ _ _ _ _ _ _ Hp Hn Hl) in Hrun.
  destruct (batch_loop_trace env mode urls 1 (mkB w2 [ENew; ELogin] [] []))
    as (ns & rs & H).
  destruct (batch_loop env mode 1 urls _) as [o s'].
  destruct H as (_ & _ & _ & _ & Ho).
  destruct (close env (world s')) as [[[]|e'] w3] eqn:Hc.
  - destruct o as [[]|e0]; inversion Hrun; subst. left. tauto.
  - inversion Hrun; subst. right. eauto.
Qed.

Lemma only_interrupts_and_close_escape_witness :
  exn_is_Exception Sample.interrupt = false \/
  exists x x', close Sample.env_interrupted x = (Raise Sample.interrupt, x').
Proof.
  apply (only_interrupts_and_close_escape Sample.env_interrupted
           Sample.repr_list Sample.three_rows Sample.column Sample.mode_bio
           tt tt tt [Sample.url_a; Sample.url_b; Sample.url_c] Sample.interrupt
           (mkB tt ([ENew; ELogin] ++ item_events Sample.url_a Sample.mode_bio
                    ++ [EGoto Sample.url_b; EClose])
              [mkSuccess Sample.url_a (Sample.profile_of Sample.url_a)
                 (Sample.analysis_ok Sample.mode_bio) 1
                 (lit "2025-01-01T00:00:00")] [])).
  - vm_compute; reflexivity.
  - reflexivity.
  - reflexivity.
  - vm_compute; reflexivity.
Defined.

Lemma Interleave_right_all {A} (l : list A) : Interleave [] l l.
Proof. induction l; constructor; auto. Qed.

(** What one item adds to the two accumulators. *)
Lemma item_case_appends {W : Type} (env : Collab W) mode i url
    (s : bstate W) o s1 :
  item_case env mode i url s o s1 ->
  exists rs1 es1 ro eo,
    results s1 = results s ++ rs1 /\
    errors s1 = errors s ++ es1 /\
    Interleave (map success_key rs1) ro [(i, url)] /\
    Interleave (map failure_key es1) eo [(i, url)] /\
    match o with
    | Ret _ => rs1 <> [] \/ es1 <> []
    | Raise _ => True
    end.
Proof.
  assert (Hsplit : forall (A B C D E : Prop), A -> B -> C -> D -> E ->
                     A /\ B /\ C /\ D /\ E) by tauto.
  destruct 1; unfold after_item; simpl.
  - exists [], [mkFailure url (processing_error_msg url e) i], [(i, url)], [].
    simpl. rewrite app_nil_r.
    apply Hsplit; [auto | auto | repeat constructor | repeat constructor | right; discriminate].
  - exists [], [], [(i, url)], [(i, url)]; simpl. rewrite !app_nil_r.
    apply Hsplit; [auto | auto | repeat constructor | repeat constructor | exact I].
  - exists [], [mkFailure url (scrape_failed_msg url) i], [(i, url)], [].
    simpl. rewrite app_nil_r.
    apply Hsplit; [auto | auto | repeat constructor | repeat constructor | right; discriminate].
  - exists [], [mkFailure url (analysis_failed_msg url) i], [(i, url)], [].
    simpl. rewrite app_nil_r.
    apply Hsplit; [auto | auto | repeat constructor | repeat constructor | right; discriminate].
  - exists [mkSuccess url p a i t], [], [], [(i, url)]; simpl.
    rewrite !app_nil_r.
    apply Hsplit; [auto | auto | repeat constructor | repeat constructor | left; discriminate].
  - exists [mkSuccess url p a i t],
      [mkFailure url (processing_error_msg url e) i], [], []; simpl.
    apply Hsplit; [auto | auto | repeat constructor | repeat constructor | left; discriminate].
  - exists [mkSuccess url p a i t], [], [], [(i, url)]; simpl.
    rewrite !app_nil_r.
    apply Hsplit; [auto | auto | repeat constructor | repeat constructor | exact I].
Qed.

(** What the loop adds to the two accumulators, whatever the
    collaborators do. *)
Lemma batch_loop_appends {W : Type} (env : Collab W) mode urls :
  forall i (s : bstate W),
  exists rs es ro eo,
    let (o, s') := batch_loop env mode i urls s in
    results s' = results s ++ rs /\
    errors s' = errors s ++ es /\
    Interleave (map success_key rs) ro (enumerate i urls) /\
    Interleave (map failure_key es) eo (enumerate i urls) /\
    match o with
    | Ret _ => urls <> [] -> rs <> [] \/ es <> []
    | Raise _ => True
    end.
Proof.
  induction urls as [|url rest IH]; intros i s.
  - exists [], [], [], []; simpl. rewrite !app_nil_r.
    repeat split; try constructor. intros Hne; now elim Hne.
  - rewrite batch_loop_cons.
    pose proof (loop_body_cases env mode i url s) as Hc.
    destruct (loop_body env mode i url s) as [o1 s1]; simpl in Hc.
    apply item_case_appends in Hc
      as (rs1 & es1 & ro1 & eo1 & Hr1 & He1 & Hir & Hie & Ho1).
    destruct o1 as [[]|e].
    + destruct (IH (i + 1) s1) as (rs & es & ro & eo & H).
      destruct (batch_loop env mode (i + 1) rest s1) as [o s'].
      destruct H as (Hr & He & Hir' & Hie' & _).
      exists (rs1 ++ rs), (es1 ++ es), (ro1 ++ ro), (eo1 ++ eo).
      rewrite Hr, He, Hr1, He1, <- !app_assoc, !map_app.
      repeat split.
      * apply (Interleave_app _ _ [(i, url)]); auto.
      * apply (Interleave_app _ _ [(i, url)]); auto.
      * destruct o; auto. intros _.
        destruct Ho1 as [Hne|Hne]; [left|right]; intros Habs;
          apply app_eq_nil in Habs as [Habs _]; contradiction.
    + exists rs1, es1, (ro1 ++ enumerate (i + 1) rest),
        (eo1 ++ enumerate (i + 1) rest).
      repeat split; auto.
      * rewrite <- (app_nil_r (map success_key rs1)).
        apply (Interleave_app _ _ [(i, url)]); auto.
        apply Interleave_right_all.
      * rewrite <- (app_nil_r (map failure_key es1)).
        apply (Interleave_app _ _ [(i, url)]); auto.
        apply Interleave_right_all.
Qed.

(** X8: whatever the collaborators do (exceptions of any kind, pauses
    that raise, an interrupt in the middle), the loop only appends to
    [results] and [errors], and what it appends to each is, by index and
    identifier, an order-preserving selection from [enumerate(urls, i)]:
    no identifier ever gets two successes or two failures, none gets an
    index that is not its position, and earlier entries are never
    changed or dropped. *)
Theorem loop_records_each_identifier_at_most_once
    {W : Type} (env : Collab W) (mode : str) (urls : list str) (i : Z)
    (s : bstate W) :
  exists rs es ro eo,
    results (snd (batch_loop env mode i urls s)) = results s ++ rs /\
    errors (snd (batch_loop env mode i urls s)) = errors s ++ es /\
    Interleave (map success_key rs) ro (enumerate i urls) /\
    Interleave (map failure_key es) eo (enumerate i urls).
Proof.
  destruct (batch_loop_appends env mode urls i s) as (rs & es & ro & eo & H).
  destruct (batch_loop env mode i urls s) as [o s'].
  exists rs, es, ro, eo. simpl. tauto.
Qed.

(** X9: the function never returns two empty lists, whatever the
    collaborators do: a run that returns has recorded at least one
    success or one failure.  (So the test [if not results and not
    errors] of the route never succeeds.) *)
Theorem batch_never_returns_nothing
    {W : Type} (env : Collab W) (repr_list : list str -> str)
    (records : csv_records) (col mode : str) (w : W)
    (rs : list success) (es : list failure) (st : bstate W) :
  run_batch env repr_list records col mode w = (Ret (rs, es), st) ->
  rs <> [] \/ es <> [].
Proof.
  intros Hrun.
  destruct (parse_urls repr_list records col) as [urls|e] eqn:Hp;
    [|rewrite (run_batch_parse_raised env _ _ _ _ _ _ Hp) in Hrun; discriminate].
  destruct (new_scraper env w) as [[[]|e] w1] eqn:Hn;
    [|rewrite (run_batch_constructor_raised env _ _ _ _ _ _ _ _ Hp Hn) in Hrun;
      discriminate].
  destruct (login_to_linkedin env w1) as [[[|]|e] w2] eqn:Hl.
  - rewrite (run_batch_logged_in env repr_list _ _ _ _ _ _ _ Hp Hn Hl) in Hrun.
    destruct (batch_loop_appends env mode urls 1 (mkB w2 [ENew; ELogin] [] []))
      as (rs' & es' & ro & eo & H).
    destruct (batch_loop env mode 1 urls _) as [o s'].
    destruct H as (Hr & He & _ & _ & Ho). simpl in Hr, He.
    destruct (close env (world s')) as [[[]|e'] w3]; [|discriminate].
    destruct o as [[]|e0]; [|discriminate].
    inversion Hrun; subst.
    apply Ho. eapply parse_urls_nonempty; eauto.
  - rewrite (run_batch_acquired env repr_list mode _ _ _ _ _ Hp Hn) in Hrun.
    rewrite (session_block_refused env mode urls (mkB w1 [ENew] [] []) w2 Hl)
      in Hrun.
    destruct (close env w2) as [[[]|e'] w3]; [|discriminate].
    inversion Hrun. right. discriminate.
  - rewrite (run_batch_acquired env repr_list mode _ _ _ _ _ Hp Hn) in Hrun.
    rewrite (session_block_login_raised env mode urls (mkB w1 [ENew] [] []) e w2 Hl)
      in Hrun.
    destruct (close env w2) as [[[]|e'] w3]; discriminate.
Qed.

Lemma batch_never_returns_nothing_witness :
  [] <> ([] : list success) \/
  [mkFailure (lit "login_failed") (lit "Failed to login to LinkedIn") 0] <> [].
Proof.
  apply (batch_never_returns_nothing Sample.env_login_refused Sample.repr_list
           Sample.three_rows Sample.column Sample.mode_bio tt
           [] [mkFailure (lit "login_failed") (lit "Failed to login to LinkedIn") 0]
           (mkB tt [ENew; ELogin; EClose] [] [])).
  vm_compute. reflexivity.
Defined.

Lemma loop_trace_gotos mode urls : forall ns,
  Forall item_reach ns ->
  (List.length ns <= List.length urls)%nat ->
  filter is_goto (loop_trace mode urls ns)
  = map EGoto (firstn (List.length ns) urls).
Proof.
  induction urls as [|u urls IH]; intros [|n ns] Hns Hlen; simpl in *;
    try reflexivity; try lia.
  inversion Hns as [|? ? Hn Hrest]; subst.
  rewrite filter_app, IH by (auto; lia).
  unfold item_reach in Hn.
  destruct Hn as [->|[->|[->|[->| ->]]]]; reflexivity.
Qed.

(** X10: whatever the collaborators do, the browser is sent only to
    identifiers of the batch, in their input order and each row once:
    the navigations of a run are the first [k] identifiers for some [k],
    and all of them when the run returns after a successful login. *)
Theorem navigations_follow_the_input
    {W : Type} (env : Collab W) (repr_list : list str -> str)
    (records : csv_records) (col mode : str) (w w1 : W) (urls : list str) :
  parse_urls repr_list records col = Ret urls ->
  new_scraper env w = (Ret tt, w1) ->
  exists k,
    filter is_goto (trace (snd (run_batch env repr_list records col mode w)))
    = map EGoto (firstn k urls) /\
    (forall w2 v,
        login_to_linkedin env w1 = (Ret true, w2) ->
        fst (run_batch env repr_list records col mode w) = Ret v ->
        k = List.length urls).
Proof.
  intros Hp Hn.
  destruct (login_to_linkedin env w1) as [[[|]|e] w2] eqn:Hl.
  - rewrite (run_batch_logged_in env repr_list _ _ _ _ _ _ _ Hp Hn Hl).
    destruct (batch_loop_trace env mode urls 1 (mkB w2 [ENew; ELogin] [] []))
      as (ns & rs & H).
    destruct (batch_loop env mode 1 urls _) as [o s'].
    destruct H as (Htr & Hns & _ & _ & Ho). simpl in Htr.
    assert (Hlen : (List.length ns <= List.length urls)%nat).
    { destruct o; [lia | tauto]. }
    exists (List.length ns). split.
    + assert (Hg : filter is_goto (trace s' ++ [EClose])
                   = map EGoto (firstn (List.length ns) urls)).
      { rewrite Htr, filter_app. simpl. rewrite app_nil_r.
        apply loop_trace_gotos; auto. }
      destruct (close env (world s')) as [[[]|e'] w3]; simpl; exact Hg.
    + intros w2' v _ Hret.
      destruct (close env (world s')) as [[[]|e'] w3]; simpl in Hret;
        [|discriminate].
      destruct o; [assumption|discriminate].
  - rewrite (run_batch_acquired env repr_list mode _ _ _ _ _ Hp Hn).
    rewrite (session_block_refused env mode urls (mkB w1 [ENew] [] []) w2 Hl).
    exists 0%nat. split.
    + now destruct (close env w2) as [[[]|e'] w3].
    + intros ? ? H; discriminate.
  - rewrite (run_batch_acquired env repr_list mode _ _ _ _ _ Hp Hn).
    rewrite (session_block_login_raised env mode urls (mkB w1 [ENew] [] []) e w2 Hl).
    exists 0%nat. split.
    + now destruct (close env w2) as [[[]|e'] w3].
    + intros ? ? H; discriminate.
Qed.

Lemma navigations_follow_the_input_witness :
  exists k,
    filter is_goto
      (trace (snd (run_batch Sample.env_interrupted Sample.repr_list
                     Sample.three_rows Sample.column Sample.mode_bio tt)))
    = map EGoto (firstn k [Sample.url_a; Sample.url_b; Sample.url_c]) /\
    (forall w2 v,
        login_to_linkedin Sample.env_interrupted tt = (Ret true, w2) ->
        fst (run_batch Sample.env_interrupted Sample.repr_list
               Sample.three_rows Sample.column Sample.mode_bio tt) = Ret v ->
        k = 3%nat).
Proof.
  apply (navigations_follow_the_input Sample.env_interrupted Sample.repr_list
           Sample.three_rows Sample.column Sample.mode_bio tt tt
           [Sample.url_a; Sample.url_b; Sample.url_c]).
  - vm_compute; reflexivity.
  - reflexivity.
Defined.

(* ================================================================== *)
(** * More about the aggregator *)
(* ================================================================== *)

(** X11: the results table is the first file of every call that gets
    to create it, also when there is no success and also when a later
    step fails; it has the nineteen columns of the schema and one row
    per success, in order, each row carrying the identifier, the index
    and the timestamp of its success and the analysis mode of the call.
    When [open] raises for its name, the call raises that exception and
    leaves no file. *)
Theorem results_table_has_a_row_per_success
    {W : Type} (env : Collab W)
    (json_dumps_experience : list experience_entry -> str)
    (json_dumps_strings : list str -> str)
    (rs : list success) (es : list failure) (mode : str) (w : W) :
  let (ts, w1) := now_strftime env (lit "%Y%m%d_%H%M%S") w in
  let run :=
    run_save env json_dumps_experience json_dumps_strings rs es mode w in
  match open_file env (results_name mode ts) w1 with
  | (Raise e, w2) => run = (Raise e, mkF w2 [])
  | (Ret _, _) =>
      exists rows others,
        files (snd run)
        = (results_name mode ts, ResultsCsv results_fieldnames rows) :: others /\
        List.length results_fieldnames = 19%nat /\
        map (fun r => (r_profile_url r, r_processing_index r, r_timestamp r,
                       r_analysis_mode r)) rows
        = map (fun s => (s_url s, s_index s, s_timestamp s, mode)) rs
  end.
Proof.
  destruct (run_save_cases env json_dumps_experience json_dumps_strings
              rs es mode w) as (ts & w1 & Hts & Hcases).
  rewrite Hts. cbv zeta in Hcases. cbv zeta.
  assert (Hrows :
            List.length results_fieldnames = 19%nat /\
            map (fun r => (r_profile_url r, r_processing_index r, r_timestamp r,
                           r_analysis_mode r))
              (map (results_row_of json_dumps_experience json_dumps_strings mode) rs)
            = map (fun s => (s_url s, s_index s, s_timestamp s, mode)) rs).
  { split; [reflexivity|]. rewrite map_map. reflexivity. }
  destruct Hcases
    as [(e & w2 & Ho & Hrun)
       | [(e & w2 & w3 & _ & Ho & _ & Hrun)
         | (w2 & rows' & w3 & Ho & _
            & [(e & w4 & _ & Hrun) | (w4 & generated & w5 & _ & _ & Hrun)])]];
    rewrite Ho, Hrun.
  - reflexivity.
  - eexists _, _. split; [reflexivity | exact Hrows].
  - eexists _, _. split; [reflexivity | exact Hrows].
  - destruct (success_rate rs es); eexists _, _;
      (split; [reflexivity | exact Hrows]).
Qed.

Lemma dict_get_second {V} (k1 k2 : str) (v1 v2 : V) rest :
  str_eqb k1 k2 = false ->
  dict_get ((k1, v1) :: (k2, v2) :: rest) k2 = Some v2.
Proof. intros H. simpl. now rewrite H, str_eqb_refl. Qed.

Lemma dict_get_third {V} (k1 k2 k3 : str) (v1 v2 v3 : V) rest :
  str_eqb k1 k3 = false -> str_eqb k2 k3 = false ->
  dict_get ((k1, v1) :: (k2, v2) :: (k3, v3) :: rest) k3 = Some v3.
Proof. intros H1 H2. simpl. now rewrite H1, H2, str_eqb_refl. Qed.

Lemma dict_get_first {V} (k1 : str) (v1 : V) rest :
  dict_get ((k1, v1) :: rest) k1 = Some v1.
Proof. simpl. now rewrite str_eqb_refl. Qed.

(** X12: when the aggregator returns, every name it returns is the name
    of a file it has written, of the right kind; the three names are
    different; the second name is [None] exactly when there is no
    failure, and then two files exist, otherwise three. *)
Theorem returned_names_are_written_files
    {W : Type} (env : Collab W)
    (json_dumps_experience : list experience_entry -> str)
    (json_dumps_strings : list str -> str)
    (rs : list success) (es : list failure) (mode : str) (w : W)
    (filename summary_filename : str) (error_filename : option str)
    (fs : fstate W) :
  run_save env json_dumps_experience json_dumps_strings rs es mode w
  = (Ret (filename, error_filename, summary_filename), fs) ->
  (exists rows,
      dict_get (files fs) filename = Some (ResultsCsv results_fieldnames rows)) /\
  (exists text, dict_get (files fs) summary_filename = Some (SummaryTxt text)) /\
  str_eqb filename summary_filename = false /\
  match error_filename with
  | None => es = [] /\ List.length (files fs) = 2%nat
  | Some name =>
      es <> [] /\ List.length (files fs) = 3%nat /\
      str_eqb filename name = false /\
      str_eqb name summary_filename = false /\
      exists rows,
        dict_get (files fs) name = Some (ErrorsCsv errors_fieldnames rows)
  end.
Proof.
  intros Hret.
  destruct (run_save_returned env json_dumps_experience json_dumps_strings
              rs es mode w _ fs Hret)
    as (ts & rows' & rate & generated & _ & _ & Hnames & Hfs).
  inversion Hnames; subst; clear Hnames. rewrite Hfs.
  unfold results_name, errors_name, summary_name.
  pose proof (results_name_not_errors (mode ++ lit "_" ++ ts ++ lit ".csv")
                (ts ++ lit ".csv")) as Hre.
  pose proof (results_name_not_summary (mode ++ lit "_" ++ ts ++ lit ".csv")
                (ts ++ lit ".txt")) as Hrs.
  pose proof (errors_name_not_summary (ts ++ lit ".csv") (ts ++ lit ".txt"))
    as Hes.
  destruct es as [|f es']; cbn [files app].
  - split; [eexists; apply dict_get_first|].
    split; [eexists; apply dict_get_second; exact Hrs|].
    repeat split; auto.
  - split; [eexists; apply dict_get_first|].
    split; [eexists; apply dict_get_third; [exact Hrs | exact Hes]|].
    split; [exact Hrs|].
    split; [discriminate|].
    split; [reflexivity|].
    split; [exact Hre|].
    split; [exact Hes|].
    eexists; apply dict_get_second; exact Hre.
Qed.

Lemma returned_names_are_written_files_witness :
  (exists rows,
      dict_get
        (files (snd (run_save Sample.env_ok Sample.json_none Sample.json_none
                       [] [login_failed_record] Sample.mode_bio tt)))
        (lit "batch_results_bio_20250101_000000.csv")
      = Some (ResultsCsv results_fieldnames rows)) /\
  (exists text,
      dict_get
        (files (snd (run_save Sample.env_ok Sample.json_none Sample.json_none
                       [] [login_failed_record] Sample.mode_bio tt)))
        (lit "batch_summary_20250101_000000.txt")
      = Some (SummaryTxt text)) /\
  str_eqb (lit "batch_results_bio_20250101_000000.csv")
    (lit "batch_summary_20250101_000000.txt") = false /\
  match Some (lit "batch_errors_20250101_000000.csv") with
  | None =>
      [login_failed_record] = [] /\
      List.length
        (files (snd (run_save Sample.env_ok Sample.json_none Sample.json_none
                       [] [login_failed_record] Sample.mode_bio tt))) = 2%nat
  | Some name =>
      [login_failed_record] <> [] /\
      List.length
        (files (snd (run_save Sample.env_ok Sample.json_none Sample.json_none
                       [] [login_failed_record] Sample.mode_bio tt))) = 3%nat /\
      str_eqb (lit "batch_results_bio_20250101_000000.csv") name = false /\
      str_eqb name (lit "batch_summary_20250101_000000.txt") = false /\
      exists rows,
        dict_get
          (files (snd (run_save Sample.env_ok Sample.json_none Sample.json_none
                         [] [login_failed_record] Sample.mode_bio tt)))
          name
        = Some (ErrorsCsv errors_fieldnames rows)
  end.
Proof.
  apply (returned_names_are_written_files Sample.env_ok Sample.json_none
           Sample.json_none [] [login_failed_record] Sample.mode_bio tt
           (lit "batch_results_bio_20250101_000000.csv")
           (lit "batch_summary_20250101_000000.txt")
           (Some (lit "batch_errors_20250101_000000.csv"))
           (snd (run_save Sample.env_ok Sample.json_none Sample.json_none
                   [] [login_failed_record] Sample.mode_bio tt))).
  vm_compute. reflexivity.
Defined.

Lemma experience_lines_listed l :
  List.length (experience_lines l) = List.length (filter experience_listed l).
Proof.
  unfold experience_lines.
  induction l as [|exp l IH]; [reflexivity|].
  destruct exp as [title company|]; simpl;
    [destruct (get_truthy title && get_truthy company); simpl|];
    solve [exact IH | f_equal; exact IH].
Qed.

(** X13: in a row of the results table, [experience_count] counts every
    entry of the raw experience list, while [experience_formatted] joins
    one "title at company" per entry that is a dict with a non-empty
    title and a non-empty company: the count is never smaller than the
    number of entries listed, and equal to it exactly when every entry is
    of that kind. *)
Theorem experience_count_bounds_the_listed_entries
    (json_dumps_experience : list experience_entry -> str)
    (json_dumps_strings : list str -> str) (mode : str) (r : success) :
  let raw := get_default (p_experience (s_profile_data r)) [] in
  let row := results_row_of json_dumps_experience json_dumps_strings mode r in
  r_experience_count row = Z.of_nat (List.length raw) /\
  r_experience_formatted row = join (lit "; ") (experience_lines raw) /\
  (List.length (experience_lines raw) <= List.length raw)%nat /\
  (List.length (experience_lines raw) = List.length raw
   <-> forallb experience_listed raw = true).
Proof.
  intros raw row. split; [reflexivity|]. split; [reflexivity|].
  rewrite experience_lines_listed.
  split; [apply filter_length_le|].
  clearbody raw. clear row.
  induction raw as [|exp l IH]; simpl; [tauto|].
  destruct (experience_listed exp); simpl.
  - rewrite <- IH. lia.
  - pose proof (filter_length_le experience_listed l).
    split; [lia | discriminate].
Qed.

(* ================================================================== *)
(** * The batch route *)
(* ================================================================== *)




(** What the route does once the upload is accepted. *)
Lemma batch_analyze_sends {W : Type} (env : Collab W) repr_list
    json_dumps_experience json_dumps_strings records col mode (w : W)
    message filename tr fs w' :
  batch_analyze env repr_list json_dumps_experience json_dumps_strings
    records col mode w
  = (Ret (SendFile message filename), tr, fs, w') ->
  (exists rows, dict_get fs filename = Some (ResultsCsv results_fieldnames rows)) /\
  List.length (filter is_close tr) = 1%nat /\
  last tr ENew = EClose.
Proof.
  unfold batch_analyze. intros H.
  destruct (run_batch env repr_list records col mode w)
    as [[[rs es]|e] st] eqn:Hbatch;
    [|destruct (exn_is_Exception e); discriminate].
  assert (Htrace : List.length (filter is_close (trace st)) = 1%nat /\
                   last (trace st) ENew = EClose).
  { destruct (parse_urls repr_list records col) as [urls|e] eqn:Hp;
      [|rewrite (run_batch_parse_raised env _ _ _ _ _ _ Hp) in Hbatch;
        discriminate].
    destruct (new_scraper env w) as [[[]|e] w1] eqn:Hn;
      [|rewrite (run_batch_constructor_raised env _ _ _ _ _ _ _ _ Hp Hn)
          in Hbatch; discriminate].
    destruct (run_batch_trace env repr_list mode _ _ _ _ _ Hp Hn) as [ns Htr].
    rewrite Hbatch in Htr. simpl in Htr. rewrite Htr. split.
    - simpl. now rewrite filter_app, loop_trace_no_close.
    - change (ENew :: ELogin :: loop_trace mode urls ns ++ [EClose])
        with ((ENew :: ELogin :: loop_trace mode urls ns) ++ [EClose]).
      apply last_last. }
  assert (Hsave :
            forall names fsv,
              run_save env json_dumps_experience json_dumps_strings rs es mode
                (world st) = (Ret names, fsv) ->
              exists rows,
                dict_get (files fsv) (fst (fst names))
                = Some (ResultsCsv results_fieldnames rows)).
  { intros names fsv Hret.
    destruct (run_save_returned env json_dumps_experience json_dumps_strings
                rs es mode (world st) names fsv Hret)
      as (ts & rows' & rate & generated & _ & _ & Hnames & Hfs).
    rewrite Hfs, Hnames. eexists. apply dict_get_first. }
  destruct rs as [|r rs]; [destruct es as [|f es]; [discriminate|]|];
    destruct (run_save env json_dumps_experience json_dumps_strings _ _ mode
                (world st)) as [[names|e] fsv] eqn:Hs;
    try (destruct (exn_is_Exception e); discriminate);
    inversion H; subst; (split; [eapply Hsave; reflexivity | exact Htrace]).
Qed.

Section BatchRouteFacts.

Context {W : Type}.
Variable svc : Services W.
Variable repr_list : list str -> str.
Variable json_dumps_experience : list experience_entry -> str.
Variable json_dumps_strings : list str -> str.

Lemma batch_analyze_raises_no_Exception records col mode (w : W) e tr fs w' :
  batch_analyze (collab svc) repr_list json_dumps_experience json_dumps_strings
    records col mode w = (Raise e, tr, fs, w') ->
  exn_is_Exception e = false.
Proof.
  unfold batch_analyze.
  destruct (run_batch (collab svc) repr_list records col mode w)
    as [[[rs es]|e0] st].
  - destruct rs as [|r rs]; [destruct es as [|f es]; [discriminate|]|];
      destruct (run_save _ _ _ _ _ mode (world st)) as [[names|e1] fsv];
      try discriminate;
      destruct (exn_is_Exception e1) eqn:E; try discriminate;
      intros H; inversion H; subst; assumption.
  - destruct (exn_is_Exception e0) eqn:E; [discriminate|].
    intros H; inversion H; subst; assumption.
Qed.

(** X15: when the route answers with a file, that file is the results
    table that this request has written, and the browser session that
    the request opened has been closed, exactly once and as the last
    call. *)
Theorem sent_file_is_the_written_results_table
    (file : option upload) (form : list (str * str)) (w : W)
    (message filename : str) (tr : list event)
    (fs : list (str * artifact)) (w' : W) :
  batch_analyze_route svc repr_list json_dumps_experience json_dumps_strings
    file form w = (Ret (SendFile message filename), tr, fs, w') ->
  (exists rows, dict_get fs filename = Some (ResultsCsv results_fieldnames rows)) /\
  List.length (filter is_close tr) = 1%nat /\
  last tr ENew = EClose.
Proof.
  unfold batch_analyze_route.
  destruct file as [csv_file|]; [|discriminate].
  destruct (up_filename csv_file) as [filename0|]; [|discriminate].
  destruct (str_eqb filename0 (lit "")); [discriminate|].
  destruct (negb (endswith (lit ".csv") filename0)); [discriminate|].
  destruct (negb (key_configured svc)); [discriminate|].
  apply batch_analyze_sends.
Qed.

(** X16: the route lets no instance of [Exception] through, and it
    turns an upload down before anything happens: when no file was
    sent, when the file name does not end in ".csv" (the empty name
    included), or when no API key is configured, the answer is a
    redirect with an error message, no collaborator has been called, no
    file has been written and the world is as it was. *)
Theorem batch_route_turns_uploads_down_untouched
    (file : option upload) (form : list (str * str)) (w : W) :
  let '(o, tr, fs, w') :=
    batch_analyze_route svc repr_list json_dumps_experience json_dumps_strings
      file form w in
  (forall e, o = Raise e -> exn_is_Exception e = false) /\
  ((file = None \/
    (exists csv_file name,
        file = Some csv_file /\ up_filename csv_file = Some name /\
        endswith (lit ".csv") name = false) \/
    key_configured svc = false) ->
   tr = [] /\ fs = [] /\ w' = w /\ exists message, o = Ret (Redirect "error" message)).
Proof.
  unfold batch_analyze_route.
  destruct file as [csv_file|].
  2:{ split; [discriminate|]. intros _. eauto 10. }
  destruct (up_filename csv_file) as [name|] eqn:Hname.
  2:{ split; [discriminate|]. intros _. eauto 10. }
  destruct (str_eqb name (lit "")) eqn:Hempty.
  { split; [discriminate|]. intros _. eauto 10. }
  destruct (endswith (lit ".csv") name) eqn:Hext; simpl negb; cbv iota.
  2:{ split; [discriminate|]. intros _. eauto 10. }
  destruct (key_configured svc) eqn:Hkey; simpl negb; cbv iota.
  2:{ split; [discriminate|]. intros _. eauto 10. }
  destruct (batch_analyze (collab svc) repr_list json_dumps_experience
              json_dumps_strings (up_records csv_file) _ _ w)
    as [[[o tr] fs] w'] eqn:Hrun.
  split.
  - intros e ->. eapply batch_analyze_raises_no_Exception; eauto.
  - intros [H|[(f & n & Hf & Hn & He)|H]]; try discriminate.
    inversion Hf; subst. rewrite Hname in Hn. inversion Hn; subst. congruence.
Qed.

End BatchRouteFacts.

Lemma sent_file_is_the_written_results_table_witness :
  (exists rows,
      dict_get
        [(lit "batch_results_bio_20250101_000000.csv",
          ResultsCsv results_fieldnames []);
         (lit "batch_errors_20250101_000000.csv",
          ErrorsCsv errors_fieldnames
            [mkErrorsRow (lit "login_failed") (lit "Failed to login to LinkedIn")
               0 (lit "2025-01-01T00:00:00") (lit "analysis_error")]);
         (lit "batch_summary_20250101_000000.txt",
          SummaryTxt (summary_head (lit "20250101_000000") Sample.mode_bio []
                        [login_failed_record]
                      ++ (lit "Success Rate: 0.0%" ++ nl ++ nl)
                      ++ summary_tail [] [login_failed_record]))]
        (lit "batch_results_bio_20250101_000000.csv")
      = Some (ResultsCsv results_fieldnames rows)) /\
  List.length (filter is_close [ENew; ELogin; EClose]) = 1%nat /\
  last [ENew; ELogin; EClose] ENew = EClose.
Proof.
  apply (sent_file_is_the_written_results_table
           (mkServices unit Sample.env_login_refused
              (fun url headless w => (Ret None, w))
              (fun p t w => (Ret None, w)) (Some (lit "k")))
           Sample.repr_list Sample.json_none Sample.json_none
           (Some RouteSamples.csv_upload) [] tt
           (lit "Batch processing completed! Processed 1 profiles: 0 successful, 1 failed. Results saved to: batch_results_bio_20250101_000000.csv Errors saved to: batch_errors_20250101_000000.csv Summary saved to: batch_summary_20250101_000000.txt")
           (lit "batch_results_bio_20250101_000000.csv")
           [ENew; ELogin; EClose]
           _ tt).
  vm_compute. reflexivity.
Defined.

(* ================================================================== *)
(** * The form route and the JSON API *)
(* ================================================================== *)

Section RouteFacts.

Context {W : Type}.
Variable svc : Services W.

Lemma analyze_and_render_cases p mode (s : rstate W) :
  let '(o, s') := analyze_and_render svc p mode s in
  rcalls s' = rcalls s ++ [RAnalyze p (JStr mode)] /\
  match o with
  | Ret RedirectIndex =>
      flashes s'
      = flashes s
        ++ [(lit "Failed to generate analysis. Please check your Gemini API key.",
             "error"%string)]
  | Ret (RenderResult p' a) =>
      p' = p /\ analysis_failed (Some a) = false /\ flashes s' = flashes s
  | Raise e => flashes s' = flashes s
  end.
Proof.
  unfold analyze_and_render, bind, rcall, to_index, flash, ret.
  destruct (analyze_profile (collab svc) p mode (rworld s)) as [[[a|]|e] x'] eqn:E;
    simpl; auto.
  destruct (analysis_failed (Some a)) eqn:Ha; simpl; auto.
Qed.

(** The form route with the sample box ticked and a key configured. *)
Lemma analyze_sample form (w : W) :
  form_uses_sample form = true ->
  key_configured svc = true ->
  run_analyze svc form w
  = try_except
      (analyze_and_render svc (sample_profile (form_url_of form))
         (form_mode_of form))
      (fun e => to_index (lit "An error occurred: " ++ exn_str e))
      (mkR w [] [(lit "Using sample data for demonstration", "info"%string)]).
Proof.
  intros Hs Hk. unfold run_analyze, analyze, try_except.
  fold (form_uses_sample form) (form_url_of form) (form_mode_of form).
  rewrite Hs, Hk. reflexivity.
Qed.

(** X17: with the sample box ticked (and a key configured) the form
    route never scrapes and never looks at the URL: whatever was typed,
    a blank or a foreign URL included, its only call is the analysis of
    the built-in John Doe record, whose [url] is the stripped text of
    the field, and the first message flashed says that sample data is
    used. *)
Theorem sample_mode_never_scrapes (form : list (str * str)) (w : W) :
  form_uses_sample form = true ->
  key_configured svc = true ->
  rcalls (snd (run_analyze svc form w))
  = [RAnalyze (sample_profile (form_url_of form)) (JStr (form_mode_of form))] /\
  p_name (sample_profile (form_url_of form)) = Some (lit "John Doe") /\
  p_url (sample_profile (form_url_of form)) = Some (form_url_of form) /\
  hd_error (flashes (snd (run_analyze svc form w)))
  = Some (lit "Using sample data for demonstration", "info"%string).
Proof.
  intros Hs Hk. rewrite (analyze_sample form w Hs Hk).
  unfold try_except.
  pose proof (analyze_and_render_cases (sample_profile (form_url_of form))
                (form_mode_of form)
                (mkR w [] [(lit "Using sample data for demonstration",
                            "info"%string)])) as H.
  destruct (analyze_and_render svc _ _ _) as [[[|p a]|e] s'];
    destruct H as [Hcalls Hfl]; simpl in Hcalls, Hfl.
  - simpl. rewrite Hcalls, Hfl. auto.
  - destruct Hfl as (_ & _ & Hfl). simpl. rewrite Hcalls, Hfl. auto.
  - destruct (exn_is_Exception e); simpl; rewrite Hcalls, Hfl; auto.
Qed.

(** X18: without the sample box the form route tests the URL before
    anything else: a field that is blank after stripping, or that does
    not contain "linkedin.com/in/", is answered with a redirect and one
    error message about the URL; no collaborator is called, and the
    missing API key, if it is missing, is not even noticed. *)
Theorem form_route_checks_the_url_first (form : list (str * str)) (w : W) :
  form_uses_sample form = false ->
  is_profile_url (form_url_of form) = false ->
  run_analyze svc form w
  = (Ret RedirectIndex,
     mkR w []
       [(if str_truthy (form_url_of form)
         then lit "Please provide a valid LinkedIn profile URL"
         else lit "Please provide a LinkedIn profile URL",
         "error"%string)]).
Proof.
  intros Hs Hu. unfold run_analyze, analyze, try_except.
  fold (form_uses_sample form) (form_url_of form) (form_mode_of form).
  rewrite Hs. unfold is_profile_url in Hu.
  destruct (str_truthy (form_url_of form)); simpl in *.
  - rewrite Hu. reflexivity.
  - reflexivity.
Qed.

(** X19: every way the form route can end.  It shows the result page
    only with a key configured, for a non-empty record and an analysis
    without error marker: the sample record after a single analysis
    call, or, for a URL that contains "linkedin.com/in/", the record the
    scraper returned for exactly that URL with [headless=False],
    followed by its analysis.  Otherwise it redirects with an error
    message as the last message flashed, and it lets no instance of
    [Exception] through. *)
Theorem form_route_outcomes (form : list (str * str)) (w : W) :
  match run_analyze svc form w with
  | (Ret (RenderResult p a), s') =>
      key_configured svc = true /\
      profile_nonempty p = true /\
      analysis_failed (Some a) = false /\
      if form_uses_sample form
      then p = sample_profile (form_url_of form) /\
           rcalls s' = [RAnalyze p (JStr (form_mode_of form))]
      else is_profile_url (form_url_of form) = true /\
           rcalls s' = [RScrape (form_url_of form) false;
                        RAnalyze p (JStr (form_mode_of form))]
  | (Ret RedirectIndex, s') =>
      exists before message,
        flashes s' = before ++ [(message, "error"%string)]
  | (Raise e, _) => exn_is_Exception e = false
  end.
Proof.
  unfold run_analyze, analyze, try_except, bind.
  fold (form_uses_sample form) (form_url_of form) (form_mode_of form).
  set (url := form_url_of form). set (mode := form_mode_of form).
  assert (Hrender : forall p (s0 : rstate W),
             match
               (let (o, s') := analyze_and_render svc p mode s0 in
                match o with
                | Ret a => (Ret a, s')
                | Raise e =>
                    if exn_is_Exception e
                    then to_index (lit "An error occurred: " ++ exn_str e) s'
                    else (Raise e, s')
                end)
             with
             | (Ret (RenderResult p' a), s') =>
                 p' = p /\ analysis_failed (Some a) = false /\
                 rcalls s' = rcalls s0 ++ [RAnalyze p (JStr mode)]
             | (Ret RedirectIndex, s') =>
                 exists before message,
                   flashes s' = before ++ [(message, "error"%string)]
             | (Raise e, _) => exn_is_Exception e = false
             end).
  { intros p s0.
    pose proof (analyze_and_render_cases p mode s0) as H.
    destruct (analyze_and_render svc p mode s0) as [[[|p' a]|e] s'];
      destruct H as [Hcalls Hfl].
    - eauto.
    - tauto.
    - destruct (exn_is_Exception e) eqn:He; [|assumption].
      unfold to_index, bind, flash, ret; simpl. do 2 eexists. reflexivity. }
  destruct (form_uses_sample form) eqn:Hs; simpl.
  - destruct (key_configured svc) eqn:Hk; simpl.
    + specialize (Hrender (sample_profile url)
                    (mkR w [] [(lit "Using sample data for demonstration",
                                "info"%string)])).
      simpl rworld in *. simpl rcalls in *. simpl flashes in *.
      destruct (analyze_and_render svc (sample_profile url) mode _)
        as [[[|p a]|e] s']; try exact Hrender.
      * destruct Hrender as (-> & Ha & Hc). repeat split; auto.
      * destruct (exn_is_Exception e); exact Hrender.
    + unfold to_index, bind, flash, ret; simpl; exists []; eexists; reflexivity.
  - destruct (str_truthy url) eqn:Ht; simpl;
      [|unfold to_index, bind, flash, ret; simpl; exists []; eexists; reflexivity].
    destruct (contains profile_marker url) eqn:Hm; simpl;
      [|unfold to_index, bind, flash, ret; simpl; exists []; eexists; reflexivity].
    destruct (key_configured svc) eqn:Hk; simpl;
      [|unfold to_index, bind, flash, ret; simpl; exists []; eexists; reflexivity].
    unfold rcall at 1. simpl.
    destruct (scrape_linkedin_profile svc url false w) as [[[p|]|e] x] eqn:Hsc;
      simpl.
    + destruct (profile_nonempty p) eqn:Hp.
      * specialize (Hrender p (mkR x [RScrape url false] [])).
        destruct (analyze_and_render svc p mode _) as [[[|p' a]|e] s'];
          try exact Hrender.
        -- destruct Hrender as (-> & Ha & Hc). simpl in Hc.
           unfold is_profile_url. rewrite Ht, Hm. repeat split; auto.
        -- destruct (exn_is_Exception e); exact Hrender.
      * unfold to_index, bind, flash, ret; simpl; exists []; eexists; reflexivity.
    + unfold to_index, bind, flash, ret; simpl; exists []; eexists; reflexivity.
    + destruct (exn_is_Exception e) eqn:He; [|assumption].
      unfold to_index, bind, flash, ret; simpl; exists []; eexists; reflexivity.
Qed.

End RouteFacts.

Lemma sample_mode_never_scrapes_witness :
  rcalls (snd (run_analyze RouteSamples.svc_scrape_raises
                 (RouteSamples.form_sample RouteSamples.other_url) tt))
  = [RAnalyze
       (sample_profile (form_url_of (RouteSamples.form_sample RouteSamples.other_url)))
       (JStr (form_mode_of (RouteSamples.form_sample RouteSamples.other_url)))] /\
  p_name (sample_profile
            (form_url_of (RouteSamples.form_sample RouteSamples.other_url)))
  = Some (lit "John Doe") /\
  p_url (sample_profile
           (form_url_of (RouteSamples.form_sample RouteSamples.other_url)))
  = Some (form_url_of (RouteSamples.form_sample RouteSamples.other_url)) /\
  hd_error (flashes (snd (run_analyze RouteSamples.svc_scrape_raises
                            (RouteSamples.form_sample RouteSamples.other_url) tt)))
  = Some (lit "Using sample data for demonstration", "info"%string).
Proof.
  apply (sample_mode_never_scrapes RouteSamples.svc_scrape_raises
           (RouteSamples.form_sample RouteSamples.other_url) tt).
  - reflexivity.
  - reflexivity.
Defined.

Lemma form_route_checks_the_url_first_witness :
  run_analyze RouteSamples.svc_no_key
    (RouteSamples.form_url RouteSamples.other_url) tt
  = (Ret RedirectIndex,
     mkR tt []
       [(if str_truthy (form_url_of (RouteSamples.form_url RouteSamples.other_url))
         then lit "Please provide a valid LinkedIn profile URL"
         else lit "Please provide a LinkedIn profile URL",
         "error"%string)]).
Proof.
  apply (form_route_checks_the_url_first RouteSamples.svc_no_key
           (RouteSamples.form_url RouteSamples.other_url) tt).
  - reflexivity.
  - vm_compute; reflexivity.
Defined.

Section ApiFacts.

Context {W : Type}.
Variable svc : Services W.

(** X20: every way the JSON API can end.  It lets no instance of
    [Exception] through and answers with status 200, 400 or 500.  Status
    200 carries a non-empty record and an analysis without error marker,
    obtained by scraping the stripped URL of the body with
    [headless=False] and analysing the record in the mode of the body
    ("bio" if the body has none); statuses 400 and 500 carry an error
    message. *)
Theorem api_outcomes (get_json : outcome (option (list (str * jval)))) (w : W) :
  match run_api_analyze svc get_json w with
  | (Ret response, s') =>
      match payload response with
      | ApiSuccess p a =>
          status response = 200 /\
          key_configured svc = true /\
          profile_nonempty p = true /\
          analysis_failed (Some a) = false /\
          exists d u,
            get_json = Ret (Some d) /\ body_url_of d = JStr u /\
            strip u <> [] /\
            rcalls s' = [RScrape (strip u) false; RAnalyze p (body_mode_of d)]
      | ApiError message => status response = 400 \/ status response = 500
      end
  | (Raise e, _) => exn_is_Exception e = false
  end.
Proof.
  unfold run_api_analyze, api_analyze, try_except, bind, lift_outcome.
  destruct get_json as [[d|]|e0]; cbv beta iota.
  - fold (body_url_of d) (body_mode_of d).
    destruct (body_url_of d) as [u|t] eqn:Hu; [|simpl; auto].
    destruct (str_truthy (strip u)) eqn:Ht; [|simpl; auto].
    destruct (key_configured svc) eqn:Hk; [|simpl; auto].
    cbn [negb]. cbv beta iota.
    unfold rcall at 1. cbn [rworld rcalls flashes app].
    destruct (scrape_linkedin_profile svc (strip u) false w) as [[[p|]|e] x] eqn:Hs.
    + destruct (profile_nonempty p) eqn:Hp; [|simpl; auto].
      unfold analyze_with, rcall. cbn [rworld rcalls flashes app].
      destruct (match body_mode_of d with
                | JStr m => analyze_profile (collab svc) p m
                | JOther t => analyze_profile_other svc p t
                end x) as [[[a|]|e] x'] eqn:Ha.
      * destruct (analysis_failed (Some a)) eqn:Hf; [simpl; auto|].
        cbn [ret payload status rcalls app].
        split; [reflexivity|]. split; [reflexivity|].
        split; [exact Hp|]. split; [exact Hf|].
        exists d, u. split; [reflexivity|]. split; [exact Hu|].
        split; [|reflexivity].
        intros E; rewrite E in Ht; discriminate.
      * simpl; auto.
      * destruct (exn_is_Exception e) eqn:He; simpl; auto.
    + simpl; auto.
    + destruct (exn_is_Exception e) eqn:He; simpl; auto.
  - simpl. auto.
  - destruct (exn_is_Exception e0) eqn:He; simpl; auto.
Qed.

(** X21: the JSON API does not test the URL as the form route does.
    For one and the same URL that is not blank and does not contain
    "linkedin.com/in/", with a key configured, the form route calls
    nobody, while the API starts by sending the scraper to that URL. *)
Theorem api_scrapes_what_the_form_rejects
    (url : str) (form : list (str * str)) (d : list (str * jval)) (w : W) :
  key_configured svc = true ->
  strip url <> [] ->
  contains (lit "linkedin.com/in/") (strip url) = false ->
  dict_get form (lit "profile_url") = Some url ->
  form_uses_sample form = false ->
  dict_get d (lit "profile_url") = Some (JStr url) ->
  rcalls (snd (run_analyze svc form w)) = [] /\
  fst (run_analyze svc form w) = Ret RedirectIndex /\
  hd_error (rcalls (snd (run_api_analyze svc (Ret (Some d)) w)))
  = Some (RScrape (strip url) false).
Proof.
  intros Hk Hne Hm Hform Hs Hd.
  assert (Hurl : form_url_of form = strip url).
  { unfold form_url_of. now rewrite Hform. }
  assert (Ht : str_truthy (strip url) = true).
  { destruct (strip url); [now elim Hne | reflexivity]. }
  split; [|split].
  - unfold run_analyze, analyze, try_except.
    fold (form_uses_sample form) (form_url_of form).
    rewrite Hs, Hurl, Ht. simpl.
    change profile_marker with (lit "linkedin.com/in/"). rewrite Hm. reflexivity.
  - unfold run_analyze, analyze, try_except.
    fold (form_uses_sample form) (form_url_of form).
    rewrite Hs, Hurl, Ht. simpl.
    change profile_marker with (lit "linkedin.com/in/"). rewrite Hm. reflexivity.
  - unfold run_api_analyze, api_analyze, try_except, bind, lift_outcome.
    rewrite Hd. cbn [get_default]. rewrite Ht, Hk. cbn [negb]. cbv beta iota.
    unfold rcall at 1. cbn [rworld rcalls flashes app].
    destruct (scrape_linkedin_profile svc (strip url) false w) as [[[p|]|e] x].
    + destruct (profile_nonempty p); [|reflexivity].
      unfold analyze_with, rcall. cbn [rworld rcalls flashes app].
      destruct (match get_default (dict_get d (lit "analysis_mode")) (JStr (lit "bio")) with
                | JStr m => analyze_profile (collab svc) p m
                | JOther t => analyze_profile_other svc p t
                end x) as [[[a|]|e] x'].
      * destruct (analysis_failed (Some a)); reflexivity.
      * reflexivity.
      * destruct (exn_is_Exception e); reflexivity.
    + reflexivity.
    + destruct (exn_is_Exception e); reflexivity.
Qed.

(** X22: a body the API cannot take a URL from is answered without any
    call, and not always as a client error: no ["profile_url"] key or a
    blank URL gives status 400 "Profile URL is required", but a null
    body or a URL that is not a string raises [AttributeError] inside
    the route and comes back as status 500 with the text of that
    exception. *)
Theorem api_bodies_without_a_url (w : W) :
  (forall d,
      dict_get d (lit "profile_url") = None ->
      run_api_analyze svc (Ret (Some d)) w
      = (Ret (mkApi 400 (ApiError (lit "Profile URL is required"))), mkR w [] [])) /\
  (forall d u,
      dict_get d (lit "profile_url") = Some (JStr u) ->
      strip u = [] ->
      run_api_analyze svc (Ret (Some d)) w
      = (Ret (mkApi 400 (ApiError (lit "Profile URL is required"))), mkR w [] [])) /\
  run_api_analyze svc (Ret None) w
  = (Ret (mkApi 500 (ApiError (lit "'NoneType' object has no attribute 'get'"))),
     mkR w [] []) /\
  (forall d t,
      dict_get d (lit "profile_url") = Some (JOther t) ->
      run_api_analyze svc (Ret (Some d)) w
      = (Ret (mkApi 500
                (ApiError (lit "'" ++ t ++ lit "' object has no attribute 'strip'"))),
         mkR w [] [])).
Proof.
  unfold run_api_analyze, api_analyze, try_except, bind, lift_outcome.
  repeat split.
  - intros d Hd. rewrite Hd. reflexivity.
  - intros d u Hd Hu. rewrite Hd. cbn [get_default]. rewrite Hu. reflexivity.
  - intros d t Hd. rewrite Hd. reflexivity.
Qed.

End ApiFacts.

Lemma api_scrapes_what_the_form_rejects_witness :
  rcalls (snd (run_analyze RouteSamples.svc_ok
                 (RouteSamples.form_url RouteSamples.other_url) tt)) = [] /\
  fst (run_analyze RouteSamples.svc_ok
         (RouteSamples.form_url RouteSamples.other_url) tt) = Ret RedirectIndex /\
  hd_error
    (rcalls (snd (run_api_analyze RouteSamples.svc_ok
                    (Ret (Some [(lit "profile_url", JStr RouteSamples.other_url)]))
                    tt)))
  = Some (RScrape (strip RouteSamples.other_url) false).
Proof.
  apply (api_scrapes_what_the_form_rejects RouteSamples.svc_ok
           RouteSamples.other_url (RouteSamples.form_url RouteSamples.other_url)
           [(lit "profile_url", JStr RouteSamples.other_url)] tt).
  - reflexivity.
  - vm_compute; discriminate.
  - vm_compute; reflexivity.
  - reflexivity.
  - reflexivity.
  - reflexivity.
Defined.

(* ================================================================== *)
(** * The console mode *)
(* ================================================================== *)

Section ConsoleFacts.

Context {W : Type}.
Variable con : Console W.
Variable repr_list : list str -> str.
Variable repr_experience : list experience_entry -> str.

Local Open Scope py_scope.

Lemma bind_print {A} t (k : unit -> M (cstate W) A) (w : W) i out :
  bind (print t) k (mkC w i out) = k tt (mkC w i (out ++ [CPrint t])).
Proof. reflexivity. Qed.

Lemma bind_input {A} prompt (k : str -> M (cstate W) A) (w : W) answer rest out :
  bind (input prompt) k (mkC w (Ret answer :: rest) out)
  = k answer (mkC w rest (out ++ [CInput prompt])).
Proof. reflexivity. Qed.

Lemma bind_ccall {A B} ev (f : W -> outcome A * W) (k : A -> M (cstate W) B)
    (w w' : W) i out r :
  f w = (r, w') ->
  bind (ccall ev f) k (mkC w i out)
  = match r with
    | Ret a => k a (mkC w' i (out ++ [ev]))
    | Raise e => (Raise e, mkC w' i (out ++ [ev]))
    end.
Proof. intros H. unfold bind, ccall. cbn [cworld stdin console]. now rewrite H. Qed.

Lemma bind_returned {S A B} (m : M S A) (k : A -> M S B) s a s' :
  m s = (Ret a, s') -> bind m k s = k a s'.
Proof. intros H. unfold bind. now rewrite H. Qed.

Lemma bind_raised {S A B} (m : M S A) (k : A -> M S B) s e s' :
  m s = (Raise e, s') -> bind m k s = (Raise e, s').
Proof. intros H. unfold bind. now rewrite H. Qed.

(** ** What an action adds to the events *)

Lemma emits_ret {A} p (a : A) : emits (W:=W) p (ret a).
Proof. intros s. exists []. now rewrite app_nil_r. Qed.

Lemma emits_raise {A} p e : emits (W:=W) (A:=A) p (raise e).
Proof. intros s. exists []. now rewrite app_nil_r. Qed.

Lemma emits_print p t : p (CPrint t) = true -> emits (W:=W) p (print t).
Proof. intros H s. exists [CPrint t]. simpl. now rewrite H. Qed.

Lemma emits_log_error p t : p (CLogError t) = true -> emits (W:=W) p (log_error t).
Proof. intros H s. exists [CLogError t]. simpl. now rewrite H. Qed.

Lemma emits_input p prompt : p (CInput prompt) = true -> emits (W:=W) p (input prompt).
Proof.
  intros H s. exists [CInput prompt]. unfold input.
  destruct (stdin s); simpl; now rewrite H.
Qed.

Lemma emits_ccall {A} p ev (f : W -> outcome A * W) :
  p ev = true -> emits p (ccall ev f).
Proof.
  intros H s. exists [ev]. unfold ccall.
  destruct (f (cworld s)); simpl; now rewrite H.
Qed.

Lemma emits_bind {A B} p (m : M (cstate W) A) (k : A -> M (cstate W) B) :
  emits p m -> (forall a, emits p (k a)) -> emits p (bind m k).
Proof.
  intros Hm Hk s. unfold bind.
  destruct (Hm s) as (o1 & E1 & F1).
  destruct (m s) as [[a|e] s1]; simpl in E1.
  - destruct (Hk a s1) as (o2 & E2 & F2).
    exists (o1 ++ o2). rewrite E2, E1, app_assoc, forallb_app, F1, F2. auto.
  - exists o1. simpl. auto.
Qed.

Lemma emits_try_except {A} p (body : M (cstate W) A) h :
  emits p body -> (forall e, emits p (h e)) -> emits p (try_except body h).
Proof.
  intros Hm Hk s. unfold try_except.
  destruct (Hm s) as (o1 & E1 & F1).
  destruct (body s) as [[a|e] s1]; simpl in E1.
  - exists o1. simpl. auto.
  - destruct (exn_is_Exception e).
    + destruct (Hk e s1) as (o2 & E2 & F2).
      exists (o1 ++ o2). rewrite E2, E1, app_assoc, forallb_app, F1, F2. auto.
    + exists o1. simpl. auto.
Qed.

Lemma emits_try_except_interrupt {A} p (body : M (cstate W) A) h1 h2 :
  emits p body -> emits p h1 -> (forall e, emits p (h2 e)) ->
  emits p (try_except_interrupt body h1 h2).
Proof.
  intros Hm H1 H2 s. unfold try_except_interrupt.
  destruct (Hm s) as (o1 & E1 & F1).
  destruct (body s) as [[a|e] s1]; simpl in E1.
  - exists o1. simpl. auto.
  - destruct (is_KeyboardInterrupt e).
    + destruct (H1 s1) as (o2 & E2 & F2).
      exists (o1 ++ o2). rewrite E2, E1, app_assoc, forallb_app, F1, F2. auto.
    + destruct (exn_is_Exception e).
      * destruct (H2 e s1) as (o2 & E2 & F2).
        exists (o1 ++ o2). rewrite E2, E1, app_assoc, forallb_app, F1, F2. auto.
      * exists o1. simpl. auto.
Qed.

Lemma choice_loop_emits p answers (w : W) out :
  p (CInput choice_prompt) = true -> p (CPrint invalid_choice) = true ->
  exists more,
    console (snd (choice_loop answers w out)) = out ++ more /\
    forallb p more = true.
Proof.
  intros Hi Hp. revert out.
  induction answers as [|[a|e] rest IH]; intros out; cbn [choice_loop].
  - exists [CInput choice_prompt]. simpl. now rewrite Hi.
  - repeat match goal with
           | |- context [if ?b then _ else _] => destruct b
           end;
      try (exists [CInput choice_prompt]; simpl; now rewrite Hi).
    destruct (IH (out ++ [CInput choice_prompt] ++ [CPrint invalid_choice]))
      as (more & E & F).
    exists ([CInput choice_prompt] ++ [CPrint invalid_choice] ++ more).
    rewrite E. rewrite <- !app_assoc. split; [reflexivity|].
    simpl. now rewrite Hi, Hp, F.
  - exists [CInput choice_prompt]. simpl. now rewrite Hi.
Qed.

Lemma emits_choose_mode p :
  p (CInput choice_prompt) = true -> p (CPrint invalid_choice) = true ->
  emits (W:=W) p choose_mode.
Proof.
  intros Hi Hp s. unfold choose_mode. now apply choice_loop_emits.
Qed.

Ltac emits_step :=
  first
    [ apply emits_ret
    | apply emits_raise
    | apply emits_print; reflexivity
    | apply emits_log_error; reflexivity
    | apply emits_input; reflexivity
    | apply emits_ccall; reflexivity
    | apply emits_choose_mode; reflexivity
    | apply emits_try_except; [|intros ?]
    | apply emits_bind; [|intros ?]
    | match goal with
      | |- emits _ (match ?x with _ => _ end) => destruct x
      end ].

Lemma show_profile_emits p profile_data :
  (forall t, p (CPrint t) = true) ->
  emits p (show_profile (W:=W) repr_list repr_experience profile_data).
Proof.
  intros Hp. unfold show_profile.
  repeat first [apply emits_print; apply Hp | apply emits_bind; [|intros ?]].
Qed.

Lemma show_result_emits p title result :
  (forall t, p (CPrint t) = true) ->
  emits p (show_result (W:=W) title result).
Proof.
  intros Hp. unfold show_result.
  repeat first [apply emits_print; apply Hp | apply emits_ret | apply emits_raise
               | apply emits_bind; [|intros ?]
               | match goal with
                 | |- emits _ (match ?x with _ => _ end) => destruct x
                 end].
Qed.

(** Once the scraper has been called, nothing scrapes again. *)
Lemma generate_all_no_scrape profile_data ms :
  emits not_cscrape (generate_all con profile_data ms).
Proof.
  induction ms as [|m ms IH]; cbn [generate_all].
  - apply emits_ret.
  - unfold analyze_console.
    repeat first [exact IH | apply show_result_emits; reflexivity | emits_step].
Qed.

Lemma save_all_no_scrape profile_data ms :
  emits not_cscrape (save_all con profile_data ms).
Proof.
  induction ms as [|m ms IH]; cbn [save_all].
  - apply emits_ret.
  - unfold analyze_console, save_one.
    repeat first [exact IH | emits_step].
Qed.

Lemma ask_to_save_no_scrape save :
  emits not_cscrape save -> emits not_cscrape (ask_to_save con save).
Proof.
  intros Hs. unfold ask_to_save.
  repeat first [exact Hs | emits_step].
Qed.

Lemma generate_and_save_no_scrape profile_data mode :
  emits not_cscrape (generate_and_save con profile_data mode).
Proof.
  unfold generate_and_save. destruct (str_eqb mode (lit "all")).
  - repeat first [apply generate_all_no_scrape
                 | apply ask_to_save_no_scrape; apply save_all_no_scrape
                 | emits_step].
  - unfold analyze_console.
    repeat first [apply show_result_emits; reflexivity
                 | apply ask_to_save_no_scrape; unfold save_one
                 | emits_step].
Qed.

Lemma bind_input_end {A} prompt (k : str -> M (cstate W) A) (w : W) out :
  bind (input prompt) k (mkC w [] out)
  = (Raise EOFError, mkC w [] (out ++ [CInput prompt])).
Proof. reflexivity. Qed.

Lemma bind_input_raised {A} prompt (k : str -> M (cstate W) A) (w : W) e rest out :
  bind (input prompt) k (mkC w (Raise e :: rest) out)
  = (Raise e, mkC w rest (out ++ [CInput prompt])).
Proof. reflexivity. Qed.

Lemma try_except_interrupt_bind {S A B} (m : M S A) (k : A -> M S B) h1 h2 s :
  try_except_interrupt (bind m k) h1 h2 s
  = match m s with
    | (Ret a, s1) => try_except_interrupt (k a) h1 h2 s1
    | (Raise e, s1) => try_except_interrupt (raise e) h1 h2 s1
    end.
Proof.
  unfold try_except_interrupt, bind, raise.
  now destruct (m s) as [[a|e] s1].
Qed.

Lemma no_scrape_filter (l : list console_event) :
  forallb not_cscrape l = true -> filter is_cscrape l = [].
Proof.
  induction l as [|e l IH]; simpl; [reflexivity|].
  unfold not_cscrape at 1. destruct (is_cscrape e); simpl; [discriminate|exact IH].
Qed.

(** The [try] block starts with the call of the scraper and never calls
    it again. *)
Lemma session_scrapes_first profile_url h1 h2 (s : cstate W) :
  emits not_cscrape h1 -> (forall e, emits not_cscrape (h2 e)) ->
  exists post,
    console (snd (try_except_interrupt
                    (console_session con repr_list repr_experience profile_url)
                    h1 h2 s))
    = console s ++ CScrape profile_url true :: post /\
    forallb not_cscrape post = true.
Proof.
  intros H1 H2. unfold console_session.
  rewrite try_except_interrupt_bind. unfold ccall at 1.
  destruct (scrape_linkedin_profile (services con) profile_url true (cworld s))
    as [[profile_data|e] w1].
  - match goal with
    | |- context [try_except_interrupt ?body h1 h2 ?s1] =>
        assert (Hb : emits not_cscrape (try_except_interrupt body h1 h2))
    end.
    { apply emits_try_except_interrupt; auto.
      destruct profile_data as [p|]; [destruct (profile_nonempty p)|].
      - apply emits_bind; [apply show_profile_emits; reflexivity|]. intros _.
        apply emits_bind; [apply emits_choose_mode; reflexivity|]. intros mode.
        apply generate_and_save_no_scrape.
      - apply emits_print; reflexivity.
      - apply emits_print; reflexivity. }
    match goal with
    | |- context [try_except_interrupt ?body h1 h2 ?s1] =>
        destruct (Hb s1) as (post & E & F)
    end.
    exists post. rewrite E. cbn [console]. rewrite <- app_assoc. auto.
  - assert (Hb : emits (W:=W) (A:=unit) not_cscrape
                   (try_except_interrupt (raise e) h1 h2)).
    { apply emits_try_except_interrupt; auto. apply emits_raise. }
    match goal with
    | |- context [try_except_interrupt (raise e) h1 h2 ?s1] =>
        destruct (Hb s1) as (post & E & F)
    end.
    exists post. rewrite E. cbn [console]. rewrite <- app_assoc. auto.
Qed.

(** X23: the console mode calls nobody before its checks have passed,
    and scrapes once at most.  Either a run makes no call at all, or a
    key is configured, the first answer, stripped, contains
    "linkedin.com/in/", and the first call of the run, and its only call
    of the scraper, is for that stripped answer with [headless=True]. *)
Theorem console_scrapes_only_a_checked_url
    (answers : list (outcome str)) (w : W) :
  let out := console (snd (run_console con repr_list repr_experience answers w)) in
  console_calls out = [] \/
  exists answer rest,
    answers = Ret answer :: rest /\
    key_configured (services con) = true /\
    contains profile_marker (strip answer) = true /\
    hd_error (console_calls out) = Some (CScrape (strip answer) true) /\
    filter is_cscrape out = [CScrape (strip answer) true].
Proof.
  cbv zeta. unfold run_console, run_console_mode.
  rewrite !bind_print.
  destruct (key_configured (services con)) eqn:Hk; cbn [negb];
    [|left; reflexivity].
  rewrite bind_print.
  destruct answers as [|[answer|e] rest].
  - left. reflexivity.
  - rewrite bind_input. cbv zeta.
    destruct (str_truthy (strip answer)) eqn:Ht; cbn [negb]; [|left; reflexivity].
    destruct (contains profile_marker (strip answer)) eqn:Hc; cbn [negb];
      [|left; reflexivity].
    rewrite !bind_print.
    match goal with
    | |- context [try_except_interrupt ?body ?h1 ?h2 ?s1] =>
        destruct (session_scrapes_first (strip answer) h1 h2 s1)
          as (post & E & F)
    end.
    { apply emits_print; reflexivity. }
    { intros e. apply emits_bind; [apply emits_print; reflexivity|].
      intros _. apply emits_log_error; reflexivity. }
    right. exists answer, rest.
    split; [reflexivity|]. split; [reflexivity|]. split; [exact Hc|].
    rewrite E. cbn [console]. unfold console_calls. rewrite !filter_app.
    split; [reflexivity|].
    cbn [filter is_cscrape]. now rewrite (no_scrape_filter post F).
  - left. reflexivity.
Qed.

(** X24: what leaves the console mode.  An exception comes out of a run
    only if the very first [input()], which stands before the [try],
    raised it (the end of the input, or an interrupt at the prompt for
    the URL), and then nobody was called; or if it is neither an
    [Exception] nor a [KeyboardInterrupt].  Everything else that is
    raised is reported and the run returns. *)
Theorem console_mode_lets_through
    (answers : list (outcome str)) (w : W) e s' :
  run_console con repr_list repr_experience answers w = (Raise e, s') ->
  (key_configured (services con) = true /\
   console_calls (console s') = [] /\
   (answers = [] /\ e = EOFError \/ exists rest, answers = Raise e :: rest))
  \/ (exn_is_Exception e = false /\ is_KeyboardInterrupt e = false).
Proof.
  unfold run_console, run_console_mode.
  rewrite !bind_print.
  destruct (key_configured (services con)) eqn:Hk; cbn [negb];
    [|intros H; discriminate H].
  rewrite bind_print.
  destruct answers as [|[answer|e0] rest].
  - rewrite bind_input_end. intros H; inversion H; subst.
    left. split; [reflexivity|]. split; [reflexivity|]. left; auto.
  - rewrite bind_input. cbv zeta.
    destruct (str_truthy (strip answer)); cbn [negb]; [|intros H; discriminate H].
    destruct (contains profile_marker (strip answer)); cbn [negb];
      [|intros H; discriminate H].
    rewrite !bind_print. unfold try_except_interrupt.
    match goal with
    | |- context [console_session _ _ _ _ ?s1] =>
        destruct (console_session con repr_list repr_experience (strip answer) s1)
          as [[[]|e1] s2]
    end.
    + intros H; discriminate H.
    + destruct (is_KeyboardInterrupt e1) eqn:Hi; [intros H; discriminate H|].
      destruct (exn_is_Exception e1) eqn:He; [intros H; discriminate H|].
      intros H; inversion H; subst. right; auto.
  - rewrite bind_input_raised. intros H; inversion H; subst.
    left. split; [reflexivity|]. split; [reflexivity|]. right; eauto.
Qed.

(** One turn of the loop of lines 77-93. *)
Lemma choice_loop_turn answer rest (w : W) out :
  choice_loop (Ret answer :: rest) w out
  = match mode_of_answer answer with
    | Some mode => (Ret mode, mkC w rest (out ++ [CInput choice_prompt]))
    | None =>
        choice_loop rest w (out ++ [CInput choice_prompt] ++ [CPrint invalid_choice])
    end.
Proof.
  cbn [choice_loop]. unfold mode_of_answer. cbv zeta.
  repeat match goal with
         | |- context [if ?b then _ else _] => destruct b
         end; reflexivity.
Qed.

(** The loop is the [while True] of the source: it asks, and either
    leaves with a mode or complains and starts again. *)
Lemma choose_mode_unfold (s : cstate W) :
  choose_mode s
  = (answer <- input choice_prompt ;;
     match mode_of_answer answer with
     | Some mode => ret mode
     | None => print invalid_choice ;;; choose_mode
     end) s.
Proof.
  destruct s as [w answers out]. unfold choose_mode at 1. cbn [stdin cworld console].
  destruct answers as [|[answer|e] rest].
  - reflexivity.
  - rewrite choice_loop_turn, bind_input.
    destruct (mode_of_answer answer); [reflexivity|].
    rewrite bind_print. unfold choose_mode. cbn [stdin cworld console].
    now rewrite <- app_assoc.
  - reflexivity.
Qed.

Lemma choice_loop_asks_again bad tail (w : W) out :
  Forall (fun answer => mode_of_answer answer = None) bad ->
  choice_loop (map Ret bad ++ tail) w out
  = choice_loop tail w (out ++ asked_again bad).
Proof.
  intros Hbad. revert out.
  induction Hbad as [|answer bad Ha Hbad IH]; intros out.
  - unfold asked_again. simpl. now rewrite app_nil_r.
  - cbn [map app]. rewrite choice_loop_turn, Ha, IH.
    unfold asked_again. cbn [map List.concat]. now rewrite <- !app_assoc.
Qed.

(** X25: the prompt for the mode.  Answers that, stripped and lowered,
    are none of 1, 2, 3 and all are turned down one by one, each with
    the complaint and the prompt again, and change nothing else: the
    first answer that is one of them selects the mode and is the last
    one read.  When the answers run out before that, the loop ends with
    [EOFError]; an exception at the prompt ends it as it is. *)
Theorem choice_is_the_first_valid_answer (bad : list str) (w : W)
    (out : list console_event) :
  Forall (fun answer => mode_of_answer answer = None) bad ->
  (forall good mode rest,
      mode_of_answer good = Some mode ->
      choose_mode (mkC w (map Ret bad ++ Ret good :: rest) out)
      = (Ret mode,
         mkC w rest (out ++ asked_again bad ++ [CInput choice_prompt]))) /\
  choose_mode (mkC w (map Ret bad) out)
  = (Raise EOFError,
     mkC w [] (out ++ asked_again bad ++ [CInput choice_prompt])) /\
  (forall e rest,
      choose_mode (mkC w (map Ret bad ++ Raise e :: rest) out)
      = (Raise e,
         mkC w rest (out ++ asked_again bad ++ [CInput choice_prompt]))).
Proof.
  intros Hbad. unfold choose_mode. cbn [stdin cworld console].
  split; [|split].
  - intros good mode rest Hgood.
    rewrite (choice_loop_asks_again bad _ w out Hbad), choice_loop_turn, Hgood.
    now rewrite <- app_assoc.
  - rewrite <- (app_nil_r (map Ret bad)).
    rewrite (choice_loop_asks_again bad _ w out Hbad). cbn [choice_loop].
    now rewrite <- app_assoc.
  - intros e rest.
    rewrite (choice_loop_asks_again bad _ w out Hbad). cbn [choice_loop].
    now rewrite <- app_assoc.
Qed.

Lemma try_except_returned {S A} (body : M S A) h s a s' :
  body s = (Ret a, s') -> try_except body h s = (Ret a, s').
Proof. intros H. unfold try_except. now rewrite H. Qed.

Lemma show_result_text title a t (w : W) i out :
  a_result a = Some t ->
  show_result title a (mkC w i out)
  = (Ret tt,
     mkC w i (out ++ [CPrint (nl ++ rule); CPrint title; CPrint rule;
                      CPrint t; CPrint rule])).
Proof.
  intros H. unfold show_result. rewrite !bind_print, H, bind_ret, bind_print.
  unfold print. cbn [cworld stdin console]. now rewrite <- !app_assoc.
Qed.

(** The first round of the mode "all": one analysis per mode, whatever
    each gives, and no other call. *)
Lemma generate_all_shown p ms :
  analysis_answers con p ->
  forall (w : W) i out, exists w' shown,
    generate_all con p ms (mkC w i out) = (Ret tt, mkC w' i (out ++ shown)) /\
    console_calls shown = map (CAnalyze p) ms.
Proof.
  intros Hana. induction ms as [|m ms IH]; intros w i out.
  - exists w, []. now rewrite app_nil_r.
  - cbn [generate_all]. rewrite bind_print. unfold analyze_console.
    destruct (Hana m w) as (r & w1 & Hr & Hcase).
    rewrite (bind_ccall _ _ _ _ _ _ _ _ Hr).
    assert (Hstep : exists line,
               (match r with
                | Some a =>
                    if analysis_failed r
                    then print (nl ++ cross_mark ++ lit " Failed to generate " ++ m)
                    else show_result (upper m) a
                | None => print (nl ++ cross_mark ++ lit " Failed to generate " ++ m)
                end)
                 (mkC w1 i
                    ((out ++ [CPrint (nl ++ arrows ++ lit " Generating " ++ m
                                      ++ lit "...")])
                     ++ [CAnalyze p m]))
               = (Ret tt,
                  mkC w1 i
                    (((out ++ [CPrint (nl ++ arrows ++ lit " Generating " ++ m
                                       ++ lit "...")])
                      ++ [CAnalyze p m]) ++ line)) /\
               console_calls line = []).
    { destruct Hcase as [Hf | (a & t & -> & Ht)].
      - destruct r as [a|]; [rewrite Hf|]; eexists; split; reflexivity.
      - destruct (analysis_failed (Some a)).
        + eexists; split; reflexivity.
        + rewrite (show_result_text _ _ _ _ _ _ Ht). eexists; split; reflexivity. }
    destruct Hstep as (line & Hline & Hcalls).
    rewrite (bind_returned _ _ _ _ _ Hline).
    match goal with
    | |- context [generate_all con p ms (mkC w1 i ?o)] =>
        destruct (IH w1 i o) as (w2 & shown & E & C)
    end.
    rewrite E. rewrite <- !app_assoc.
    eexists _, _. split; [reflexivity|].
    unfold console_calls in *. rewrite !filter_app, Hcalls, C. reflexivity.
Qed.

(** The second round: when saving, every mode is analysed again. *)
Lemma save_all_analyses p ms :
  analysis_answers con p -> saving_returns con ->
  forall (w : W) i out, exists w' saved,
    save_all con p ms (mkC w i out) = (Ret tt, mkC w' i (out ++ saved)) /\
    filter is_canalyze saved = map (CAnalyze p) ms.
Proof.
  intros Hana Hsave. induction ms as [|m ms IH]; intros w i out.
  - exists w, []. now rewrite app_nil_r.
  - cbn [save_all]. unfold analyze_console.
    destruct (Hana m w) as (r & w1 & Hr & _).
    rewrite (bind_ccall _ _ _ _ _ _ _ _ Hr).
    assert (Hstep : exists w2 line,
               (match r with
                | Some a =>
                    if analysis_failed r
                    then ret tt
                    else save_one con a
                           (fun f => check_mark ++ lit " " ++ capitalize m
                                     ++ lit " saved to: " ++ f)
                | None => ret tt
                end)
                 (mkC w1 i (out ++ [CAnalyze p m]))
               = (Ret tt, mkC w2 i ((out ++ [CAnalyze p m]) ++ line)) /\
               filter is_canalyze line = []).
    { assert (Hnone : exists w2 line,
                 ret (S:=cstate W) tt (mkC w1 i (out ++ [CAnalyze p m]))
                 = (Ret tt, mkC w2 i ((out ++ [CAnalyze p m]) ++ line)) /\
                 filter is_canalyze line = []).
      { exists w1, []. now rewrite app_nil_r. }
      destruct r as [a|]; [|exact Hnone].
      destruct (analysis_failed (Some a)); [exact Hnone|].
      unfold save_one.
      destruct (Hsave a w1) as (f & w2 & Hf).
      rewrite (bind_ccall _ _ _ _ _ _ _ _ Hf).
      destruct f as [f|]; [destruct (str_truthy f)|];
        exists w2; eexists; (split; [unfold print, ret; cbn [cworld stdin console];
                                     rewrite <- ?app_assoc; reflexivity
                                    | reflexivity]). }
    destruct Hstep as (w2 & line & Hline & Hcalls).
    rewrite (bind_returned _ _ _ _ _ Hline).
    match goal with
    | |- context [save_all con p ms (mkC w2 i ?o)] =>
        destruct (IH w2 i o) as (w3 & saved & E & C)
    end.
    rewrite E. rewrite <- !app_assoc.
    eexists _, _. split; [reflexivity|].
    rewrite !filter_app, Hcalls, C. reflexivity.
Qed.

(** X26: saving in the mode "all" analyses everything a second time.
    When the analysis and the saving return, the mode "all" answered by
    y makes three analyses to show them and no other call, then
    constructs the analyzer and makes the same three analyses again:
    nothing is saved before that second round. *)
Theorem saving_all_modes_analyses_again
    (p : ProfileRecord) (answer : str) (rest : list (outcome str)) (w : W)
    (out : list console_event) :
  analysis_answers con p ->
  analyzer_available con ->
  saving_returns con ->
  str_eqb (strip (lower answer)) (lit "y") = true ->
  exists w' shown saved,
    generate_and_save con p (lit "all") (mkC w (Ret answer :: rest) out)
    = (Ret tt,
       mkC w' rest
         (out ++ shown ++ [CInput save_prompt; CNewAnalyzer] ++ saved
          ++ [CPrint completed_line])) /\
    console_calls shown = map (CAnalyze p) modes /\
    filter is_canalyze saved = map (CAnalyze p) modes.
Proof.
  intros Hana Hnew Hsave Hy. unfold generate_and_save.
  rewrite str_eqb_refl, bind_print.
  match goal with
  | |- context [bind (generate_all con p modes) _ (mkC w ?i ?o)] =>
      destruct (generate_all_shown p modes Hana w i o) as (w1 & shown & E1 & C1)
  end.
  rewrite (bind_returned _ _ _ _ _ E1).
  unfold ask_to_save. rewrite bind_input. cbv zeta. rewrite Hy.
  destruct (Hnew w1) as (w2 & Hw2).
  match goal with
  | |- context [mkC w1 rest ?o] =>
      destruct (save_all_analyses p modes Hana Hsave w2 rest (o ++ [CNewAnalyzer]))
        as (w3 & saved & E2 & C2)
  end.
  erewrite bind_returned;
    [| apply try_except_returned;
       rewrite (bind_ccall _ _ _ _ _ _ _ _ Hw2); exact E2].
  unfold print. cbn [cworld stdin console].
  exists w3, ([CPrint (nl ++ robot ++ lit " Generating all analysis types...")]
              ++ shown), saved.
  split; [|split].
  - rewrite <- !app_assoc. reflexivity.
  - unfold console_calls in *. rewrite filter_app, C1. reflexivity.
  - exact C2.
Qed.

Lemma every_analysis_fails_answers p :
  every_analysis_fails con p -> analysis_answers con p.
Proof.
  intros H m w. destruct (H m w) as (r & w' & Hr & Hf).
  exists r, w'. auto.
Qed.

(** When every analysis fails, the second round saves nothing. *)
Lemma save_all_failing p ms :
  every_analysis_fails con p ->
  forall (w : W) i out, exists w' saved,
    save_all con p ms (mkC w i out) = (Ret tt, mkC w' i (out ++ saved)) /\
    filter is_csave saved = [].
Proof.
  intros Hfail. induction ms as [|m ms IH]; intros w i out.
  - exists w, []. now rewrite app_nil_r.
  - cbn [save_all]. unfold analyze_console.
    destruct (Hfail m w) as (r & w1 & Hr & Hf).
    rewrite (bind_ccall _ _ _ _ _ _ _ _ Hr).
    assert (Hstep :
              (match r with
               | Some a =>
                   if analysis_failed r
                   then ret tt
                   else save_one con a
                          (fun f => check_mark ++ lit " " ++ capitalize m
                                    ++ lit " saved to: " ++ f)
               | None => ret tt
               end)
                (mkC w1 i (out ++ [CAnalyze p m]))
              = (Ret tt, mkC w1 i (out ++ [CAnalyze p m]))).
    { destruct r as [a|]; [rewrite Hf|]; reflexivity. }
    rewrite (bind_returned _ _ _ _ _ Hstep).
    destruct (IH w1 i (out ++ [CAnalyze p m])) as (w2 & saved & E & C).
    rewrite E. rewrite <- !app_assoc.
    eexists _, _. split; [reflexivity|].
    cbn [app filter is_csave]. exact C.
Qed.

(** X27: a failed analysis ends a run of one mode on the spot, and is
    passed over in the mode "all".  When every analysis fails, a run of
    one mode returns after the failure message without asking anything
    (the answers that wait are left alone); the mode "all" goes on to
    ask whether to save, stores nothing, and ends with "Process
    completed successfully!". *)
Theorem failed_analysis_ends_one_mode_only (p : ProfileRecord) :
  every_analysis_fails con p ->
  analyzer_available con ->
  (forall mode (w : W) i out,
      In mode modes ->
      exists w' line,
        generate_and_save con p mode (mkC w i out)
        = (Ret tt,
           mkC w' i
             (out ++ [CPrint line; CAnalyze p mode;
                      CPrint (nl ++ cross_mark ++ lit " Failed to generate "
                              ++ mode)]))) /\
  (forall answer rest (w : W) out,
      exists w' shown saved,
        generate_and_save con p (lit "all") (mkC w (Ret answer :: rest) out)
        = (Ret tt,
           mkC w' rest
             (out ++ shown ++ [CInput save_prompt] ++ saved
              ++ [CPrint completed_line])) /\
        console_calls shown = map (CAnalyze p) modes /\
        filter is_csave saved = []).
Proof.
  intros Hfail Hnew. split.
  - intros mode w i out Hin.
    destruct (Hfail mode w) as (r & w1 & Hr & Hf).
    exists w1.
    assert (Hname : exists name,
               str_eqb mode (lit "all") = false /\
               dict_get mode_names mode = Some name).
    { unfold modes in Hin. cbn [In] in Hin.
      destruct Hin as [<- | [<- | [<- | []]]]; eexists; split; reflexivity. }
    destruct Hname as (name & Hall & Hget).
    unfold generate_and_save. rewrite Hall, Hget, bind_ret, bind_print.
    unfold analyze_console. rewrite (bind_ccall _ _ _ _ _ _ _ _ Hr).
    eexists.
    destruct r as [a|]; [rewrite Hf|]; unfold print; cbn [cworld stdin console];
      rewrite <- !app_assoc; reflexivity.
  - intros answer rest w out. unfold generate_and_save.
    rewrite str_eqb_refl, bind_print.
    match goal with
    | |- context [bind (generate_all con p modes) _ (mkC w ?i ?o)] =>
        destruct (generate_all_shown p modes (every_analysis_fails_answers p Hfail)
                    w i o) as (w1 & shown & E1 & C1)
    end.
    rewrite (bind_returned _ _ _ _ _ E1).
    unfold ask_to_save. rewrite bind_input. cbv zeta.
    destruct (str_eqb (strip (lower answer)) (lit "y")).
    + destruct (Hnew w1) as (w2 & Hw2).
      match goal with
      | |- context [mkC w1 rest ?o] =>
          destruct (save_all_failing p modes Hfail w2 rest (o ++ [CNewAnalyzer]))
            as (w3 & saved & E2 & C2)
      end.
      erewrite bind_returned;
        [| apply try_except_returned;
           rewrite (bind_ccall _ _ _ _ _ _ _ _ Hw2); exact E2].
      unfold print. cbn [cworld stdin console].
      exists w3,
        ([CPrint (nl ++ robot ++ lit " Generating all analysis types...")]
         ++ shown), (CNewAnalyzer :: saved).
      split; [|split].
      * rewrite <- !app_assoc. reflexivity.
      * unfold console_calls in *. rewrite filter_app, C1. reflexivity.
      * cbn [filter is_csave]. exact C2.
    + rewrite bind_ret. unfold print. cbn [cworld stdin console].
      exists w1,
        ([CPrint (nl ++ robot ++ lit " Generating all analysis types...")]
         ++ shown), [].
      split; [|split].
      * rewrite <- !app_assoc. reflexivity.
      * unfold console_calls in *. rewrite filter_app, C1. reflexivity.
      * reflexivity.
Qed.

(** Saving one record: the call, and perhaps a line. *)
Lemma save_one_cases a saved (w : W) i out :
  exists r w' line,
    save_one con a saved (mkC w i out) = (r, mkC w' i (out ++ CSave a :: line)) /\
    console_calls line = [].
Proof.
  unfold save_one, bind, ccall. cbn [cworld stdin console].
  destruct (save_result con a w) as [[[f|]|e] w'].
  - destruct (str_truthy f).
    + exists (Ret tt), w', [CPrint (saved f)]. unfold print.
      cbn [cworld stdin console]. rewrite <- app_assoc. auto.
    + exists (Ret tt), w', []. auto.
  - exists (Ret tt), w', []. auto.
  - exists (Raise e), w', []. auto.
Qed.

(** X28: in a run of one mode the record that is saved is the record
    that was shown.  When the analysis gives a record with a text and
    without error, the answer is y and the analyzer can be constructed,
    the calls are the one analysis, the constructor and [save_result]
    on that very record, whatever saving then does, and the text of the
    record is among the lines printed. *)
Theorem one_mode_saves_what_it_showed
    (p : ProfileRecord) (mode : str) (a : AnalysisResult) (t : str)
    (answer : str) (rest : list (outcome str)) (w w1 w2 : W)
    (out : list console_event) :
  In mode modes ->
  analyze_profile (collab (services con)) p mode w = (Ret (Some a), w1) ->
  analysis_failed (Some a) = false ->
  a_result a = Some t ->
  str_eqb (strip (lower answer)) (lit "y") = true ->
  new_analyzer con w1 = (Ret tt, w2) ->
  let s' := snd (generate_and_save con p mode (mkC w (Ret answer :: rest) out)) in
  console_calls (console s')
  = console_calls out ++ [CAnalyze p mode; CNewAnalyzer; CSave a] /\
  In (CPrint t) (console s') /\
  stdin s' = rest.
Proof.
  intros Hin Hr Hf Ht Hy Hw2.
  assert (Hrun : exists r' w3 pre line more,
             generate_and_save con p mode (mkC w (Ret answer :: rest) out)
             = (r', mkC w3 rest
                      (((pre ++ [CNewAnalyzer]) ++ CSave a :: line) ++ more)) /\
             console_calls pre = console_calls out ++ [CAnalyze p mode] /\
             In (CPrint t) pre /\
             console_calls line = [] /\
             console_calls more = []).
  { assert (Hname : exists name,
               str_eqb mode (lit "all") = false /\
               dict_get mode_names mode = Some name).
    { unfold modes in Hin. cbn [In] in Hin.
      destruct Hin as [<- | [<- | [<- | []]]]; eexists; split; reflexivity. }
    destruct Hname as (name & Hall & Hget).
    unfold generate_and_save. rewrite Hall, Hget, bind_ret, bind_print.
    unfold analyze_console. rewrite (bind_ccall _ _ _ _ _ _ _ _ Hr). rewrite Hf.
    rewrite (bind_returned _ _ _ _ _ (show_result_text _ _ _ _ _ _ Ht)).
    unfold ask_to_save. rewrite bind_input. cbv zeta. rewrite Hy.
    match goal with
    | |- context [mkC w1 rest ?o] => set (pre := o)
    end.
    assert (Hpre : console_calls pre = console_calls out ++ [CAnalyze p mode]).
    { unfold pre, console_calls. rewrite !filter_app. cbn [filter is_console_call].
      now rewrite !app_nil_r. }
    assert (Hshown : In (CPrint t) pre).
    { unfold pre. rewrite !in_app_iff. left. right. cbn [In]. auto. }
    destruct (save_one_cases a
                (fun f => check_mark ++ lit " Result saved to: " ++ f)
                w2 rest (pre ++ [CNewAnalyzer]))
      as (r & w3 & line & Hs & Hl).
    assert (Hbody :
              (ccall CNewAnalyzer (new_analyzer con) ;;;
               save_one con a
                 (fun f => check_mark ++ lit " Result saved to: " ++ f))
                (mkC w1 rest pre)
              = (r, mkC w3 rest ((pre ++ [CNewAnalyzer]) ++ CSave a :: line))).
    { rewrite (bind_ccall _ _ _ _ _ _ _ _ Hw2). exact Hs. }
    unfold bind at 1, try_except. rewrite Hbody.
    destruct r as [[]|e]; [|destruct (exn_is_Exception e)];
      unfold print, bind; cbn [cworld stdin console].
    - exists (Ret tt), w3, pre, line, [CPrint completed_line]. auto.
    - exists (Ret tt), w3, pre, line,
        [CPrint (cross_mark ++ lit " Error saving file: " ++ exn_str e);
         CPrint completed_line].
      rewrite <- app_assoc. auto.
    - exists (Raise e), w3, pre, line, []. rewrite app_nil_r. auto. }
  destruct Hrun as (r' & w3 & pre & line & more & Hrun & Hpre & Hshown & Hl & Hm).
  cbv zeta. rewrite Hrun. cbn [snd console stdin].
  split; [|split; [|reflexivity]].
  - unfold console_calls in *. rewrite !filter_app. cbn [filter is_console_call].
    rewrite Hpre, Hl, Hm, <- !app_assoc. reflexivity.
  - rewrite !in_app_iff. auto.
Qed.

End ConsoleFacts.

Lemma console_mode_lets_through_witness :
  (key_configured (services ConsoleSamples.con_ok) = true /\
   console_calls
     (console
        (snd (run_console ConsoleSamples.con_ok Sample.repr_list
                (fun _ => lit "[]") [@Raise str Sample.interrupt] tt))) = [] /\
   ([@Raise str Sample.interrupt] = [] /\ Sample.interrupt = EOFError \/
    exists rest, [@Raise str Sample.interrupt] = @Raise str Sample.interrupt :: rest))
  \/ (exn_is_Exception Sample.interrupt = false /\
      is_KeyboardInterrupt Sample.interrupt = false).
Proof.
  apply (console_mode_lets_through ConsoleSamples.con_ok Sample.repr_list
           (fun _ => lit "[]") [@Raise str Sample.interrupt] tt Sample.interrupt).
  reflexivity.
Defined.

Lemma choice_is_the_first_valid_answer_witness :
  (forall good mode rest,
      mode_of_answer good = Some mode ->
      choose_mode (mkC tt (map Ret [lit "4"; lit "yes"] ++ Ret good :: rest) [])
      = (Ret mode,
         mkC tt rest
           ([] ++ asked_again [lit "4"; lit "yes"] ++ [CInput choice_prompt]))) /\
  choose_mode (mkC tt (map Ret [lit "4"; lit "yes"]) [])
  = (Raise EOFError,
     mkC tt []
       ([] ++ asked_again [lit "4"; lit "yes"] ++ [CInput choice_prompt])) /\
  (forall e rest,
      choose_mode (mkC tt (map Ret [lit "4"; lit "yes"] ++ Raise e :: rest) [])
      = (Raise e,
         mkC tt rest
           ([] ++ asked_again [lit "4"; lit "yes"] ++ [CInput choice_prompt]))).
Proof.
  apply (choice_is_the_first_valid_answer [lit "4"; lit "yes"] tt []).
  repeat constructor.
Defined.

Lemma saving_all_modes_analyses_again_witness :
  exists w' shown saved,
    generate_and_save ConsoleSamples.con_ok ConsoleSamples.jane (lit "all")
      (mkC tt [Ret (lit " Y ")] [])
    = (Ret tt,
       mkC w' []
         ([] ++ shown ++ [CInput save_prompt; CNewAnalyzer] ++ saved
          ++ [CPrint completed_line])) /\
    console_calls shown = map (CAnalyze ConsoleSamples.jane) modes /\
    filter is_canalyze saved = map (CAnalyze ConsoleSamples.jane) modes.
Proof.
  apply (saving_all_modes_analyses_again ConsoleSamples.con_ok
           ConsoleSamples.jane (lit " Y ") [] tt []).
  - intros m w. exists (Some (ConsoleSamples.shown m)), w.
    split; [reflexivity|]. right. eexists _, _. split; reflexivity.
  - intros w. exists w. reflexivity.
  - intros a w. eexists _, w. reflexivity.
  - reflexivity.
Defined.

Lemma failed_analysis_ends_one_mode_only_witness :
  (forall mode (w : unit) i out,
      In mode modes ->
      exists w' line,
        generate_and_save ConsoleSamples.con_analysis_fails ConsoleSamples.jane
          mode (mkC w i out)
        = (Ret tt,
           mkC w' i
             (out ++ [CPrint line; CAnalyze ConsoleSamples.jane mode;
                      CPrint (nl ++ cross_mark ++ lit " Failed to generate "
                              ++ mode)]))) /\
  (forall answer rest (w : unit) out,
      exists w' shown saved,
        generate_and_save ConsoleSamples.con_analysis_fails ConsoleSamples.jane
          (lit "all") (mkC w (Ret answer :: rest) out)
        = (Ret tt,
           mkC w' rest
             (out ++ shown ++ [CInput save_prompt] ++ saved
              ++ [CPrint completed_line])) /\
        console_calls shown = map (CAnalyze ConsoleSamples.jane) modes /\
        filter is_csave saved = []).
Proof.
  apply (failed_analysis_ends_one_mode_only ConsoleSamples.con_analysis_fails
           ConsoleSamples.jane).
  - intros m w. eexists _, w. split; reflexivity.
  - intros w. exists w. reflexivity.
Defined.

Lemma one_mode_saves_what_it_showed_witness :
  let s' :=
    snd (generate_and_save ConsoleSamples.con_disk_full ConsoleSamples.jane
           (lit "summary") (mkC tt [Ret (lit "y")] [])) in
  console_calls (console s')
  = console_calls []
    ++ [CAnalyze ConsoleSamples.jane (lit "summary"); CNewAnalyzer;
        CSave (ConsoleSamples.shown (lit "summary"))] /\
  In (CPrint (lit "text of " ++ lit "summary")) (console s') /\
  stdin s' = [].
Proof.
  apply (one_mode_saves_what_it_showed ConsoleSamples.con_disk_full
           ConsoleSamples.jane (lit "summary")
           (ConsoleSamples.shown (lit "summary"))
           (lit "text of " ++ lit "summary") (lit "y") [] tt tt tt []).
  - right. left. reflexivity.
  - reflexivity.
  - reflexivity.
  - reflexivity.
  - reflexivity.
  - reflexivity.
Defined.
